(** * Schema compiler of nextjs-json-schema-generator: a shallow embedding

    The development follows the TypeScript sources of the generator:

    - [scripts/lib/config.ts]            the JSON descriptor model;
    - [scripts/lib/stringTransforms.ts]  identifier conversions;
    - [scripts/lib/template.ts]          file header, imports, table validator;
    - [scripts/models/utils/*.ts]        type mapping and schema analysis;
    - [scripts/models/generators/*.ts]   the validation, types and storage
                                         emitters and the aggregation files;
    - [scripts/models/index.ts]          the models coordinator.

    Conventions of the embedding.

    - A JavaScript string is a Rocq [string]; the operations used by the
      generator ([endsWith], [slice], the two regular-expression rewrites,
      [split], [trim]) only ever test for ASCII characters, so they act on the
      UTF-8 bytes exactly as they act on the UTF-16 units of an ASCII text.
    - A JSON number is an integer [Z], printed in decimal as a template
      literal prints it; a number is truthy when it is not zero.  Numerals
      with a fraction or an exponent are outside the model.
    - An optional property is an [option]; [None] is JavaScript's [undefined].
    - A JSON object used as an ordered map ([columns], [indexes], the enum
      set) is the association list that [Object.entries] enumerates, in
      that order.
    - A function that can throw returns a [Res]; a function that reads the
      clock or writes a file is a [Gen]. *)

From Stdlib Require Import String Ascii List ZArith Bool Arith Lia.
From Stdlib Require Import Numbers.DecimalString.
From Stdlib Require Import Sorting.Sorted Sorting.Permutation.
Import ListNotations.
Open Scope list_scope.
Open Scope string_scope.

(** ** Exceptions *)

Inductive Exn : Type :=
| TypeError                          (* a member access or call on a non-object *)
| InvalidTable (message : string)    (* [throw new Error(`Invalid table ...`)] *)
| ProcessExit (code : Z).            (* the process has ended with this code *)

Inductive Res (A : Type) : Type :=
| Ok (a : A)
| Throw (e : Exn).

Arguments Ok {A} a.
Arguments Throw {A} e.

Definition bind {A B : Type} (m : Res A) (k : A -> Res B) : Res B :=
  match m with
  | Ok a => k a
  | Throw e => Throw e
  end.

Notation "x <- m ;; k" := (bind m (fun x => k))
  (at level 61, m at next level, right associativity).

(** [forEach] with a body that may throw, threading the accumulator that the
    body mutates. *)
Fixpoint forEachM {A S : Type} (body : S -> A -> Res S) (l : list A) (acc : S)
  : Res S :=
  match l with
  | [] => Ok acc
  | x :: rest => acc' <- body acc x ;; forEachM body rest acc'
  end.

(** ** The generator's effects: the clock and the file writer

    A run reads the wall clock ([new Date()]) and writes files.  The clock is
    an oracle giving the text of the k-th reading of the run; the world
    counts the readings made so far and logs the files written, in order.
    [Throw] out of a generator that has called [process.exit(1)] carries
    [ProcessExit]. *)

Definition Clock : Type := nat -> string.

Record World : Type := {
  reads : nat;
  written : list (string * string)
}.

Definition Gen (A : Type) : Type := Clock -> World -> Res A * World.

Definition ret {A : Type} (a : A) : Gen A := fun _ w => (Ok a, w).

Definition lift {A : Type} (r : Res A) : Gen A := fun _ w => (r, w).

Definition bindG {A B : Type} (m : Gen A) (k : A -> Gen B) : Gen B :=
  fun clock w =>
    match m clock w with
    | (Ok a, w') => k a clock w'
    | (Throw e, w') => (Throw e, w')
    end.

Notation "x <~ m ;; k" := (bindG m (fun x => k))
  (at level 61, m at next level, right associativity).

(** [new Date().toISOString()] *)
Definition toISOStringNow : Gen string :=
  fun clock w =>
    (Ok (clock (reads w)), {| reads := S (reads w); written := written w |}).

(** [writeAndFormatFile(filePath, content)]: the text handed to the writer
    is logged; the external formatter is not part of the compiler. *)
Definition writeAndFormatFile (filePath content : string) : Gen unit :=
  fun _ w =>
    (Ok tt, {| reads := reads w;
               written := (written w ++ [(filePath, content)])%list |}).

(** [for (const x of xs) { await body(x) }] *)
Fixpoint forOf {A : Type} (body : A -> Gen unit) (xs : list A) : Gen unit :=
  match xs with
  | [] => ret tt
  | x :: rest => _ <~ body x ;; forOf body rest
  end.

(** [try { ... } catch (error) { console.error(...); process.exit(1); }] *)
Definition exitOnError (m : Gen unit) : Gen unit :=
  fun clock w =>
    match m clock w with
    | (Ok a, w') => (Ok a, w')
    | (Throw _, w') => (Throw (ProcessExit 1), w')
    end.

(** ** JavaScript string and array primitives *)

Definition truthyFlag (b : option bool) : bool :=
  match b with Some true => true | _ => false end.

Definition truthyNumber (n : option Z) : bool :=
  match n with Some z => negb (Z.eqb z 0) | None => false end.

Definition truthyString (s : option string) : bool :=
  match s with Some s => negb (String.eqb s "") | None => false end.

(** [`${n}`] for an integer. *)
Definition showNumber (n : Z) : string := NilZero.string_of_int (Z.to_int n).

Definition showBoolean (b : bool) : string := if b then "true" else "false".

Definition isLower (c : ascii) : bool :=
  let n := nat_of_ascii c in ((97 <=? n) && (n <=? 122))%nat.

Definition isUpper (c : ascii) : bool :=
  let n := nat_of_ascii c in ((65 <=? n) && (n <=? 90))%nat.

Definition isDigit (c : ascii) : bool :=
  let n := nat_of_ascii c in ((48 <=? n) && (n <=? 57))%nat.

Definition upperChar (c : ascii) : ascii :=
  if isLower c then ascii_of_nat (nat_of_ascii c - 32) else c.

Definition lowerChar (c : ascii) : ascii :=
  if isUpper c then ascii_of_nat (nat_of_ascii c + 32) else c.

Fixpoint toLowerCase (s : string) : string :=
  match s with
  | EmptyString => EmptyString
  | String c rest => String (lowerChar c) (toLowerCase rest)
  end.

Definition endsWith (s suffix : string) : bool :=
  let n := String.length s in
  let m := String.length suffix in
  (m <=? n)%nat && String.eqb (substring (n - m) m s) suffix.

(** [s.slice(0, -k)] *)
Definition dropLast (k : nat) (s : string) : string :=
  substring 0 (String.length s - k) s.

(** [pre] begins the string [s]. *)
Fixpoint beginsWith (pre s : string) : bool :=
  match pre with
  | EmptyString => true
  | String a pre' =>
      match s with
      | String b s' => Ascii.eqb a b && beginsWith pre' s'
      | EmptyString => false
      end
  end.

(** [items.join(sep)] *)
Fixpoint join (sep : string) (items : list string) : string :=
  match items with
  | [] => ""
  | [x] => x
  | x :: rest => x ++ sep ++ join sep rest
  end.

(** [arr.includes(x)] on an array of strings *)
Definition includes (arr : list string) (x : string) : bool :=
  existsb (String.eqb x) arr.

(** [arr.filter((v, i, a) => a.indexOf(v) === i)]: the first occurrence of
    every element, in order. *)
Fixpoint uniqueAcc (seen : list string) (arr : list string) : list string :=
  match arr with
  | [] => []
  | x :: rest =>
      if includes seen x then uniqueAcc seen rest
      else x :: uniqueAcc (x :: seen) rest
  end.

Definition unique (arr : list string) : list string := uniqueAcc [] arr.

(** [keys.find(p)] *)
Definition findKey (p : string -> bool) (keys : list string) : option string :=
  find p keys.

(** ** The descriptor model ([scripts/lib/config.ts]) *)

(** [default?: number | string | boolean | null] *)
Inductive DefaultValue : Type :=
| DNumber (n : Z)
| DString (s : string)
| DBoolean (b : bool)
| DNull.

(** [references?: { table; column; onDelete?; onUpdate? }] *)
Record References : Type := {
  ref_table : string;
  ref_column : string;
  ref_onDelete : option string;
  ref_onUpdate : option string
}.

(** [interface ColumnConstraints]; the projection [cc_x] is the property [x]. *)
Record ColumnConstraints : Type := {
  cc_type : string;
  cc_length : option Z;
  cc_precision : option Z;
  cc_scale : option Z;
  cc_nullable : option bool;
  cc_default : option DefaultValue;
  cc_primaryKey : option bool;
  cc_unique : option bool;
  cc_autoIncrement : option bool;
  cc_references : option References
}.

(** [interface ColumnValidation]; [cv_x] is the property [x]. *)
Record ColumnValidation : Type := {
  cv_required : option bool;
  cv_min : option Z;
  cv_max : option Z;
  cv_pattern : option string;
  cv_email : option bool;
  cv_url : option bool
}.

(** [columnConfig.validation || {}] *)
Definition noValidation : ColumnValidation :=
  {| cv_required := None; cv_min := None; cv_max := None;
     cv_pattern := None; cv_email := None; cv_url := None |}.

(** [interface ColumnConfig] (the [ui] block is not read by the compiler). *)
Record ColumnConfig : Type := {
  dbConstraints : ColumnConstraints;
  validation : option ColumnValidation
}.

Definition validationOf (c : ColumnConfig) : ColumnValidation :=
  match validation c with Some v => v | None => noValidation end.

Record IndexConfig : Type := {
  ix_columns : list string;
  ix_unique : option bool
}.

Record RelationshipConfig : Type := {
  rel_type : string;
  rel_table : string
}.

(** [interface TableConfig].  The loader casts the parsed JSON without a
    check, so the column map may be missing at run time: [columns = None].
    [tableName] is the string that the interface requires: the validator
    tests it for truthiness, which for a string is being non-empty, and the
    generators call string methods on it.  A descriptor without the member
    is not a value of this record. *)
Record TableConfig : Type := {
  tableName : string;
  displayName : string;
  columns : option (list (string * ColumnConfig));
  indexes : option (list (string * IndexConfig));
  relationships : option (list (string * RelationshipConfig))
}.

(** An enum descriptor is only ever enumerated with [Object.keys(config)]. *)
Definition EnumConfig : Type := list string.
Definition EnumsConfig : Type := list (string * EnumConfig).

(** [Object.entries(table.columns)]: throws on a missing map. *)
Definition entriesOf {A : Type} (m : option (list (string * A)))
  : Res (list (string * A)) :=
  match m with
  | Some l => Ok l
  | None => Throw TypeError
  end.

(** ** Identifier conversions ([scripts/lib/stringTransforms.ts]) *)

(** [str.replace(/_([a-z0-9])/g, (_, letter) => letter.toUpperCase())] *)
Fixpoint toCamelCase (str : string) : string :=
  match str with
  | EmptyString => EmptyString
  | String c rest =>
      if Ascii.eqb c "_" then
        match rest with
        | String d rest' =>
            if isLower d || isDigit d
            then String (upperChar d) (toCamelCase rest')
            else String c (toCamelCase rest)
        | EmptyString => String c EmptyString
        end
      else String c (toCamelCase rest)
  end.

(** The matches of [/(^|_)([a-z])/g] that do not start the string. *)
Fixpoint pascalRest (str : string) : string :=
  match str with
  | EmptyString => EmptyString
  | String c rest =>
      if Ascii.eqb c "_" then
        match rest with
        | String d rest' =>
            if isLower d
            then String (upperChar d) (pascalRest rest')
            else String c (pascalRest rest)
        | EmptyString => String c EmptyString
        end
      else String c (pascalRest rest)
  end.

(** [str.replace(/(^|_)([a-z])/g, (_, __, letter) => letter.toUpperCase())] *)
Definition toPascalCase (str : string) : string :=
  match str with
  | String c rest =>
      if isLower c then String (upperChar c) (pascalRest rest)
      else pascalRest str
  | EmptyString => EmptyString
  end.

Definition irregulars : list (string * string) :=
  [ ("people", "person"); ("children", "child"); ("feet", "foot");
    ("teeth", "tooth"); ("geese", "goose"); ("mice", "mouse");
    ("men", "man"); ("women", "woman") ].

(** The all-lower-case members that the object literal [irregulars] inherits
    from [Object.prototype]; [irregulars[lower]] is truthy for them too, and
    is not a string. *)
Definition inheritedMembers : list string := [ "constructor"; "__proto__" ].

Fixpoint assoc {A : Type} (k : string) (l : list (string * A)) : option A :=
  match l with
  | [] => None
  | (k', v) :: rest => if String.eqb k k' then Some v else assoc k rest
  end.

(** [toSingular]; [None] is the non-string member returned for a name that
    lower-cases to an inherited member. *)
Definition toSingular (str : string) : option string :=
  let lower := toLowerCase str in
  match assoc lower irregulars with
  | Some singular => Some singular
  | None =>
      if includes inheritedMembers lower then None
      else if endsWith str "ies" then Some (dropLast 3 str ++ "y")
      else if endsWith str "ves" then Some (dropLast 3 str ++ "f")
      else if endsWith str "es" &&
              (endsWith str "ches" || endsWith str "shes" ||
               endsWith str "xes" || endsWith str "zes")
      then Some (dropLast 2 str)
      else if endsWith str "s" && negb (endsWith str "ss")
      then Some (dropLast 1 str)
      else Some str
  end.

(** [toPascalCase(toSingular(tableName))]: [.replace] on a non-string throws. *)
Definition toSingularPascalCase (tableName : string) : Res string :=
  match toSingular tableName with
  | Some s => Ok (toPascalCase s)
  | None => Throw TypeError
  end.

Definition toSingularCamelCase (tableName : string) : Res string :=
  match toSingular tableName with
  | Some s => Ok (toCamelCase s)
  | None => Throw TypeError
  end.

(** ** Text fragments *)

Definition nl : string := String "010"%char EmptyString.
Definition dquote : string := String "034"%char EmptyString.

(** ** Templates and the table validator ([scripts/lib/template.ts]) *)

(** The template literal of [generateFileHeader]; [now] stands for the
    value of [new Date().toISOString()]. *)
Definition fileHeaderText (description now : string) : string :=
  "// " ++ description ++ nl ++
  "// This file is auto-generated. Do not edit manually." ++ nl ++
  "// Generated at: " ++ now ++ nl ++
  nl.

(** [generateFileHeader]: reads the clock. *)
Definition generateFileHeader (description : string) : Gen string :=
  now <~ toISOStringNow ;;
  ret (fileHeaderText description now).

(** [generateImports]: one line per module, in the order of the record. *)
Definition generateImports (imports : list (string * list string)) : string :=
  join nl
    (map (fun '(from, items) =>
            "import { " ++ join ", " items ++ " } from '" ++ from ++ "';")
         imports)
  ++ nl ++ nl.

(** [col.dbConstraints.primaryKey || col.dbConstraints.type === "serial"] *)
Definition isPrimaryKeyColumn (col : ColumnConfig) : bool :=
  truthyFlag (cc_primaryKey (dbConstraints col)) ||
  String.eqb (cc_type (dbConstraints col)) "serial".

Module Template.

(** [validateTableConfig] of [scripts/lib/template.ts].  The errors are
    pushed in program order; [Object.values(table.columns)] throws when
    the column map is missing. *)
Definition validateTableConfig (table : TableConfig) : Res (list string) :=
  let errors : list string := [] in
  let errors :=
    if negb (truthyString (Some (tableName table)))
    then (errors ++ ["Table must have a tableName"])%list else errors in
  let errors :=
    if match columns table with
       | None => true
       | Some cs => Nat.eqb (List.length cs) 0
       end
    then (errors ++ ["Table must have at least one column"])%list
    else errors in
  cols <- entriesOf (columns table) ;;
  let hasPrimaryKey := existsb (fun '(_, col) => isPrimaryKeyColumn col) cols in
  let errors :=
    if negb hasPrimaryKey
    then (errors ++ ["Table must have a primary key"])%list else errors in
  Ok errors.

End Template.

(** ** Schema analysis ([scripts/models/utils/schemaAnalysis.ts]) *)

Record ForeignKey : Type := {
  fk_columnName : string;
  fk_referencedTable : string;
  fk_referencedColumn : string
}.

Module SchemaAnalysis.

(** The second copy of the validator, in
    [scripts/models/utils/schemaAnalysis.ts]. *)
Definition validateTableConfig (table : TableConfig) : Res (list string) :=
  let errors : list string := [] in
  let errors :=
    if negb (truthyString (Some (tableName table)))
    then (errors ++ ["Table must have a tableName"])%list else errors in
  let errors :=
    if match columns table with
       | None => true
       | Some cs => Nat.eqb (List.length cs) 0
       end
    then (errors ++ ["Table must have at least one column"])%list
    else errors in
  cols <- entriesOf (columns table) ;;
  let hasPrimaryKey := existsb (fun '(_, col) => isPrimaryKeyColumn col) cols in
  let errors :=
    if negb hasPrimaryKey
    then (errors ++ ["Table must have a primary key"])%list else errors in
  Ok errors.

(** [analyzeRelationships(table).foreignKeys] *)
Definition analyzeRelationships (table : TableConfig) : Res (list ForeignKey) :=
  cols <- entriesOf (columns table) ;;
  Ok (fold_left
        (fun foreignKeys '(columnName, columnConfig) =>
           match cc_references (dbConstraints columnConfig) with
           | Some references =>
               (foreignKeys ++
                [ {| fk_columnName := columnName;
                     fk_referencedTable := ref_table references;
                     fk_referencedColumn := ref_column references |} ])%list
           | None => foreignKeys
           end)
        cols []).

End SchemaAnalysis.

(** ** The type mapper ([scripts/models/utils/typeMapping.ts]) *)

(** [`${defaultValue}`] for a default that is not a string. *)
Definition showDefault (d : DefaultValue) : string :=
  match d with
  | DNumber n => showNumber n
  | DString s => s
  | DBoolean b => showBoolean b
  | DNull => "null"
  end.

Definition showOptNumber (n : option Z) : string :=
  match n with Some z => showNumber z | None => "undefined" end.

Definition isNumericFamily (type : string) : bool :=
  String.eqb type "numeric" || String.eqb type "decimal" ||
  String.eqb type "money".

Definition push (arr : list string) (x : string) : list string :=
  (arr ++ [x])%list.

Module TypeMapping.

Definition drizzleBaseType (cc : ColumnConstraints) : string :=
  let type := cc_type cc in
  if String.eqb type "varchar" then
    if truthyNumber (cc_length cc)
    then "varchar(" ++ showOptNumber (cc_length cc) ++ ")"
    else "varchar(255)"
  else if String.eqb type "text" then "text()"
  else if String.eqb type "integer" then "integer()"
  else if String.eqb type "serial"
  then "integer().primaryKey().generatedAlwaysAsIdentity()"
  else if String.eqb type "numeric" || String.eqb type "decimal" then
    if truthyNumber (cc_precision cc) && truthyNumber (cc_scale cc)
    then "numeric(" ++ showOptNumber (cc_precision cc) ++ ", " ++
         showOptNumber (cc_scale cc) ++ ")"
    else "numeric()"
  else if String.eqb type "money" then "numeric(10, 2)"
  else if String.eqb type "timestamp" then "timestamp({ mode: 'date' })"
  else if String.eqb type "date" then "date({ mode: 'date' })"
  else if String.eqb type "boolean" then "boolean()"
  else if String.eqb type "enum" then type ++ "Ref"
  else if String.eqb type "geography" then "text()"
  else "text()".

(** The [constraints] array of [mapToDrizzleType], push by push. *)
Definition drizzleConstraints (cc : ColumnConstraints) : list string :=
  let type := cc_type cc in
  let notSerial := negb (String.eqb type "serial") in
  let constraints : list string := [] in
  let constraints :=
    if negb (truthyFlag (cc_nullable cc)) && notSerial
    then push constraints ".notNull()" else constraints in
  let constraints :=
    match cc_default cc with
    | Some defaultValue =>
        if notSerial then
          match defaultValue with
          | DString s => push constraints (".default('" ++ s ++ "')")
          | DBoolean b => push constraints (".default(" ++ showBoolean b ++ ")")
          | _ => push constraints (".default(" ++ showDefault defaultValue ++ ")")
          end
        else constraints
    | None => constraints
    end in
  let constraints :=
    if truthyFlag (cc_unique cc) && notSerial
    then push constraints ".unique()" else constraints in
  let constraints :=
    if truthyFlag (cc_primaryKey cc) && notSerial
    then push constraints ".primaryKey()" else constraints in
  constraints.

Definition mapToDrizzleType (columnConfig : ColumnConfig) : string :=
  drizzleBaseType (dbConstraints columnConfig) ++
  join "" (drizzleConstraints (dbConstraints columnConfig)).

End TypeMapping.

(** [Object.keys(enums).find((key) => key === type || key === `${type}_enum`)] *)
Definition findEnumKey (enums : EnumsConfig) (type : string) : option string :=
  findKey (fun key => String.eqb key type || String.eqb key (type ++ "_enum"))
          (map fst enums).

(** ** The aggregation files ([scripts/models/utils/aggregation.ts]) *)

(** [type: "schema" | "types" | "validation"] *)
Inductive ArtifactKind : Type := SchemaKind | TypesKind | ValidationKind.

Definition kindName (type : ArtifactKind) : string :=
  match type with
  | SchemaKind => "schema"
  | TypesKind => "types"
  | ValidationKind => "validation"
  end.

Module Aggregation.

Definition descriptions (type : ArtifactKind) : string :=
  match type with
  | SchemaKind => "Database schema aggregation for Drizzle Kit"
  | TypesKind => "Types aggregation"
  | ValidationKind => "Validation schemas aggregation"
  end.

(** [generateModelAggregation] *)
Definition generateModelAggregation (tables : list TableConfig)
           (type : ArtifactKind) : Gen unit :=
  content <~ generateFileHeader (descriptions type) ;;
  let content := content ++ "// Export all enum " ++ kindName type ++ nl in
  let content := content ++ "export * from './enums/" ++ kindName type ++ "';" ++
                 nl ++ nl in
  let content := content ++ "// Export all table " ++ kindName type ++ nl in
  content <~ lift
    (forEachM
       (fun content table =>
          fileName <- toSingularCamelCase (tableName table) ;;
          Ok (content ++ "export * from './" ++ fileName ++ "/" ++
              kindName type ++ "';" ++ nl))
       tables content) ;;
  writeAndFormatFile ("./src/models/" ++ kindName type ++ ".ts") content.

End Aggregation.

(** ** The validation emitter ([scripts/models/generators/validation.ts]) *)

(** [throw new Error(`Invalid table configuration for ${name}: ${errors}`)]
    when the validator reports issues. *)
Definition requireValidTable (validate : TableConfig -> Res (list string))
           (table : TableConfig) : Res unit :=
  errors <- validate table ;;
  if Nat.ltb 0 (List.length errors)
  then Throw (InvalidTable ("Invalid table configuration for " ++
                            tableName table ++ ": " ++ join ", " errors))
  else Ok tt.

(** [Object.values(table.columns).map((col) => col.dbConstraints.type)
      .filter((type) => Object.keys(enums).includes(type) ||
                        Object.keys(enums).includes(`${type}_enum`))] *)
Definition enumTypesUsed (cols : list (string * ColumnConfig))
           (enums : EnumsConfig) : list string :=
  filter (fun type => includes (map fst enums) type ||
                      includes (map fst enums) (type ++ "_enum"))
         (map (fun '(_, col) => cc_type (dbConstraints col)) cols).

(** [Object.keys(config).filter((key) => key !== "description")
      .map((v) => `'${v}'`).join(", ")] *)
Definition enumValuesText (config : EnumConfig) : string :=
  join ", "
    (map (fun v => "'" ++ v ++ "'")
         (filter (fun key => negb (String.eqb key "description")) config)).

Module Validation.

(** [generateEnumSchemas] *)
Definition generateEnumSchemas (enums : EnumsConfig) : string :=
  join nl
    (map (fun '(enumName, config) =>
            let schemaName := toCamelCase enumName ++ "Schema" in
            "export const " ++ schemaName ++ " = z.enum([" ++
            enumValuesText config ++ "]);")
         enums)
  ++ nl ++ nl.

(** [validation.max || length] *)
Definition maxOrLength (validation : ColumnValidation)
           (length : option Z) : option Z :=
  if truthyNumber (cv_max validation) then cv_max validation else length.

Definition withMin (validation : ColumnValidation) (zodType : string) : string :=
  if truthyNumber (cv_min validation)
  then zodType ++ ".min(" ++ showOptNumber (cv_min validation) ++ ")"
  else zodType.

Definition withMax (validation : ColumnValidation) (zodType : string) : string :=
  if truthyNumber (cv_max validation)
  then zodType ++ ".max(" ++ showOptNumber (cv_max validation) ++ ")"
  else zodType.

Definition withMaxOrLength (validation : ColumnValidation)
           (length : option Z) (zodType : string) : string :=
  if truthyNumber (maxOrLength validation length)
  then zodType ++ ".max(" ++ showOptNumber (maxOrLength validation length) ++ ")"
  else zodType.

Definition withPattern (validation : ColumnValidation) (zodType : string) : string :=
  if truthyString (cv_pattern validation)
  then zodType ++ ".regex(/" ++
       match cv_pattern validation with Some p => p | None => "" end ++ "/)"
  else zodType.

Definition withDateMin (validation : ColumnValidation) (zodType : string) : string :=
  if truthyNumber (cv_min validation)
  then zodType ++ ".min(new Date('" ++ showOptNumber (cv_min validation) ++ "'))"
  else zodType.

Definition withDateMax (validation : ColumnValidation) (zodType : string) : string :=
  if truthyNumber (cv_max validation)
  then zodType ++ ".max(new Date('" ++ showOptNumber (cv_max validation) ++ "'))"
  else zodType.

(** [generateBaseZodType]: the type check with its format, bounds and
    pattern, without modifiers. *)
Definition generateBaseZodType (columnConfig : ColumnConfig)
           (enums : EnumsConfig) : string :=
  let type := cc_type (dbConstraints columnConfig) in
  let length := cc_length (dbConstraints columnConfig) in
  let validation := validationOf columnConfig in
  if String.eqb type "varchar" || String.eqb type "text" then
    if truthyFlag (cv_email validation) then
      withMin validation (withMaxOrLength validation length "z.email()")
    else if truthyFlag (cv_url validation) then
      withMin validation (withMaxOrLength validation length "z.url()")
    else
      withPattern validation
        (withMaxOrLength validation length (withMin validation "z.string()"))
  else if String.eqb type "integer" || String.eqb type "serial" then
    withMax validation (withMin validation "z.number().int()")
  else if isNumericFamily type then
    "z.string().regex(/^\d+\.\d{2}$/, 'Invalid price format')"
  else if String.eqb type "timestamp" || String.eqb type "date" then
    withDateMax validation (withDateMin validation "z.date()")
  else if String.eqb type "boolean" then "z.boolean()"
  else if String.eqb type "geography" then
    withPattern validation "z.string()"
  else
    match findEnumKey enums type with
    | Some enumKey =>
        if truthyString (Some enumKey)
        then toCamelCase enumKey ++ "Schema"
        else withPattern validation "z.string()"
    | None => withPattern validation "z.string()"
    end.

(** [addDefaultValue] *)
Definition addDefaultValue (zodType : string) (columnConfig : ColumnConfig)
  : string :=
  let type := cc_type (dbConstraints columnConfig) in
  match cc_default (dbConstraints columnConfig) with
  | Some defaultValue =>
      match defaultValue with
      | DString s =>
          if negb (String.eqb type "serial") && negb (String.eqb s "now()")
          then zodType ++ ".default(" ++ dquote ++ s ++ dquote ++ ")"
          else zodType
      | DBoolean b =>
          if negb (String.eqb type "serial")
          then zodType ++ ".default(" ++ showBoolean b ++ ")"
          else zodType
      | _ =>
          if negb (String.eqb type "serial") then
            if isNumericFamily type
            then zodType ++ ".default(" ++ dquote ++
                 showDefault defaultValue ++ ".00" ++ dquote ++ ")"
            else zodType ++ ".default(" ++ showDefault defaultValue ++ ")"
          else zodType
      end
  | None => zodType
  end.

(** [validation.required === false] *)
Definition requiredIsFalse (columnConfig : ColumnConfig) : bool :=
  match cv_required (validationOf columnConfig) with
  | Some false => true
  | _ => false
  end.

(** [generateBaseSchemaField] *)
Definition generateBaseSchemaField (columnName : string)
           (columnConfig : ColumnConfig) (enums : EnumsConfig) : string :=
  let nullable := cc_nullable (dbConstraints columnConfig) in
  let primaryKey := cc_primaryKey (dbConstraints columnConfig) in
  let fieldKey := toCamelCase columnName in
  let zodType := generateBaseZodType columnConfig enums in
  let zodType := addDefaultValue zodType columnConfig in
  let zodType :=
    if truthyFlag nullable then zodType ++ ".nullable()" else zodType in
  let zodType :=
    if requiredIsFalse columnConfig && negb (truthyFlag nullable) &&
       negb (truthyFlag primaryKey)
    then zodType ++ ".optional()" else zodType in
  "  " ++ fieldKey ++ ": " ++ zodType.

(** [generateTableSchema]: the base schema. *)
Definition generateTableSchema (table : TableConfig) (enums : EnumsConfig)
  : Res string :=
  singular <- toSingularPascalCase (tableName table) ;;
  let schemaName := singular ++ "Schema" in
  cols <- entriesOf (columns table) ;;
  let columns :=
    join ("," ++ nl)
      (map (fun '(columnName, columnConfig) =>
              generateBaseSchemaField columnName columnConfig enums)
           cols) in
  Ok ("export const " ++ schemaName ++ " = z.object({" ++ nl ++
      columns ++ nl ++ "});").

(** [type === "serial" || defaultValue === "now()"] *)
Definition isAutoGenerated (columnConfig : ColumnConfig) : bool :=
  String.eqb (cc_type (dbConstraints columnConfig)) "serial" ||
  match cc_default (dbConstraints columnConfig) with
  | Some (DString s) => String.eqb s "now()"
  | _ => false
  end.

(** [nullable || hasDefault || validation.required === false] *)
Definition needsInsertModification (columnConfig : ColumnConfig) : bool :=
  let hasDefault :=
    match cc_default (dbConstraints columnConfig) with
    | Some _ => true
    | None => false
    end in
  truthyFlag (cc_nullable (dbConstraints columnConfig)) || hasDefault ||
  requiredIsFalse columnConfig.

(** The [modifications] array of [generateInsertFieldModifications]. *)
Definition insertModifications (cols : list (string * ColumnConfig))
           (enums : EnumsConfig) : list string :=
  fold_left
    (fun modifications '(columnName, columnConfig) =>
       let fieldKey := toCamelCase columnName in
       if isAutoGenerated columnConfig then modifications
       else if needsInsertModification columnConfig then
         let zodType := generateBaseZodType columnConfig enums in
         let zodType := addDefaultValue zodType columnConfig in
         let zodType := zodType ++ ".optional()" in
         push modifications ("    " ++ fieldKey ++ ": " ++ zodType)
       else modifications)
    cols [].

(** [generateInsertFieldModifications] *)
Definition generateInsertFieldModifications (table : TableConfig)
           (enums : EnumsConfig) : Res string :=
  cols <- entriesOf (columns table) ;;
  let modifications := insertModifications cols enums in
  Ok (if Nat.ltb 0 (List.length modifications)
      then join ("," ++ nl) modifications else "").

(** The [autoGeneratedFields] array of [generateInsertSchema]. *)
Definition autoGeneratedFields (cols : list (string * ColumnConfig))
  : list string :=
  fold_left
    (fun fields '(columnName, columnConfig) =>
       if isAutoGenerated columnConfig
       then push fields (toCamelCase columnName) else fields)
    cols [].

(** [generateInsertSchema] *)
Definition generateInsertSchema (table : TableConfig) (enums : EnumsConfig)
  : Res string :=
  singular <- toSingularPascalCase (tableName table) ;;
  let baseSchemaName := singular ++ "Schema" in
  singular' <- toSingularPascalCase (tableName table) ;;
  let schemaName := singular' ++ "InsertSchema" in
  cols <- entriesOf (columns table) ;;
  let autoGenerated := autoGeneratedFields cols in
  modifications <- generateInsertFieldModifications table enums ;;
  if Nat.eqb (List.length autoGenerated) 0 && String.eqb modifications ""
  then Ok ("export const " ++ schemaName ++ " = " ++ baseSchemaName ++ ";")
  else
    let schemaDefinition := baseSchemaName in
    let schemaDefinition :=
      if Nat.ltb 0 (List.length autoGenerated)
      then
        let omittedFields :=
          join ", " (map (fun field => field ++ ": true") autoGenerated) in
        schemaDefinition ++ ".omit({ " ++ omittedFields ++ " })"
      else schemaDefinition in
    let schemaDefinition :=
      if negb (String.eqb modifications "")
      then schemaDefinition ++ ".extend({" ++ nl ++ modifications ++ nl ++ "  })"
      else schemaDefinition in
    Ok ("export const " ++ schemaName ++ " = " ++ schemaDefinition ++ ";").

(** [generateUpdateSchema] *)
Definition generateUpdateSchema (table : TableConfig) (enums : EnumsConfig)
  : Res string :=
  singular <- toSingularPascalCase (tableName table) ;;
  let insertSchemaName := singular ++ "InsertSchema" in
  singular' <- toSingularPascalCase (tableName table) ;;
  let schemaName := singular' ++ "UpdateSchema" in
  cols <- entriesOf (columns table) ;;
  match find (fun '(_, columnConfig) => isPrimaryKeyColumn columnConfig) cols with
  | None =>
      Ok ("export const " ++ schemaName ++ " = " ++ insertSchemaName ++
          ".partial();")
  | Some (primaryKeyColumnName, primaryKeyConfig) =>
      let primaryKeyFieldName := toCamelCase primaryKeyColumnName in
      let primaryKeyType := generateBaseZodType primaryKeyConfig enums in
      Ok ("export const " ++ schemaName ++ " = " ++ insertSchemaName ++
          ".partial().extend({" ++ nl ++
          "  " ++ primaryKeyFieldName ++ ": " ++ primaryKeyType ++ nl ++
          "});")
  end.

(** The ["// Enum schema imports"] block. *)
Definition enumSchemaImports (usedEnums : list string) (enums : EnumsConfig)
  : string :=
  if Nat.ltb 0 (List.length usedEnums) then
    fold_left
      (fun content enumType =>
         match findEnumKey enums enumType with
         | Some enumKey =>
             if truthyString (Some enumKey)
             then content ++ "import { " ++ toCamelCase enumKey ++
                  "Schema } from '../enums';" ++ nl
             else content
         | None => content
         end)
      usedEnums ("// Enum schema imports" ++ nl)
    ++ nl
  else "".

(** [generateTableValidation] *)
Definition generateTableValidation (table : TableConfig) (enums : EnumsConfig)
  : Gen string :=
  _ <~ lift (requireValidTable Template.validateTableConfig table) ;;
  content <~ generateFileHeader
               ("Zod validation schemas for " ++ tableName table ++ " table") ;;
  cols <~ lift (entriesOf (columns table)) ;;
  let usedEnums := unique (enumTypesUsed cols enums) in
  let content := content ++ generateImports [("zod", ["z"])] in
  let content := content ++ enumSchemaImports usedEnums enums in
  let content := content ++ "// Base table schema" ++ nl in
  base <~ lift (generateTableSchema table enums) ;;
  let content := content ++ base ++ nl ++ nl in
  let content := content ++ "// Insert schema (for creating new records)" ++ nl in
  insert <~ lift (generateInsertSchema table enums) ;;
  let content := content ++ insert ++ nl ++ nl in
  let content := content ++ "// Update schema (for updating existing records)" ++ nl in
  update <~ lift (generateUpdateSchema table enums) ;;
  let content := content ++ update ++ nl ++ nl in
  tableName' <~ lift (toSingularPascalCase (tableName table)) ;;
  let content := content ++ "// TypeScript types (inferred from schemas above)" ++ nl in
  let content := content ++ "export type " ++ tableName' ++ " = z.infer<typeof " ++
                 tableName' ++ "Schema>;" ++ nl in
  let content := content ++ "export type " ++ tableName' ++ "Insert = z.infer<typeof " ++
                 tableName' ++ "InsertSchema>;" ++ nl in
  let content := content ++ "export type " ++ tableName' ++ "Update = z.infer<typeof " ++
                 tableName' ++ "UpdateSchema>;" ++ nl in
  ret content.

(** [generateEnumsValidation] *)
Definition generateEnumsValidation (enums : EnumsConfig) : Gen unit :=
  content <~ generateFileHeader "Zod enum validation schemas" ;;
  let content := content ++ generateImports [("zod", ["z"])] in
  let content := content ++ generateEnumSchemas enums in
  let content := content ++ "// TypeScript types (inferred from schemas above)" ++ nl in
  let content :=
    fold_left
      (fun content '(enumName, _) =>
         let schemaName := toCamelCase enumName ++ "Schema" in
         let typeName := toPascalCase enumName in
         content ++ "export type " ++ typeName ++ " = z.infer<typeof " ++
         schemaName ++ ">;" ++ nl)
      enums content in
  writeAndFormatFile "./src/models/enums/validation.ts" content.

(** [generateZodSchemas], with [enums] and [tables] as the loaders return
    them. *)
Definition generateZodSchemas (enums : EnumsConfig) (tables : list TableConfig)
  : Gen unit :=
  exitOnError
    (_ <~ generateEnumsValidation enums ;;
     _ <~ forOf
            (fun table =>
               content <~ generateTableValidation table enums ;;
               fileName <~ lift (toSingularCamelCase (tableName table)) ;;
               writeAndFormatFile
                 ("./src/models/" ++ fileName ++ "/validation.ts") content)
            tables ;;
     Aggregation.generateModelAggregation tables ValidationKind).

End Validation.

(** ** The types emitter ([scripts/models/generators/types.ts]) *)

(** [s.split(sep)[0]] for a one-character separator. *)
Fixpoint splitHead (sep : ascii) (s : string) : string :=
  match s with
  | EmptyString => EmptyString
  | String c rest =>
      if Ascii.eqb c sep then EmptyString else String c (splitHead sep rest)
  end.

(** [s.replace(c, "")] for a one-character pattern: the first occurrence. *)
Fixpoint removeFirst (c : ascii) (s : string) : string :=
  match s with
  | EmptyString => EmptyString
  | String d rest =>
      if Ascii.eqb d c then rest else String d (removeFirst c rest)
  end.

Definition isSpace (c : ascii) : bool :=
  let n := nat_of_ascii c in
  ((9 <=? n) && (n <=? 13))%nat || Nat.eqb n 32.

Fixpoint trimStart (s : string) : string :=
  match s with
  | String c rest => if isSpace c then trimStart rest else s
  | EmptyString => EmptyString
  end.

(** The string without its trailing white space. *)
Fixpoint trimEnd (s : string) : string :=
  match s with
  | EmptyString => EmptyString
  | String c rest =>
      match trimEnd rest with
      | EmptyString => if isSpace c then EmptyString else String c EmptyString
      | kept => String c kept
      end
  end.

(** [s.trim()] *)
Definition trim (s : string) : string := trimEnd (trimStart s).

(** The pair [{ relations, imports }] that the relation resolvers fill. *)
Record Relations : Type := {
  relations : list string;
  imports : list string
}.

Definition noRelations : Relations := {| relations := []; imports := [] |}.

Module Types.

(** [generateApiTypes] *)
Definition generateApiTypes (table : TableConfig) : Res string :=
  baseName <- toSingularPascalCase (tableName table) ;;
  let apiTypes :=
    [ "export interface " ++ toPascalCase (tableName table) ++ "ListResponse {" ++ nl ++
      "  data: " ++ baseName ++ "[];" ++ nl ++
      "  total: number;" ++ nl ++
      "  page: number;" ++ nl ++
      "  limit: number;" ++ nl ++
      "}";
      "export interface " ++ baseName ++ "Response {" ++ nl ++
      "  data: " ++ baseName ++ ";" ++ nl ++
      "}";
      "export interface " ++ baseName ++ "CreateRequest {" ++ nl ++
      "  data: " ++ baseName ++ "Insert;" ++ nl ++
      "}";
      "export interface " ++ baseName ++ "UpdateRequest {" ++ nl ++
      "  data: " ++ baseName ++ "Update;" ++ nl ++
      "}";
      "export interface " ++ baseName ++ "DeleteResponse {" ++ nl ++
      "  success: boolean;" ++ nl ++
      "  message?: string;" ++ nl ++
      "}" ] in
  Ok (join (nl ++ nl) apiTypes).

(** The callback of the [forEach] in [generateForeignKeyRelations]. *)
Definition foreignKeyColumn (acc : Relations) (entry : string * ColumnConfig)
  : Res Relations :=
  let '(columnName, columnConfig) := entry in
  match cc_references (dbConstraints columnConfig) with
  | Some references =>
      relationName <- toSingularCamelCase (ref_table references) ;;
      relatedType <- toSingularPascalCase (ref_table references) ;;
      fileName <- toSingularCamelCase (ref_table references) ;;
      let relations :=
        push (relations acc)
             ("  " ++ relationName ++ "?: " ++ relatedType ++ ";") in
      let imports :=
        if negb (includes (imports acc) relatedType)
        then push (imports acc)
                  ("import type { " ++ relatedType ++ " } from '../" ++
                   fileName ++ "';")
        else imports acc in
      Ok {| relations := relations; imports := imports |}
  | None => Ok acc
  end.

(** [generateForeignKeyRelations]: the outgoing relations of a table. *)
Definition generateForeignKeyRelations (table : TableConfig) : Res Relations :=
  cols <- entriesOf (columns table) ;;
  forEachM foreignKeyColumn cols noRelations.

(** The callback of the inner [forEach] in [generateReverseRelations]. *)
Definition reverseColumn (otherTable : TableConfig) (currentTableName : string)
           (acc : Relations) (entry : string * ColumnConfig) : Res Relations :=
  let '(columnName, columnConfig) := entry in
  match cc_references (dbConstraints columnConfig) with
  | Some references =>
      if String.eqb (ref_table references) currentTableName then
        let tableName' := toCamelCase (tableName otherTable) in
        let relationName :=
          if endsWith tableName' "s" then tableName' else tableName' ++ "s" in
        relatedType <- toSingularPascalCase (tableName otherTable) ;;
        fileName <- toSingularCamelCase (tableName otherTable) ;;
        let relations :=
          push (relations acc)
               ("  " ++ relationName ++ "?: " ++ relatedType ++ "[];") in
        let imports :=
          if negb (includes (imports acc) relatedType)
          then push (imports acc)
                    ("import type { " ++ relatedType ++ " } from '../" ++
                     fileName ++ "';")
          else imports acc in
        Ok {| relations := relations; imports := imports |}
      else Ok acc
  | None => Ok acc
  end.

(** The callback of the outer [forEach]: a table whose name is the current
    table's name is left out, any other table is scanned. *)
Definition reverseTable (currentTableName : string) (acc : Relations)
           (otherTable : TableConfig) : Res Relations :=
  if String.eqb (tableName otherTable) currentTableName then Ok acc
  else
    cols <- entriesOf (columns otherTable) ;;
    forEachM (reverseColumn otherTable currentTableName) cols acc.

(** [generateReverseRelations]: the incoming relations of a table. *)
Definition generateReverseRelations (table : TableConfig)
           (allTables : list TableConfig) : Res Relations :=
  let currentTableName := tableName table in
  forEachM (reverseTable currentTableName) allTables noRelations.

(** The callback of the [forEach] over the outgoing relations in
    [generateRelationshipTypes]: one type per relation, with the relation
    made required. *)
Definition specificType (baseName relation : string) : string :=
  let relationName := trim (splitHead ":" relation) in
  let relationTypeName := splitHead " " (removeFirst "?" relationName) in
  let specificTypeName := baseName ++ "With" ++ toPascalCase relationTypeName in
  let requiredRelation := removeFirst "?" relation in
  "export interface " ++ specificTypeName ++ " extends " ++ baseName ++ " {" ++ nl ++
  "  " ++ requiredRelation ++ nl ++ "}".

(** [generateRelationshipTypes] *)
Definition generateRelationshipTypes (table : TableConfig)
           (allTables : list TableConfig) : Res string :=
  baseName <- toSingularPascalCase (tableName table) ;;
  fkRelations <- generateForeignKeyRelations table ;;
  reverseRelations <- generateReverseRelations table allTables ;;
  let allRelations := (relations fkRelations ++ relations reverseRelations)%list in
  if Nat.eqb (List.length allRelations) 0 then Ok ""
  else
    let withRelationsType :=
      "export interface " ++ baseName ++ "WithRelations extends " ++ baseName ++
      " {" ++ nl ++ join nl allRelations ++ nl ++ "}" in
    let specificTypes := map (specificType baseName) (relations fkRelations) in
    let result := join (nl ++ nl) (withRelationsType :: specificTypes) in
    Ok (nl ++ "// Relationship types" ++ nl ++ result).

(** [generateTableTypes] *)
Definition generateTableTypes (table : TableConfig) (enums : EnumsConfig)
           (allTables : list TableConfig) : Gen string :=
  _ <~ lift (requireValidTable Template.validateTableConfig table) ;;
  baseName <~ lift (toSingularPascalCase (tableName table)) ;;
  content <~ generateFileHeader
               ("TypeScript extension types for " ++ tableName table ++ " table") ;;
  let content := content ++ "// Import base types from validation schemas" ++ nl in
  let content := content ++ "import type { " ++ baseName ++ ", " ++ baseName ++
                 "Insert, " ++ baseName ++ "Update } from './validation';" ++
                 nl ++ nl in
  fkRelations <~ lift (generateForeignKeyRelations table) ;;
  reverseRelations <~ lift (generateReverseRelations table allTables) ;;
  let allRelationImports :=
    unique (imports fkRelations ++ imports reverseRelations)%list in
  let content :=
    if Nat.ltb 0 (List.length allRelationImports)
    then (content ++ "// Related table type imports" ++ nl) ++
         join nl allRelationImports ++ nl ++ nl
    else content in
  let content := content ++ "// Re-export base types for compatibility" ++ nl in
  let content := content ++ "export type { " ++ baseName ++ ", " ++ baseName ++
                 "Insert, " ++ baseName ++ "Update } from './validation';" ++
                 nl ++ nl in
  let content := content ++ "// API request/response types" ++ nl in
  apiTypes <~ lift (generateApiTypes table) ;;
  let content := content ++ apiTypes ++ nl in
  relationshipTypes <~ lift (generateRelationshipTypes table allTables) ;;
  let content :=
    if negb (String.eqb relationshipTypes "")
    then content ++ relationshipTypes ++ nl
    else content in
  ret content.

(** [generateEnumsTypes] *)
Definition generateEnumsTypes (enums : EnumsConfig) : Gen unit :=
  content <~ generateFileHeader "TypeScript enum extension types" ;;
  let content := content ++
                 "// Re-export base enum types from validation schemas" ++ nl in
  let content :=
    fold_left
      (fun content '(enumName, _) =>
         let typeName := toPascalCase enumName in
         content ++ "export type { " ++ typeName ++ " } from './validation';" ++ nl)
      enums content in
  let content := content ++ nl in
  writeAndFormatFile "./src/models/enums/types.ts" content.

(** The template literal of [generateUtilityTypes]. *)
Definition utilityTypesText : string :=
  join nl
    [ "// Generic API response wrapper";
      "export interface ApiResponse<T> {";
      "  data: T;";
      "  success: boolean;";
      "  message?: string;";
      "}";
      "";
      "// Generic list response";
      "export interface ListResponse<T> {";
      "  data: T[];";
      "  total: number;";
      "  page: number;";
      "  limit: number;";
      "}";
      "";
      "// Generic pagination parameters";
      "export interface PaginationParams {";
      "  page?: number;";
      "  limit?: number;";
      "  sort?: string;";
      "  order?: 'asc' | 'desc';";
      "}";
      "";
      "// Generic filter parameters";
      "export interface FilterParams {";
      "  search?: string;";
      "  [key: string]: unknown;";
      "}";
      "";
      "// Generic query parameters combining pagination and filters";
      "export interface QueryParams extends PaginationParams, FilterParams {}";
      "";
      "// Database entity base interface";
      "export interface BaseEntity {";
      "  id: number;";
      "  createdAt: Date;";
      "  updatedAt: Date;";
      "}";
      "";
      "// Form validation state";
      "export interface ValidationState {";
      "  isValid: boolean;";
      "  errors: Record<string, string[]>;";
      "}";
      "";
      "// API error response";
      "export interface ApiError {";
      "  success: false;";
      "  message: string;";
      "  errors?: Record<string, string[]>;";
      "  statusCode?: number;";
      "}";
      "" ].

(** [generateUtilityTypes] *)
Definition generateUtilityTypes : Gen unit :=
  content <~ generateFileHeader "Utility types for database operations" ;;
  let content := content ++ utilityTypesText in
  writeAndFormatFile "./src/models/utils/types.ts" content.

(** [generateTypeScriptTypes] *)
Definition generateTypeScriptTypes (enums : EnumsConfig)
           (tables : list TableConfig) : Gen unit :=
  exitOnError
    (_ <~ generateEnumsTypes enums ;;
     _ <~ generateUtilityTypes ;;
     _ <~ forOf
            (fun table =>
               content <~ generateTableTypes table enums tables ;;
               fileName <~ lift (toSingularCamelCase (tableName table)) ;;
               writeAndFormatFile
                 ("./src/models/" ++ fileName ++ "/types.ts") content)
            tables ;;
     Aggregation.generateModelAggregation tables TypesKind).

End Types.

(** ** The storage emitter ([scripts/models/generators/schemas.ts]) *)

Module Schemas.

(** The [switch] of [mapColumnToDrizzle]: the column constructor. *)
Definition drizzleColumnType (columnName : string) (cc : ColumnConstraints)
           (enums : EnumsConfig) : string :=
  let type := cc_type cc in
  if String.eqb type "varchar" then
    if truthyNumber (cc_length cc)
    then "varchar('" ++ columnName ++ "', { length: " ++
         showOptNumber (cc_length cc) ++ " })"
    else "varchar('" ++ columnName ++ "')"
  else if String.eqb type "text" then "text('" ++ columnName ++ "')"
  else if String.eqb type "integer" then "integer('" ++ columnName ++ "')"
  else if String.eqb type "serial" then "integer('" ++ columnName ++ "')"
  else if String.eqb type "numeric" || String.eqb type "decimal" then
    if truthyNumber (cc_precision cc) && truthyNumber (cc_scale cc)
    then "numeric('" ++ columnName ++ "', { precision: " ++
         showOptNumber (cc_precision cc) ++ ", scale: " ++
         showOptNumber (cc_scale cc) ++ " })"
    else "numeric('" ++ columnName ++ "')"
  else if String.eqb type "money"
  then "numeric('" ++ columnName ++ "', { precision: 10, scale: 2 })"
  else if String.eqb type "timestamp"
  then "timestamp('" ++ columnName ++ "', { mode: 'date' })"
  else if String.eqb type "date"
  then "date('" ++ columnName ++ "', { mode: 'date' })"
  else if String.eqb type "boolean" then "boolean('" ++ columnName ++ "')"
  else if String.eqb type "geography" then "text('" ++ columnName ++ "')"
  else
    match findEnumKey enums type with
    | Some enumKey =>
        if truthyString (Some enumKey)
        then toCamelCase enumKey ++ "('" ++ columnName ++ "')"
        else "text('" ++ columnName ++ "')"
    | None => "text('" ++ columnName ++ "')"
    end.

(** [`.references(() => table.column, { onDelete: '...' })`] *)
Definition referencesModifier (references : References) : string :=
  ".references(() => " ++ toCamelCase (ref_table references) ++ "." ++
  ref_column references ++
  (if truthyString (ref_onDelete references)
   then ", { onDelete: '" ++
        match ref_onDelete references with Some a => a | None => "" end ++
        "' }"
   else "") ++
  ")".

(** The [constraints] array of [mapColumnToDrizzle], push by push: the two
    pushes of the [serial] case, then the block headed
    "Add constraints in the correct order". *)
Definition drizzleConstraints (cc : ColumnConstraints)
           (hasCompositePrimaryKey : bool) : list string :=
  let type := cc_type cc in
  let notSerial := negb (String.eqb type "serial") in
  let constraints : list string := [] in
  let constraints :=
    if String.eqb type "serial"
    then push (push constraints ".primaryKey()") ".generatedAlwaysAsIdentity()"
    else constraints in
  let constraints :=
    match cc_default cc with
    | Some defaultValue =>
        if notSerial then
          match defaultValue with
          | DString s =>
              if String.eqb s "now()"
              then push constraints ".defaultNow()"
              else push constraints (".default('" ++ s ++ "')")
          | DBoolean b => push constraints (".default(" ++ showBoolean b ++ ")")
          | _ =>
              if isNumericFamily type
              then push constraints (".default('" ++ showDefault defaultValue ++ "')")
              else push constraints (".default(" ++ showDefault defaultValue ++ ")")
          end
        else constraints
    | None => constraints
    end in
  let constraints :=
    if negb (truthyFlag (cc_nullable cc)) && notSerial
    then push constraints ".notNull()" else constraints in
  let constraints :=
    if truthyFlag (cc_unique cc) && notSerial &&
       negb (truthyFlag (cc_primaryKey cc))
    then push constraints ".unique()" else constraints in
  let constraints :=
    if truthyFlag (cc_primaryKey cc) && notSerial &&
       negb hasCompositePrimaryKey
    then push constraints ".primaryKey()" else constraints in
  let constraints :=
    match cc_references cc with
    | Some references => push constraints (referencesModifier references)
    | None => constraints
    end in
  constraints.

(** [mapColumnToDrizzle] *)
Definition mapColumnToDrizzle (columnName : string)
           (columnConfig : ColumnConfig) (enums : EnumsConfig)
           (hasCompositePrimaryKey : bool) : string :=
  let fieldKey := toCamelCase columnName in
  "  " ++ fieldKey ++ ": " ++
  drizzleColumnType columnName (dbConstraints columnConfig) enums ++
  join "" (drizzleConstraints (dbConstraints columnConfig)
                              hasCompositePrimaryKey).

(** [generateEnumDefinitions] *)
Definition generateEnumDefinitions (enums : EnumsConfig) : string :=
  join nl
    (map (fun '(enumName, config) =>
            "export const " ++ toCamelCase enumName ++ " = pgEnum('" ++
            enumName ++ "', [" ++ enumValuesText config ++ "]);")
         enums)
  ++ nl ++ nl.

(** The names of the columns flagged primary key that are not serial. *)
Definition primaryKeyColumns (cols : list (string * ColumnConfig)) : list string :=
  map fst
    (filter (fun '(_, config) =>
               truthyFlag (cc_primaryKey (dbConstraints config)) &&
               negb (String.eqb (cc_type (dbConstraints config)) "serial"))
            cols).

(** [table.indexes && Object.keys(table.indexes).length > 0] *)
Definition hasEntries {A : Type} (m : option (list (string * A))) : bool :=
  match m with
  | Some l => Nat.ltb 0 (List.length l)
  | None => false
  end.

Definition tableColumnRefs (cols : list string) : string :=
  join ", " (map (fun col => "table." ++ toCamelCase col) cols).

(** [generateTableDefinition] *)
Definition generateTableDefinition (table : TableConfig) (enums : EnumsConfig)
  : Res string :=
  let tableName' := toCamelCase (tableName table) in
  cols <- entriesOf (columns table) ;;
  let primaryKeyColumns := primaryKeyColumns cols in
  let hasCompositePrimaryKey := Nat.ltb 1 (List.length primaryKeyColumns) in
  let columns :=
    join ("," ++ nl)
      (map (fun '(columnName, columnConfig) =>
              mapColumnToDrizzle columnName columnConfig enums
                                 hasCompositePrimaryKey)
           cols) in
  let constraints : list string := [] in
  let constraints :=
    if hasCompositePrimaryKey
    then push constraints
              ("  primaryKey({ columns: [" ++ tableColumnRefs primaryKeyColumns ++
               "] })")
    else constraints in
  let indexes' :=
    map (fun '(indexName, indexConfig) =>
           "  index('" ++ indexName ++ "').on(" ++
           tableColumnRefs (ix_columns indexConfig) ++ ")")
        match indexes table with Some l => l | None => [] end in
  let constraints :=
    if hasEntries (indexes table)
    then (constraints ++ indexes')%list
    else constraints in
  let constraintsCallback :=
    if Nat.ltb 0 (List.length constraints)
    then ", (table) => [" ++ nl ++ join ("," ++ nl) constraints ++ nl ++ "]"
    else "" in
  Ok ("export const " ++ tableName' ++ " = pgTable('" ++ tableName table ++
      "', {" ++ nl ++ columns ++ nl ++ "}" ++ constraintsCallback ++ ");").

(** [generateRelations] *)
Definition generateRelations (table : TableConfig) : string :=
  if negb (hasEntries (relationships table)) then ""
  else
    let tableName' := toCamelCase (tableName table) in
    let relations :=
      join nl
        (map (fun '(relationName, relationConfig) =>
                let relatedTable := toCamelCase (rel_table relationConfig) in
                if String.eqb (rel_type relationConfig) "one-to-one"
                then "  " ++ relationName ++ ": one(" ++ relatedTable ++ "),"
                else if String.eqb (rel_type relationConfig) "one-to-many"
                then "  " ++ relationName ++ ": many(" ++ relatedTable ++ "),"
                else if String.eqb (rel_type relationConfig) "many-to-many"
                then "  // many-to-many relation: " ++ relationName
                else "  // unknown relation type: " ++ relationName)
             match relationships table with Some l => l | None => [] end) in
    nl ++ nl ++ "export const " ++ tableName' ++ "Relations = relations(" ++
    tableName' ++ ", ({ one, many }) => ({" ++ nl ++ relations ++ nl ++ "}));".

(** [set.add(x)] on a set kept in insertion order. *)
Definition setAdd (set : list string) (x : string) : list string :=
  if includes set x then set else push set x.

(** [Array.from(set).sort()] *)
Fixpoint insertSorted (x : string) (sorted : list string) : list string :=
  match sorted with
  | [] => [x]
  | y :: rest =>
      if String.leb x y then x :: sorted else y :: insertSorted x rest
  end.

Definition sort (items : list string) : list string :=
  fold_right insertSorted [] items.

(** The [switch] on the column type that fills [pgCoreImports]. *)
Definition columnTypeImport (pgCoreImports : list string) (type : string)
  : list string :=
  if String.eqb type "varchar" then setAdd pgCoreImports "varchar"
  else if String.eqb type "text" then setAdd pgCoreImports "text"
  else if String.eqb type "integer" || String.eqb type "serial"
  then setAdd pgCoreImports "integer"
  else if isNumericFamily type then setAdd pgCoreImports "numeric"
  else if String.eqb type "timestamp" then setAdd pgCoreImports "timestamp"
  else if String.eqb type "date" then setAdd pgCoreImports "date"
  else if String.eqb type "boolean" then setAdd pgCoreImports "boolean"
  else pgCoreImports.

(** The two import sets of [generateTableSchema], as the record handed to
    [generateImports]. *)
Definition schemaImports (table : TableConfig)
           (cols : list (string * ColumnConfig))
  : list (string * list string) :=
  let pgCoreImports := ["pgTable"] in
  let drizzleImports : list string := [] in
  let pgCoreImports :=
    fold_left (fun set '(_, columnConfig) =>
                 columnTypeImport set (cc_type (dbConstraints columnConfig)))
              cols pgCoreImports in
  let pgCoreImports :=
    if hasEntries (indexes table) then setAdd pgCoreImports "index"
    else pgCoreImports in
  let pgCoreImports :=
    if Nat.ltb 1 (List.length (primaryKeyColumns cols))
    then setAdd pgCoreImports "primaryKey" else pgCoreImports in
  let drizzleImports :=
    if hasEntries (relationships table) then setAdd drizzleImports "relations"
    else drizzleImports in
  let imports : list (string * list string) := [] in
  let imports :=
    if Nat.ltb 0 (List.length pgCoreImports)
    then (imports ++ [("drizzle-orm/pg-core", sort pgCoreImports)])%list
    else imports in
  let imports :=
    if Nat.ltb 0 (List.length drizzleImports)
    then (imports ++ [("drizzle-orm", sort drizzleImports)])%list
    else imports in
  imports.

(** The ["// Enum imports"] block. *)
Definition enumImports (usedEnums : list string) (enums : EnumsConfig) : string :=
  if Nat.ltb 0 (List.length usedEnums) then
    fold_left
      (fun content enumType =>
         match findEnumKey enums enumType with
         | Some enumKey =>
             if truthyString (Some enumKey)
             then content ++ "import { " ++ toCamelCase enumKey ++
                  " } from '../enums';" ++ nl
             else content
         | None => content
         end)
      usedEnums ("// Enum imports" ++ nl)
    ++ nl
  else "".

(** The ["// Table imports for foreign keys"] block. *)
Definition tableImports (referencedTables : list string) : Res string :=
  if Nat.ltb 0 (List.length referencedTables) then
    block <- forEachM
               (fun content referencedTable =>
                  let tableVarName := toCamelCase referencedTable in
                  fileName <- toSingularCamelCase referencedTable ;;
                  Ok (content ++ "import { " ++ tableVarName ++ " } from '../" ++
                      fileName ++ "';" ++ nl))
               referencedTables ("// Table imports for foreign keys" ++ nl) ;;
    Ok (block ++ nl)
  else Ok "".

(** [generateTableSchema] *)
Definition generateTableSchema (table : TableConfig) (enums : EnumsConfig)
  : Gen string :=
  _ <~ lift (requireValidTable Template.validateTableConfig table) ;;
  content <~ generateFileHeader
               ("Drizzle schema for " ++ tableName table ++ " table") ;;
  cols <~ lift (entriesOf (columns table)) ;;
  let content := content ++ generateImports (schemaImports table cols) in
  let usedEnums := enumTypesUsed cols enums in
  let content := content ++ enumImports usedEnums enums in
  let referencedTables :=
    unique
      (flat_map (fun '(_, col) =>
                   match cc_references (dbConstraints col) with
                   | Some references => [ref_table references]
                   | None => []
                   end)
                cols) in
  imports <~ lift (tableImports referencedTables) ;;
  let content := content ++ imports in
  definition <~ lift (generateTableDefinition table enums) ;;
  let content := content ++ definition in
  let content := content ++ generateRelations table in
  ret content.

(** [generateEnumsFile] *)
Definition generateEnumsFile (enums : EnumsConfig) : Gen unit :=
  content <~ generateFileHeader "Drizzle enum definitions" ;;
  let content := content ++ generateImports [("drizzle-orm/pg-core", ["pgEnum"])] in
  let content := content ++ generateEnumDefinitions enums in
  writeAndFormatFile "./src/models/enums/schema.ts" content.

(** [generateDrizzleSchemas] *)
Definition generateDrizzleSchemas (enums : EnumsConfig)
           (tables : list TableConfig) : Gen unit :=
  exitOnError
    (_ <~ generateEnumsFile enums ;;
     _ <~ forOf
            (fun table =>
               content <~ generateTableSchema table enums ;;
               fileName <~ lift (toSingularCamelCase (tableName table)) ;;
               writeAndFormatFile
                 ("./src/models/" ++ fileName ++ "/schema.ts") content)
            tables ;;
     Aggregation.generateModelAggregation tables SchemaKind).

End Schemas.

(** ** The models coordinator ([scripts/models/index.ts]) *)

Record GenerateOptions : Type := {
  validationOnly : option bool;
  schemasOnly : option bool;
  typesOnly : option bool
}.

(** [generateModels()] is called with the default [options = {}]. *)
Definition defaultOptions : GenerateOptions :=
  {| validationOnly := None; schemasOnly := None; typesOnly := None |}.

Module Models.

Definition when (condition : bool) (m : Gen unit) : Gen unit :=
  if condition then m else ret tt.

(** [generateModels], on the model that [loadEnums] and [loadAllTables]
    return to each of the three generators. *)
Definition generateModels (options : GenerateOptions) (enums : EnumsConfig)
           (tables : list TableConfig) : Gen unit :=
  exitOnError
    (let runAll :=
       negb (truthyFlag (validationOnly options)) &&
       negb (truthyFlag (schemasOnly options)) &&
       negb (truthyFlag (typesOnly options)) in
     _ <~ when (runAll || truthyFlag (validationOnly options))
               (Validation.generateZodSchemas enums tables) ;;
     _ <~ when (runAll || truthyFlag (typesOnly options))
               (Types.generateTypeScriptTypes enums tables) ;;
     when (runAll || truthyFlag (schemasOnly options))
          (Schemas.generateDrizzleSchemas enums tables)).

End Models.

(** The world at the start of a run. *)
Definition initialWorld : World := {| reads := 0; written := [] |}.

(** ** Sample descriptors *)

(** [{ "type": "serial", "nullable": false, "primaryKey": true }], the [id]
    column of [db/tables/users.json]. *)
Definition idColumn : ColumnConfig :=
  {| dbConstraints :=
       {| cc_type := "serial"; cc_length := None; cc_precision := None;
          cc_scale := None; cc_nullable := Some false; cc_default := None;
          cc_primaryKey := Some true; cc_unique := None;
          cc_autoIncrement := None; cc_references := None |};
     validation := None |}.

Definition mkTable (name : string)
           (cols : option (list (string * ColumnConfig))) : TableConfig :=
  {| tableName := name; displayName := name; columns := cols;
     indexes := None; relationships := None |}.

(** A descriptor file without a ["columns"] member. *)
Definition tableWithoutColumns : TableConfig := mkTable "users" None.

(** A descriptor with ["columns": {}]. *)
Definition tableWithEmptyColumns : TableConfig := mkTable "users" (Some []).

(** A descriptor with ["tableName": ""] and a serial [id] column. *)
Definition tableWithoutName : TableConfig := mkTable "" (Some [("id", idColumn)]).

(** A primary-key column whose validation rules say [required: false]. *)
Definition optionalKeyColumn : ColumnConfig :=
  {| dbConstraints :=
       {| cc_type := "varchar"; cc_length := Some 36%Z; cc_precision := None;
          cc_scale := None; cc_nullable := Some false; cc_default := None;
          cc_primaryKey := Some true; cc_unique := None;
          cc_autoIncrement := None; cc_references := None |};
     validation :=
       Some {| cv_required := Some false; cv_min := None; cv_max := None;
               cv_pattern := None; cv_email := None; cv_url := None |} |}.

(** [{ "type": "varchar", "nullable": false, "default": "active" }] with the
    given [required] rule. *)
Definition statusColumn (required : option bool) : ColumnConfig :=
  {| dbConstraints :=
       {| cc_type := "varchar"; cc_length := None; cc_precision := None;
          cc_scale := None; cc_nullable := Some false;
          cc_default := Some (DString "active");
          cc_primaryKey := None; cc_unique := None;
          cc_autoIncrement := None; cc_references := None |};
     validation :=
       Some {| cv_required := required; cv_min := None; cv_max := None;
               cv_pattern := None; cv_email := None; cv_url := None |} |}.

(** [{ "type": "text", "nullable": true }] *)
Definition notesColumn : ColumnConfig :=
  {| dbConstraints :=
       {| cc_type := "text"; cc_length := None; cc_precision := None;
          cc_scale := None; cc_nullable := Some true; cc_default := None;
          cc_primaryKey := None; cc_unique := None;
          cc_autoIncrement := None; cc_references := None |};
     validation := None |}.

(** [users]: a serial key, a defaulted status, nullable notes and a
    timestamp that the database fills in. *)
Definition createdAtColumn : ColumnConfig :=
  {| dbConstraints :=
       {| cc_type := "timestamp"; cc_length := None; cc_precision := None;
          cc_scale := None; cc_nullable := Some false;
          cc_default := Some (DString "now()");
          cc_primaryKey := None; cc_unique := None;
          cc_autoIncrement := None; cc_references := None |};
     validation := None |}.

Definition usersColumns : list (string * ColumnConfig) :=
  [ ("id", idColumn); ("status", statusColumn None);
    ("notes", notesColumn); ("created_at", createdAtColumn) ].

Definition usersTable : TableConfig := mkTable "users" (Some usersColumns).

(** ** The insert schema, as the specification describes it *)

(** An auto-generated column: its type is serial, or its default is the
    string "now()". *)
Definition autoGeneratedColumn (col : ColumnConfig) : bool :=
  if String.eqb (cc_type (dbConstraints col)) "serial" then true
  else
    match cc_default (dbConstraints col) with
    | Some (DString text) => String.eqb text "now()"
    | _ => false
    end.

(** A column that is nullable, has a default value, or is marked
    [required: false]. *)
Definition widenedColumn (col : ColumnConfig) : bool :=
  match cc_nullable (dbConstraints col), cc_default (dbConstraints col),
        cv_required (validationOf col) with
  | Some true, _, _ => true
  | _, Some _, _ => true
  | _, _, Some false => true
  | _, _, _ => false
  end.

(** The fields left out of the insert schema: the auto-generated columns. *)
Definition omittedFromInsert (cols : list (string * ColumnConfig)) : list string :=
  map (fun '(columnName, _) => toCamelCase columnName)
      (filter (fun '(_, col) => autoGeneratedColumn col) cols).

(** The fields that the insert schema declares again, each with the
    optional modifier: the remaining columns that are nullable, defaulted
    or not required. *)
Definition widenedInInsert (cols : list (string * ColumnConfig))
           (enums : EnumsConfig) : list string :=
  map (fun '(columnName, col) =>
         "    " ++ toCamelCase columnName ++ ": " ++
         Validation.addDefaultValue (Validation.generateBaseZodType col enums) col ++
         ".optional()")
      (filter (fun '(_, col) =>
                 negb (autoGeneratedColumn col) && widenedColumn col)
              cols).


(** The text of the insert schema: the base schema, less the omitted
    fields, extended with the widened ones. *)
Definition insertSchemaText (name : string) (omitted widened : list string)
  : string :=
  "export const " ++ name ++ "InsertSchema = " ++ name ++ "Schema" ++
  (if Nat.eqb (List.length omitted) 0 then ""
   else ".omit({ " ++ join ", " (map (fun field => field ++ ": true") omitted) ++
        " })") ++
  (if Nat.eqb (List.length widened) 0 then ""
   else ".extend({" ++ nl ++ join ("," ++ nl) widened ++ nl ++ "  })") ++
  ";".

(** ** The order of the storage modifiers *)

Inductive ModifierKind : Type :=
| KNotNull | KDefault | KUnique | KPrimaryKey | KIdentity | KReferences.

(** The kind of one element of a [constraints] array. *)
Definition modifierKind (modifier : string) : option ModifierKind :=
  if String.eqb modifier ".notNull()" then Some KNotNull
  else if String.eqb modifier ".defaultNow()" then Some KDefault
  else if beginsWith ".default(" modifier then Some KDefault
  else if String.eqb modifier ".unique()" then Some KUnique
  else if String.eqb modifier ".primaryKey()" then Some KPrimaryKey
  else if String.eqb modifier ".generatedAlwaysAsIdentity()" then Some KIdentity
  else if beginsWith ".references(" modifier then Some KReferences
  else None.

(** The order the specification gives: not-null, default, uniqueness,
    primary key (with the identity clause of an auto-increment key), foreign
    key. *)
Definition specifiedRank (k : ModifierKind) : nat :=
  match k with
  | KNotNull => 0 | KDefault => 1 | KUnique => 2
  | KPrimaryKey => 3 | KIdentity => 4 | KReferences => 5
  end.

(** The order of the pushes in [mapColumnToDrizzle]: default, not-null,
    uniqueness, primary key, foreign key. *)
Definition emitterRank (k : ModifierKind) : nat :=
  match k with
  | KDefault => 0 | KNotNull => 1 | KUnique => 2
  | KPrimaryKey => 3 | KIdentity => 4 | KReferences => 5
  end.

Fixpoint increasing (ranks : list nat) : bool :=
  match ranks with
  | a :: (b :: _) as rest => Nat.ltb a b && increasing rest
  | _ => true
  end.

(** Every modifier is of a known kind and the kinds follow the given order,
    each at most once. *)
Definition inOrder (rank : ModifierKind -> nat) (modifiers : list string) : bool :=
  forallb (fun m => match modifierKind m with Some _ => true | None => false end)
          modifiers &&
  increasing
    (map (fun m => match modifierKind m with Some k => rank k | None => 0 end)
         modifiers).

Definition sameKind (k k' : ModifierKind) : bool :=
  match k, k' with
  | KNotNull, KNotNull | KDefault, KDefault | KUnique, KUnique
  | KPrimaryKey, KPrimaryKey | KIdentity, KIdentity
  | KReferences, KReferences => true
  | _, _ => false
  end.

(** Some modifier of the array is of the kind [k]. *)
Definition hasKind (k : ModifierKind) (modifiers : list string) : bool :=
  existsb (fun m => match modifierKind m with
                    | Some k' => sameKind k k'
                    | None => false
                    end)
          modifiers.

(** [{ "type": "serial" }] with a default and a unique flag that the
    emitter has to ignore. *)
Definition serialColumn : ColumnConfig :=
  {| dbConstraints :=
       {| cc_type := "serial"; cc_length := None; cc_precision := None;
          cc_scale := None; cc_nullable := Some false;
          cc_default := Some (DNumber 1%Z);
          cc_primaryKey := None; cc_unique := Some true;
          cc_autoIncrement := None; cc_references := None |};
     validation := None |}.

(** ** Relation entries, as the specification names them *)

(** The column carries a foreign key whose target table is [name]. *)
Definition referencesTable (name : string) (col : ColumnConfig) : bool :=
  match cc_references (dbConstraints col) with
  | Some references => String.eqb (ref_table references) name
  | None => false
  end.

Definition columnsOf (table : TableConfig) : list (string * ColumnConfig) :=
  match columns table with Some cols => cols | None => [] end.

Definition referencingColumns (name : string) (table : TableConfig)
  : list (string * ColumnConfig) :=
  filter (fun '(_, col) => referencesTable name col) (columnsOf table).

(** The singular of a name that has one. *)
Definition singularOf (name : string) : string :=
  match toSingular name with Some s => s | None => name end.

Definition hasSingular (name : string) : bool :=
  match toSingular name with Some _ => true | None => false end.

(** The source table's name in camel case, with an "s" appended unless it
    ends in "s". *)
Definition pluralName (source : TableConfig) : string :=
  let name := toCamelCase (tableName source) in
  if endsWith name "s" then name else name ++ "s".

(** The incoming entry that names the table [source]. *)
Definition incomingEntry (source : TableConfig) : string :=
  "  " ++ pluralName source ++ "?: " ++
  toPascalCase (singularOf (tableName source)) ++ "[];".

(** The outgoing entry that names the table called [target]. *)
Definition outgoingEntry (target : string) : string :=
  "  " ++ toCamelCase (singularOf target) ++ "?: " ++
  toPascalCase (singularOf target) ++ ";".

(** The incoming entries for the table called [name], table by table in the
    order of the loaded set, one per referencing column; the tables called
    [name] contribute none. *)
Definition incomingEntries (name : string) (allTables : list TableConfig)
  : list string :=
  flat_map
    (fun other =>
       if String.eqb (tableName other) name then []
       else map (fun _ => incomingEntry other) (referencingColumns name other))
    allTables.

(** A descriptor that the resolvers can scan: its column map is present and
    its name has a singular. *)
Definition scannable (table : TableConfig) : bool :=
  match columns table with Some _ => true | None => false end &&
  hasSingular (tableName table).

(** Every foreign key of the table targets a name that has a singular. *)
Definition targetsHaveSingular (table : TableConfig) : bool :=
  forallb (fun '(_, col) =>
             match cc_references (dbConstraints col) with
             | Some references => hasSingular (ref_table references)
             | None => true
             end)
          (columnsOf table).

(** A column with a foreign key to [table].[column]. *)
Definition columnReferencing (table column : string) : ColumnConfig :=
  {| dbConstraints :=
       {| cc_type := "integer"; cc_length := None; cc_precision := None;
          cc_scale := None; cc_nullable := Some false; cc_default := None;
          cc_primaryKey := None; cc_unique := None; cc_autoIncrement := None;
          cc_references :=
            Some {| ref_table := table; ref_column := column;
                    ref_onDelete := None; ref_onUpdate := None |} |};
     validation := None |}.

(** [guests], and [bookings] with [guest_id] referencing [guests]; [guests]
    declares no relationship. *)
Definition guestsTable : TableConfig := mkTable "guests" (Some [("id", idColumn)]).

Definition bookingsTable : TableConfig :=
  mkTable "bookings"
    (Some [("id", idColumn); ("guest_id", columnReferencing "guests" "id")]).

(** A second table, [booking], that also references [guests]. *)
Definition bookingTable : TableConfig :=
  mkTable "booking"
    (Some [("id", idColumn); ("guest_id", columnReferencing "guests" "id")]).

(** [categories], whose [parent_id] references [categories] itself. *)
Definition categoriesTable : TableConfig :=
  mkTable "categories"
    (Some [("id", idColumn); ("parent_id", columnReferencing "categories" "id")]).

(** A different descriptor that is also called [guests] and references
    [guests]. *)
Definition guestsCopyTable : TableConfig :=
  {| tableName := "guests"; displayName := "Guests (legacy)";
     columns := Some [("id", idColumn);
                      ("referred_by", columnReferencing "guests" "id")];
     indexes := None; relationships := None |}.

(** [guests_archive], whose name begins with [guests], referencing
    [guests]. *)
Definition guestsArchiveTable : TableConfig :=
  mkTable "guests_archive"
    (Some [("id", idColumn); ("guest_id", columnReferencing "guests" "id")]).

(** The target tables of the foreign keys of a table, column by column. *)
Definition referencedTables (table : TableConfig) : list string :=
  flat_map (fun '(_, col) =>
              match cc_references (dbConstraints col) with
              | Some references => [ref_table references]
              | None => []
              end)
           (columnsOf table).

(** The outgoing entries of a table, one per column with a foreign key. *)
Definition outgoingEntries (table : TableConfig) : list string :=
  map outgoingEntry (referencedTables table).

(** The relations of a result, [[]] for a resolver that threw. *)
Definition relationsOf (r : Res Relations) : list string :=
  match r with Ok rs => relations rs | Throw _ => [] end.

(** ** Runs of the pipeline *)

(** Two clocks whose readings differ by a second. *)
Definition morningClock : Clock := fun _ => "2025-01-01T09:00:00.000Z".
Definition laterClock : Clock := fun _ => "2025-01-01T09:00:01.000Z".

(** The world after one more reading of the clock. *)
Definition tick (w : World) : World :=
  {| reads := S (reads w); written := written w |}.

(** An artifact without its time stamp: the path, the description of the
    header, the number of the clock reading that stamps the header, and the
    text after the header. *)
Definition Stamped : Type := (string * string * nat * string)%type.

(** The files of a run, given the artifacts and the clock. *)
Definition render (clock : Clock) (skeleton : list Stamped)
  : list (string * string) :=
  map (fun '(path, description, k, body) =>
         (path, fileHeaderText description (clock k) ++ body))
      skeleton.

Definition stampsWithin (lo hi : nat) (skeleton : list Stamped) : Prop :=
  Forall (fun '(_, _, k, _) => lo <= k < hi) skeleton.

(** A generator whose outcome, number of clock readings and artifacts
    (up to the stamps) do not depend on the clock. *)
Definition Uniform (m : Gen unit) : Prop :=
  forall n,
  exists (r : Res unit) (n' : nat) (skeleton : list Stamped),
    n <= n' /\ stampsWithin n n' skeleton /\
    forall clock files,
      m clock {| reads := n; written := files |} =
      (r, {| reads := n'; written := (files ++ render clock skeleton)%list |}).

(** A generator of one file's text: it fails before reading the clock, or
    reads it once and fails, or reads it once and returns the stamped header
    followed by a text that does not depend on the clock. *)
Definition Stampable (m : Gen string) : Prop :=
  (exists e, forall clock w, m clock w = (Throw e, w)) \/
  (exists e, forall clock w, m clock w = (Throw e, tick w)) \/
  (exists description body,
      forall clock w,
        m clock w =
        (Ok (fileHeaderText description (clock (reads w)) ++ body), tick w)).

(** ** The checks of the validator, as the specification lists them *)

Definition hasColumns (table : TableConfig) : Prop :=
  exists cs, columns table = Some cs /\ 1 <= List.length cs.

Definition hasPrimaryKeyColumn (table : TableConfig) : Prop :=
  exists cs name col,
    columns table = Some cs /\ In (name, col) cs /\
    (cc_primaryKey (dbConstraints col) = Some true \/
     cc_type (dbConstraints col) = "serial").

(** The issues in the order of the checks: missing name, empty column set,
    missing primary key. *)
Definition issuesInOrder (table : TableConfig)
           (cs : list (string * ColumnConfig)) : list string :=
  ((if String.eqb (tableName table) "" then ["Table must have a tableName"] else []) ++
   (if Nat.eqb (List.length cs) 0 then ["Table must have at least one column"] else []) ++
   (if existsb (fun '(_, col) => isPrimaryKeyColumn col) cs
    then [] else ["Table must have a primary key"]))%list.

(** ** The remaining identifier conversions
       ([scripts/lib/stringTransforms.ts]) *)

(** [str.replace(/_/g, "-")] *)
Fixpoint toKebabCase (str : string) : string :=
  match str with
  | EmptyString => EmptyString
  | String c rest =>
      String (if Ascii.eqb c "_" then "-"%char else c) (toKebabCase rest)
  end.

(** [str.replace(/[A-Z]/g, (letter) => `_${letter.toLowerCase()}`)] *)
Fixpoint toSnakeCase (str : string) : string :=
  match str with
  | EmptyString => EmptyString
  | String c rest =>
      if isUpper c
      then String "_" (String (lowerChar c) (toSnakeCase rest))
      else String c (toSnakeCase rest)
  end.

(** A snake-case name: lower-case letters and digits, every underscore
    followed by a lower-case letter. *)
Fixpoint snakeName (s : string) : bool :=
  match s with
  | EmptyString => true
  | String c rest =>
      if Ascii.eqb c "_" then
        match rest with
        | String d rest' => isLower d && snakeName rest'
        | EmptyString => false
        end
      else (isLower c || isDigit c) && snakeName rest
  end.

(** The first character of the string is a lower-case letter. *)
Definition startsLower (s : string) : bool :=
  match s with
  | String c _ => isLower c
  | EmptyString => false
  end.

(** ** Import lines of the relation resolvers *)

(** The import line for the table called [target]. *)
Definition relationImport (target : string) : string :=
  "import type { " ++ toPascalCase (singularOf target) ++ " } from '../" ++
  toCamelCase (singularOf target) ++ "';".

(** A table with two foreign keys to [guests]. *)
Definition transfersTable : TableConfig :=
  mkTable "transfers"
    (Some [("id", idColumn);
           ("sender_id", columnReferencing "guests" "id");
           ("receiver_id", columnReferencing "guests" "id")]).

(** ** Table-level constraints of the storage emitter *)

(** The index lines of the constraints callback: one per declared index,
    in the order of the index map. *)
Definition indexConstraintLines (table : TableConfig) : list string :=
  match indexes table with
  | Some declared =>
      map (fun '(indexName, indexConfig) =>
             "  index('" ++ indexName ++ "').on(" ++
             join ", " (map (fun col => "table." ++ toCamelCase col)
                            (ix_columns indexConfig)) ++ ")")
          declared
  | None => []
  end.

(** The names of the columns that are flagged primary key and whose type is
    not serial, in column order. *)
Fixpoint keyParts (cols : list (string * ColumnConfig)) : list string :=
  match cols with
  | [] => []
  | (name, col) :: rest =>
      match cc_primaryKey (dbConstraints col) with
      | Some true =>
          if String.eqb (cc_type (dbConstraints col)) "serial"
          then keyParts rest else name :: keyParts rest
      | _ => keyParts rest
      end
  end.

(** The table-level constraint over the key parts. *)
Definition compositeKeyLine (names : list string) : string :=
  "  primaryKey({ columns: [" ++
  join ", " (map (fun name => "table." ++ toCamelCase name) names) ++ "] })".

(** The name that a column of the given type needs from
    "drizzle-orm/pg-core", if any. *)
Definition pgCoreNameOf (type : string) : option string :=
  if includes ["varchar"; "text"; "integer"; "numeric"; "timestamp"; "date";
               "boolean"] type
  then Some type
  else if String.eqb type "serial" then Some "integer"
  else if includes ["decimal"; "money"] type then Some "numeric"
  else None.

(** A non-serial column flagged primary key. *)
Definition keyPartColumn : ColumnConfig :=
  {| dbConstraints :=
       {| cc_type := "integer"; cc_length := None; cc_precision := None;
          cc_scale := None; cc_nullable := Some false; cc_default := None;
          cc_primaryKey := Some true; cc_unique := None;
          cc_autoIncrement := None; cc_references := None |};
     validation := None |}.

(** [booking_guests], keyed by the pair ([booking_id], [guest_id]). *)
Definition bookingGuestsTable : TableConfig :=
  mkTable "booking_guests"
    (Some [("booking_id", keyPartColumn); ("guest_id", keyPartColumn)]).

(** ** Steps of the generators *)



(** ** Runs that end well *)

(** A table that every generator accepts: the validator reports no issue,
    the name has a singular, and so has the target of every foreign key. *)
Definition readyTable (table : TableConfig) : bool :=
  match Template.validateTableConfig table with
  | Ok [] => true
  | _ => false
  end &&
  hasSingular (tableName table) && targetsHaveSingular table.

(** A generator that ends well after reading the clock [k] times and
    writing [k] stamped files, whatever the clock. *)
Definition Emits (k : nat) (m : Gen unit) : Prop :=
  forall n,
  exists skeleton : list Stamped,
    List.length skeleton = k /\
    forall clock files,
      m clock {| reads := n; written := files |} =
      (Ok tt, {| reads := n + k;
                 written := (files ++ render clock skeleton)%list |}).

(** A generator of one file's text that always returns the stamped header
    followed by a text that does not depend on the clock. *)
Definition StampableOk (m : Gen string) : Prop :=
  exists description body,
    forall clock w,
      m clock w =
      (Ok (fileHeaderText description (clock (reads w)) ++ body), tick w).

(** ** The other mappers of [scripts/models/utils/typeMapping.ts] *)

(** The [switch] of [mapToZodType]. *)
Definition zodMapperBase (columnConfig : ColumnConfig) : string :=
  let type := cc_type (dbConstraints columnConfig) in
  let length := cc_length (dbConstraints columnConfig) in
  let validation := validationOf columnConfig in
  if String.eqb type "varchar" || String.eqb type "text" then
    let zodType := Validation.withMin validation "z.string()" in
    let zodType := Validation.withMaxOrLength validation length zodType in
    let zodType :=
      if truthyFlag (cv_email validation) then zodType ++ ".email()" else zodType in
    let zodType :=
      if truthyFlag (cv_url validation) then zodType ++ ".url()" else zodType in
    Validation.withPattern validation zodType
  else if String.eqb type "integer" || String.eqb type "serial" then
    Validation.withMax validation (Validation.withMin validation "z.number().int()")
  else if isNumericFamily type then
    Validation.withMax validation (Validation.withMin validation "z.number()")
  else if String.eqb type "timestamp" || String.eqb type "date" then "z.date()"
  else if String.eqb type "boolean" then "z.boolean()"
  else if String.eqb type "enum" then "z.enum([])"
  else "z.string()".

(** [mapToZodType] *)
Definition mapToZodType (columnConfig : ColumnConfig) : string :=
  let nullable := cc_nullable (dbConstraints columnConfig) in
  let validation := validationOf columnConfig in
  let zodType := zodMapperBase columnConfig in
  let zodType :=
    if truthyFlag nullable then zodType ++ ".nullable()" else zodType in
  let zodType :=
    if negb (truthyFlag (cv_required validation)) && negb (truthyFlag nullable)
    then zodType ++ ".optional()" else zodType in
  zodType.

(** The [switch] of [mapToTSType]. *)
Definition tsBaseType (type : string) : string :=
  if String.eqb type "varchar" || String.eqb type "text" then "string"
  else if String.eqb type "integer" || String.eqb type "serial" ||
          isNumericFamily type then "number"
  else if String.eqb type "timestamp" || String.eqb type "date" then "Date"
  else if String.eqb type "boolean" then "boolean"
  else if String.eqb type "enum" then "string"
  else "string".

(** [mapToTSType] *)
Definition mapToTSType (columnConfig : ColumnConfig) : string :=
  let type := cc_type (dbConstraints columnConfig) in
  let nullable := cc_nullable (dbConstraints columnConfig) in
  let tsType := tsBaseType type in
  if truthyFlag nullable then tsType ++ " | null" else tsType.

(** ** The other analyses of [scripts/models/utils/schemaAnalysis.ts] *)

Record EnumUsage : Type := {
  usedEnums : list string;
  enumImports : list string
}.

(** [analyzeEnumUsage] *)
Definition analyzeEnumUsage (table : TableConfig) (enums : EnumsConfig)
  : Res EnumUsage :=
  cols <- entriesOf (columns table) ;;
  let usedEnums := unique (enumTypesUsed cols enums) in
  let enumImports :=
    map (fun enumType =>
           match findEnumKey enums enumType with
           | Some enumKey =>
               if truthyString (Some enumKey) then enumKey else enumType
           | None => enumType
           end)
        usedEnums in
  Ok {| usedEnums := usedEnums; enumImports := enumImports |}.

(** A descriptor called [ledger] without a column map. *)
Definition ledgerWithoutColumns : TableConfig := mkTable "ledger" None.

(** ** The index files ([scripts/models/utils/indexGeneration.ts]) *)

Module IndexGeneration.

(** [exports.forEach((exportName) => {
       content += `export * from './${exportName}';\n`; })] *)
Definition exportLines (exports : list string) (content : string) : string :=
  fold_left
    (fun content exportName =>
       content ++ "export * from './" ++ exportName ++ "';" ++ nl)
    exports content.

(** [generateModelIndex] *)
Definition generateModelIndex (table : TableConfig) (exports : list string)
  : Gen unit :=
  fileName <~ lift (toSingularCamelCase (tableName table)) ;;
  modelName <~ lift (toSingularPascalCase (tableName table)) ;;
  content <~ generateFileHeader (modelName ++ " model exports") ;;
  let content := content ++ "// Export all generated files for this model" ++ nl in
  let content := exportLines exports content in
  writeAndFormatFile ("./src/models/" ++ fileName ++ "/index.ts") content.

(** [generateEnumsIndex] *)
Definition generateEnumsIndex (exports : list string) : Gen unit :=
  content <~ generateFileHeader "Enums model exports" ;;
  let content := content ++ "// Export all enum generated files" ++ nl in
  let content := exportLines exports content in
  writeAndFormatFile "./src/models/enums/index.ts" content.

(** [generateUtilsIndex] *)
Definition generateUtilsIndex (exports : list string) : Gen unit :=
  content <~ generateFileHeader "Utils model exports" ;;
  let content := content ++ "// Export all utility generated files" ++ nl in
  let content := exportLines exports content in
  writeAndFormatFile "./src/models/utils/index.ts" content.

End IndexGeneration.

(** ** The entry points of [scripts/index.ts] *)

(** [generateAllModelIndexes], on the tables that [loadAllTables] returns. *)
Definition generateAllModelIndexes (tables : list TableConfig) : Gen unit :=
  _ <~ forOf
         (fun table =>
            IndexGeneration.generateModelIndex table
              ["types"; "schema"; "validation"])
         tables ;;
  _ <~ IndexGeneration.generateEnumsIndex ["types"; "schema"; "validation"] ;;
  IndexGeneration.generateUtilsIndex ["types"].

(** [generateModelsOnly]: the model run with no options, then the index
    files, on the model that the loaders return to both. *)
Definition generateModelsOnly (enums : EnumsConfig) (tables : list TableConfig)
  : Gen unit :=
  exitOnError
    (_ <~ Models.generateModels defaultOptions enums tables ;;
     generateAllModelIndexes tables).


(** * Properties *)

Example toCamelCase_guest_id : toCamelCase "guest_id" = "guestId".
Proof. reflexivity. Qed.

Example toPascalCase_user_status : toPascalCase "user_status" = "UserStatus".
Proof. reflexivity. Qed.

Example toSingular_amenities : toSingular "amenities" = Some "amenity".
Proof. reflexivity. Qed.

Example toSingular_bookings : toSingular "bookings" = Some "booking".
Proof. reflexivity. Qed.

Example toSingular_boxes : toSingular "boxes" = Some "box".
Proof. reflexivity. Qed.

(** ** The validator *)

Lemma isPrimaryKeyColumn_spec (col : ColumnConfig) :
  isPrimaryKeyColumn col = true <->
  cc_primaryKey (dbConstraints col) = Some true \/
  cc_type (dbConstraints col) = "serial".
Proof.
  unfold isPrimaryKeyColumn, truthyFlag.
  rewrite orb_true_iff, String.eqb_eq.
  destruct (cc_primaryKey (dbConstraints col)) as [[|]|]; intuition congruence.
Qed.

Lemma existsb_primaryKey_spec (table : TableConfig) cs :
  columns table = Some cs ->
  existsb (fun '(_, col) => isPrimaryKeyColumn col) cs = true <->
  hasPrimaryKeyColumn table.
Proof.
  intros Hcs. rewrite existsb_exists. unfold hasPrimaryKeyColumn. split.
  - intros [[name col] [Hin Hpk]]. exists cs, name, col.
    rewrite <- isPrimaryKeyColumn_spec. auto.
  - intros (cs' & name & col & Hcs' & Hin & Hpk).
    assert (cs' = cs) by congruence. subst cs'.
    exists (name, col). rewrite isPrimaryKeyColumn_spec. auto.
Qed.

Lemma validateTableConfig_present (table : TableConfig) cs :
  columns table = Some cs ->
  Template.validateTableConfig table = Ok (issuesInOrder table cs).
Proof.
  intros Hcs. unfold Template.validateTableConfig, issuesInOrder, truthyString.
  rewrite Hcs. cbn [entriesOf bind].
  destruct (String.eqb (tableName table) ""), (Nat.eqb (List.length cs) 0),
    (existsb (fun '(_, col) => isPrimaryKeyColumn col) cs); reflexivity.
Qed.

Lemma validateTableConfig_copies_agree (table : TableConfig) :
  SchemaAnalysis.validateTableConfig table = Template.validateTableConfig table.
Proof. reflexivity. Qed.

(** C5.  The validator run on a descriptor without a column map: the two
    guarded checks push their issues, then [Object.values(table.columns)]
    throws a [TypeError] instead of returning the list.  With an empty column
    map the validator does return: two issues. *)
Theorem validateTableConfig_throws_without_columns :
  Template.validateTableConfig tableWithoutColumns = Throw TypeError /\
  SchemaAnalysis.validateTableConfig tableWithoutColumns = Throw TypeError /\
  Template.validateTableConfig tableWithEmptyColumns =
    Ok ["Table must have at least one column"; "Table must have a primary key"].
Proof. repeat split. Qed.

(** C6, as stated, fails: a table with one serial column and an empty name
    has a column and a primary-key column, and the validator's list is not
    empty. *)
Lemma validateTableConfig_empty_name_counterexample :
  hasColumns tableWithoutName /\ hasPrimaryKeyColumn tableWithoutName /\
  Template.validateTableConfig tableWithoutName =
    Ok ["Table must have a tableName"] /\
  ~ (Template.validateTableConfig tableWithoutName = Ok [] <->
     hasColumns tableWithoutName /\ hasPrimaryKeyColumn tableWithoutName).
Proof.
  assert (Hc : hasColumns tableWithoutName).
  { exists [("id", idColumn)]. split; [reflexivity | simpl; lia]. }
  assert (Hp : hasPrimaryKeyColumn tableWithoutName).
  { exists [("id", idColumn)], "id", idColumn.
    split; [reflexivity | split; [left; reflexivity | left; reflexivity]]. }
  repeat split; try assumption.
  intros [_ H]. specialize (H (conj Hc Hp)). discriminate H.
Qed.

(** C6, amended.  For every table whose column map is present, both copies
    of the validator return the issues of the failed checks in the order
    missing name, empty column set, missing primary key; the list is empty
    if and only if the name is not empty, there is at least one column and
    at least one column is flagged primary key or has the serial type. *)
Theorem validateTableConfig_issues (table : TableConfig) cs :
  columns table = Some cs ->
  Template.validateTableConfig table = Ok (issuesInOrder table cs) /\
  SchemaAnalysis.validateTableConfig table = Ok (issuesInOrder table cs) /\
  (Template.validateTableConfig table = Ok [] <->
   tableName table <> "" /\ hasColumns table /\ hasPrimaryKeyColumn table).
Proof.
  intros Hcs.
  pose proof (validateTableConfig_present table cs Hcs) as Hv.
  split; [exact Hv | split; [rewrite validateTableConfig_copies_agree; exact Hv |]].
  rewrite Hv. rewrite <- (existsb_primaryKey_spec table cs Hcs).
  unfold issuesInOrder, hasColumns. split.
  - intros H. injection H as H.
    destruct (String.eqb_spec (tableName table) ""); [discriminate H |].
    destruct (Nat.eqb_spec (List.length cs) 0); [discriminate H |].
    destruct (existsb _ cs); [| discriminate H].
    repeat split; auto. exists cs. split; [exact Hcs | lia].
  - intros (Hn & (cs' & Hcs' & Hlen) & Hpk).
    assert (cs' = cs) by congruence. subst cs'.
    destruct (String.eqb_spec (tableName table) ""); [contradiction |].
    destruct (Nat.eqb_spec (List.length cs) 0); [lia |].
    rewrite Hpk. reflexivity.
Qed.

Lemma validateTableConfig_issues_witness :
  Template.validateTableConfig (mkTable "users" (Some [("id", idColumn)])) = Ok [].
Proof.
  pose proof (validateTableConfig_issues
                (mkTable "users" (Some [("id", idColumn)]))
                [("id", idColumn)] eq_refl) as [H _].
  exact H.
Defined.

(** ** The base validation schema *)

Lemma append_assoc (a b c : string) : (a ++ b) ++ c = a ++ b ++ c.
Proof. induction a as [|x a IH]; simpl; [reflexivity | now rewrite IH]. Qed.

Lemma append_nil_r (a : string) : a ++ "" = a.
Proof. induction a as [|x a IH]; simpl; [reflexivity | now rewrite IH]. Qed.

(** The field of the base schema up to and including its default. *)
Lemma generateBaseSchemaField_eq name col enums :
  Validation.generateBaseSchemaField name col enums =
  "  " ++ toCamelCase name ++ ": " ++
  Validation.addDefaultValue (Validation.generateBaseZodType col enums) col ++
  (if truthyFlag (cc_nullable (dbConstraints col)) then ".nullable()" else "") ++
  (if Validation.requiredIsFalse col &&
      negb (truthyFlag (cc_nullable (dbConstraints col))) &&
      negb (truthyFlag (cc_primaryKey (dbConstraints col)))
   then ".optional()" else "").
Proof.
  unfold Validation.generateBaseSchemaField.
  destruct (truthyFlag (cc_nullable (dbConstraints col)));
    destruct (Validation.requiredIsFalse col);
    destruct (truthyFlag (cc_primaryKey (dbConstraints col))); cbn [andb negb];
    rewrite ?append_assoc, ?append_nil_r; reflexivity.
Qed.

Lemma truthyFlag_true (b : option bool) : truthyFlag b = true <-> b = Some true.
Proof. destruct b as [[|]|]; simpl; intuition congruence. Qed.

Lemma requiredIsFalse_true col :
  Validation.requiredIsFalse col = true <->
  cv_required (validationOf col) = Some false.
Proof.
  unfold Validation.requiredIsFalse.
  destruct (cv_required (validationOf col)) as [[|]|]; intuition congruence.
Qed.

(** The default is appended to the type with its bounds and pattern. *)
Lemma addDefaultValue_appends col :
  exists defaultPart,
    (defaultPart = "" \/ beginsWith ".default(" defaultPart = true) /\
    forall zodType,
      Validation.addDefaultValue zodType col = zodType ++ defaultPart.
Proof.
  unfold Validation.addDefaultValue.
  destruct (cc_default (dbConstraints col)) as [[n|d|b|]|];
    try destruct (String.eqb d "now()");
    destruct (String.eqb (cc_type (dbConstraints col)) "serial");
    destruct (isNumericFamily (cc_type (dbConstraints col)));
    cbn [negb andb];
    eexists; (split; [| intros zodType; try reflexivity;
                        symmetry; apply append_nil_r]);
    (right; reflexivity) || (left; reflexivity).
Qed.

(** C8.  A field of the base schema is the type with its bounds and pattern,
    then the default, then the nullable modifier, then the optional modifier,
    and nothing else.  The nullable modifier is there exactly for a nullable
    column; the optional modifier is there exactly when [required] is
    [false] and the column is neither nullable nor a primary key, so only
    when the column is not required and not nullable; a nullable column
    (whatever its [required] rule, so also with none) ends in the nullable
    modifier and carries no optional modifier. *)
Theorem generateBaseSchemaField_nullable_last name col enums :
  exists nullablePart optionalPart,
    Validation.generateBaseSchemaField name col enums =
      "  " ++ toCamelCase name ++ ": " ++
      Validation.addDefaultValue (Validation.generateBaseZodType col enums) col ++
      nullablePart ++ optionalPart /\
    (nullablePart = ".nullable()" \/ nullablePart = "") /\
    (optionalPart = ".optional()" \/ optionalPart = "") /\
    (nullablePart = ".nullable()" <-> cc_nullable (dbConstraints col) = Some true) /\
    (optionalPart = ".optional()" <->
       cv_required (validationOf col) = Some false /\
       cc_nullable (dbConstraints col) <> Some true /\
       cc_primaryKey (dbConstraints col) <> Some true) /\
    (cc_nullable (dbConstraints col) = Some true ->
       optionalPart = "" /\
       Validation.generateBaseSchemaField name col enums =
         "  " ++ toCamelCase name ++ ": " ++
         Validation.addDefaultValue (Validation.generateBaseZodType col enums) col ++
         ".nullable()").
Proof.
  rewrite generateBaseSchemaField_eq.
  pose proof (truthyFlag_true (cc_nullable (dbConstraints col))) as Hn.
  pose proof (truthyFlag_true (cc_primaryKey (dbConstraints col))) as Hk.
  pose proof (requiredIsFalse_true col) as Hr.
  destruct (truthyFlag (cc_nullable (dbConstraints col))) eqn:En.
  - (* nullable *)
    exists ".nullable()", "". rewrite andb_false_r. cbn [andb].
    assert (Hnull : cc_nullable (dbConstraints col) = Some true)
      by (apply Hn; reflexivity).
    repeat split; auto; try discriminate.
    intros (_ & Hnot & _). contradiction.
  - (* not nullable *)
    assert (Hnot : cc_nullable (dbConstraints col) <> Some true).
    { intros H. apply Hn in H. discriminate H. }
    exists "".
    destruct (Validation.requiredIsFalse col) eqn:Er;
      destruct (truthyFlag (cc_primaryKey (dbConstraints col))) eqn:Ek;
      cbn [andb negb].
    + exists "".
      repeat split; auto; try discriminate; try contradiction.
      intros (_ & _ & Hkey). exfalso. apply Hkey, Hk. reflexivity.
    + exists ".optional()".
      assert (Hkey : cc_primaryKey (dbConstraints col) <> Some true).
      { intros H. apply Hk in H. discriminate H. }
      assert (Hreq : cv_required (validationOf col) = Some false)
        by (apply Hr; reflexivity).
      repeat split; auto; try discriminate; try contradiction.
    + exists "".
      repeat split; auto; try discriminate; try contradiction.
      intros (Hreq & _). apply Hr in Hreq. discriminate Hreq.
    + exists "".
      repeat split; auto; try discriminate; try contradiction.
      intros (Hreq & _). apply Hr in Hreq. discriminate Hreq.
Qed.

(** C10.  For a column flagged primary key the base schema field carries no
    optional modifier, whatever its [required] rule and its nullability. *)
Theorem generateBaseSchemaField_primaryKey_never_optional name col enums :
  cc_primaryKey (dbConstraints col) = Some true ->
  Validation.generateBaseSchemaField name col enums =
    "  " ++ toCamelCase name ++ ": " ++
    Validation.addDefaultValue (Validation.generateBaseZodType col enums) col ++
    (if truthyFlag (cc_nullable (dbConstraints col)) then ".nullable()" else "").
Proof.
  intros Hpk. rewrite generateBaseSchemaField_eq, Hpk. cbn [truthyFlag negb].
  rewrite andb_false_r, append_nil_r. reflexivity.
Qed.

Lemma generateBaseSchemaField_primaryKey_never_optional_witness :
  cc_primaryKey (dbConstraints optionalKeyColumn) = Some true /\
  cv_required (validationOf optionalKeyColumn) = Some false /\
  Validation.generateBaseSchemaField "booking_ref" optionalKeyColumn [] =
    "  bookingRef: z.string().max(36)".
Proof.
  split; [reflexivity | split; [reflexivity |]].
  rewrite (generateBaseSchemaField_primaryKey_never_optional
             "booking_ref" optionalKeyColumn [] eq_refl).
  reflexivity.
Defined.

(** ** The insert schema *)

Lemma isAutoGenerated_spec col :
  Validation.isAutoGenerated col = autoGeneratedColumn col.
Proof.
  unfold Validation.isAutoGenerated, autoGeneratedColumn.
  destruct (String.eqb (cc_type (dbConstraints col)) "serial"); reflexivity.
Qed.



Lemma needsInsertModification_spec col :
  Validation.needsInsertModification col = widenedColumn col.
Proof.
  unfold Validation.needsInsertModification, Validation.requiredIsFalse,
    widenedColumn.
  destruct (cc_nullable (dbConstraints col)) as [[|]|];
    destruct (cc_default (dbConstraints col));
    destruct (cv_required (validationOf col)) as [[|]|]; reflexivity.
Qed.

Lemma autoGeneratedFields_eq cols :
  Validation.autoGeneratedFields cols = omittedFromInsert cols.
Proof.
  unfold Validation.autoGeneratedFields.
  rewrite <- (app_nil_l (omittedFromInsert cols)).
  generalize (@nil string).
  unfold omittedFromInsert.
  induction cols as [|[n c] cols IH]; intros acc; simpl.
  - now rewrite app_nil_r.
  - rewrite IH, isAutoGenerated_spec. destruct (autoGeneratedColumn c); simpl.
    + unfold push. now rewrite <- app_assoc.
    + reflexivity.
Qed.

Lemma insertModifications_eq cols enums :
  Validation.insertModifications cols enums = widenedInInsert cols enums.
Proof.
  unfold Validation.insertModifications.
  rewrite <- (app_nil_l (widenedInInsert cols enums)).
  generalize (@nil string).
  unfold widenedInInsert.
  induction cols as [|[n c] cols IH]; intros acc; simpl.
  - now rewrite app_nil_r.
  - rewrite IH, isAutoGenerated_spec, needsInsertModification_spec.
    destruct (autoGeneratedColumn c); simpl; [reflexivity |].
    destruct (widenedColumn c); simpl; [| reflexivity].
    unfold push. now rewrite <- app_assoc.
Qed.

(** A joined list of lines that each start with a blank is empty only when
    there is no line. *)
Lemma join_indented_empty sep (f : string * ColumnConfig -> string) l :
  (forall x, exists rest, f x = String " " rest) ->
  String.eqb (join sep (map f l)) "" = Nat.eqb (List.length (map f l)) 0.
Proof.
  intros Hf. destruct l as [|x l]; [reflexivity |].
  simpl. destruct (Hf x) as [rest ->].
  destruct (map f l); reflexivity.
Qed.

Lemma widenedInInsert_joined_empty cols enums :
  String.eqb (join ("," ++ nl) (widenedInInsert cols enums)) "" =
  Nat.eqb (List.length (widenedInInsert cols enums)) 0.
Proof.
  unfold widenedInInsert. apply join_indented_empty.
  intros [n c]. eexists. reflexivity.
Qed.

Lemma generateInsertSchema_eq table enums cols singular :
  columns table = Some cols ->
  toSingular (tableName table) = Some singular ->
  Validation.generateInsertSchema table enums =
    Ok (insertSchemaText (toPascalCase singular)
          (omittedFromInsert cols) (widenedInInsert cols enums)).
Proof.
  intros Hcols Hsing.
  unfold Validation.generateInsertSchema, Validation.generateInsertFieldModifications,
    toSingularPascalCase, insertSchemaText.
  rewrite Hsing, Hcols. cbn [bind entriesOf].
  rewrite autoGeneratedFields_eq, insertModifications_eq.
  pose proof (widenedInInsert_joined_empty cols enums) as Hj.
  destruct (widenedInInsert cols enums) as [|m ms] eqn:Ew.
  - cbn [List.length Nat.ltb Nat.leb Nat.eqb String.eqb andb negb].
    destruct (omittedFromInsert cols) as [|o os];
      cbn [List.length Nat.ltb Nat.leb Nat.eqb andb];
      rewrite ?append_assoc; reflexivity.
  - cbn [List.length Nat.ltb Nat.leb Nat.eqb] in Hj |- *.
    rewrite Hj. cbn [negb andb].
    rewrite andb_false_r.
    destruct (omittedFromInsert cols) as [|o os];
      cbn [List.length Nat.ltb Nat.leb Nat.eqb andb];
      rewrite ?append_assoc; reflexivity.
Qed.







(** ** The storage type *)

Lemma serial_type_mapping col :
  cc_type (dbConstraints col) = "serial" ->
  TypeMapping.mapToDrizzleType col =
    "integer().primaryKey().generatedAlwaysAsIdentity()".
Proof.
  intros Ht. unfold TypeMapping.mapToDrizzleType, TypeMapping.drizzleBaseType,
    TypeMapping.drizzleConstraints.
  rewrite Ht. cbn [String.eqb Ascii.eqb Bool.eqb negb andb orb].
  rewrite !andb_false_r.
  destruct (cc_default (dbConstraints col)); reflexivity.
Qed.

Lemma serial_constraints col composite :
  cc_type (dbConstraints col) = "serial" ->
  Schemas.drizzleConstraints (dbConstraints col) composite =
    (".primaryKey()" :: ".generatedAlwaysAsIdentity()" ::
     match cc_references (dbConstraints col) with
     | Some references => [Schemas.referencesModifier references]
     | None => []
     end)%list.
Proof.
  intros Ht. unfold Schemas.drizzleConstraints.
  rewrite Ht. cbn [String.eqb Ascii.eqb Bool.eqb negb andb orb].
  rewrite !andb_false_r. cbn [andb].
  destruct (cc_default (dbConstraints col));
    destruct (cc_references (dbConstraints col)); reflexivity.
Qed.

(** C7.  For a serial column the emitted column is the integer constructor
    followed by the primary-key and identity modifiers and, when the column
    has a foreign key, the reference: no not-null, unique or default
    modifier, and the primary-key modifier whatever the other columns of the
    table declare (also under a composite key).  The type mapper gives the
    same. *)
Theorem serial_column_modifiers name col enums composite :
  cc_type (dbConstraints col) = "serial" ->
  Schemas.mapColumnToDrizzle name col enums composite =
    "  " ++ toCamelCase name ++ ": integer('" ++ name ++ "')" ++
    ".primaryKey()" ++ ".generatedAlwaysAsIdentity()" ++
    match cc_references (dbConstraints col) with
    | Some references => Schemas.referencesModifier references
    | None => ""
    end /\
  hasKind KNotNull (Schemas.drizzleConstraints (dbConstraints col) composite) = false /\
  hasKind KUnique (Schemas.drizzleConstraints (dbConstraints col) composite) = false /\
  hasKind KDefault (Schemas.drizzleConstraints (dbConstraints col) composite) = false /\
  hasKind KPrimaryKey (Schemas.drizzleConstraints (dbConstraints col) composite) = true /\
  TypeMapping.mapToDrizzleType col =
    "integer().primaryKey().generatedAlwaysAsIdentity()".
Proof.
  intros Ht.
  split; [| split; [| split; [| split; [| split]]]].
  - unfold Schemas.mapColumnToDrizzle. rewrite (serial_constraints col composite Ht).
    unfold Schemas.drizzleColumnType. rewrite Ht.
    cbn [String.eqb Ascii.eqb Bool.eqb negb andb orb].
    destruct (cc_references (dbConstraints col)); cbn [join];
      rewrite ?append_assoc, ?append_nil_r; reflexivity.
  - rewrite (serial_constraints col composite Ht).
    destruct (cc_references (dbConstraints col)); reflexivity.
  - rewrite (serial_constraints col composite Ht).
    destruct (cc_references (dbConstraints col)); reflexivity.
  - rewrite (serial_constraints col composite Ht).
    destruct (cc_references (dbConstraints col)); reflexivity.
  - rewrite (serial_constraints col composite Ht). reflexivity.
  - now apply serial_type_mapping.
Qed.

Lemma serial_column_modifiers_witness :
  cc_type (dbConstraints serialColumn) = "serial" /\
  Schemas.mapColumnToDrizzle "id" serialColumn [] false =
    "  id: integer('id').primaryKey().generatedAlwaysAsIdentity()".
Proof.
  split; [reflexivity |].
  destruct (serial_column_modifiers "id" serialColumn [] false eq_refl) as [H _].
  rewrite H. reflexivity.
Defined.

Ltac split_flags cc :=
  destruct (String.eqb (cc_type cc) "serial");
  destruct (truthyFlag (cc_nullable cc));
  destruct (truthyFlag (cc_unique cc));
  destruct (truthyFlag (cc_primaryKey cc));
  cbn [negb andb orb].

Lemma emitter_constraints_in_order cc composite :
  inOrder emitterRank (Schemas.drizzleConstraints cc composite) = true.
Proof.
  unfold Schemas.drizzleConstraints.
  destruct (cc_references cc) as [references|];
    destruct (cc_default cc) as [[n|d|b|]|];
    try destruct (String.eqb d "now()");
    destruct (isNumericFamily (cc_type cc));
    destruct composite;
    split_flags cc; reflexivity.
Qed.

Lemma mapper_constraints_in_order cc :
  inOrder specifiedRank (TypeMapping.drizzleConstraints cc) = true /\
  hasKind KReferences (TypeMapping.drizzleConstraints cc) = false.
Proof.
  unfold TypeMapping.drizzleConstraints.
  destruct (cc_default cc) as [[n|d|b|]|];
    split_flags cc; split; reflexivity.
Qed.

(** C4, as stated, fails for the emitter: a not-null column with a default
    gets the default modifier before the not-null modifier. *)
Lemma default_before_notNull_counterexample :
  Schemas.mapColumnToDrizzle "status" (statusColumn None) [] false =
    "  status: varchar('status').default('active').notNull()" /\
  Schemas.drizzleConstraints (dbConstraints (statusColumn None)) false =
    [".default('active')"; ".notNull()"] /\
  inOrder specifiedRank
    (Schemas.drizzleConstraints (dbConstraints (statusColumn None)) false) = false.
Proof. repeat split. Qed.

(** C4, amended.  The emitted column is the column constructor followed by
    the modifiers of [mapColumnToDrizzle], which come in one fixed order for
    every column: default, not-null, uniqueness, primary key (with the
    identity clause of a serial column), foreign key.  The modifiers of the
    type mapper [mapToDrizzleType] come in the order not-null, default,
    uniqueness, primary key, and never include a foreign key. *)
Theorem storage_modifiers_fixed_order name col enums composite :
  Schemas.mapColumnToDrizzle name col enums composite =
    "  " ++ toCamelCase name ++ ": " ++
    Schemas.drizzleColumnType name (dbConstraints col) enums ++
    join "" (Schemas.drizzleConstraints (dbConstraints col) composite) /\
  inOrder emitterRank
    (Schemas.drizzleConstraints (dbConstraints col) composite) = true /\
  TypeMapping.mapToDrizzleType col =
    TypeMapping.drizzleBaseType (dbConstraints col) ++
    join "" (TypeMapping.drizzleConstraints (dbConstraints col)) /\
  inOrder specifiedRank (TypeMapping.drizzleConstraints (dbConstraints col)) = true /\
  hasKind KReferences (TypeMapping.drizzleConstraints (dbConstraints col)) = false.
Proof.
  split; [reflexivity |].
  split; [apply emitter_constraints_in_order |].
  split; [reflexivity |].
  apply mapper_constraints_in_order.
Qed.

(** ** The relationship resolver *)

Lemma forEachM_app {A S : Type} (body : S -> A -> Res S) l1 l2 acc :
  forEachM body (l1 ++ l2)%list acc =
  (acc' <- forEachM body l1 acc ;; forEachM body l2 acc').
Proof.
  revert acc. induction l1 as [|x l1 IH]; intros acc; simpl; [reflexivity |].
  destruct (body acc x); simpl; [apply IH | reflexivity].
Qed.

Lemma reverseTable_same_name name acc other :
  tableName other = name -> Types.reverseTable name acc other = Ok acc.
Proof.
  intros H. unfold Types.reverseTable. rewrite H. now rewrite String.eqb_refl.
Qed.

Lemma reverseColumn_relations other name acc n c :
  hasSingular (tableName other) = true ->
  exists r,
    Types.reverseColumn other name acc (n, c) = Ok r /\
    relations r =
      (relations acc ++
       if referencesTable name c then [incomingEntry other] else [])%list.
Proof.
  intros Hs. unfold hasSingular in Hs.
  destruct (toSingular (tableName other)) as [s|] eqn:Es; [| discriminate].
  unfold Types.reverseColumn, referencesTable.
  destruct (cc_references (dbConstraints c)) as [r|].
  - destruct (String.eqb (ref_table r) name).
    + unfold toSingularPascalCase, toSingularCamelCase. rewrite Es. cbn [bind].
      eexists. split; [reflexivity |]. cbn [relations].
      unfold push, incomingEntry, pluralName, singularOf. now rewrite Es.
    + exists acc. now rewrite app_nil_r.
  - exists acc. now rewrite app_nil_r.
Qed.

(** The scan of one table with another name adds one entry per column that
    references the current table. *)
Lemma reverseColumns_relations other name cols acc :
  hasSingular (tableName other) = true ->
  exists r,
    forEachM (Types.reverseColumn other name) cols acc = Ok r /\
    relations r =
      (relations acc ++
       map (fun _ => incomingEntry other)
           (filter (fun '(_, col) => referencesTable name col) cols))%list.
Proof.
  intros Hs.
  revert acc. induction cols as [|[n c] cols IH]; intros acc.
  - exists acc. simpl. now rewrite app_nil_r.
  - destruct (reverseColumn_relations other name acc n c Hs) as [r1 [E1 R1]].
    destruct (IH r1) as [r [E R]].
    exists r. cbn [forEachM filter]. rewrite E1. cbn [bind].
    split; [exact E |]. rewrite R, R1.
    destruct (referencesTable name c); cbn [map];
      rewrite <- app_assoc; reflexivity.
Qed.

Lemma reverseTable_relations name acc other :
  scannable other = true ->
  exists r,
    Types.reverseTable name acc other = Ok r /\
    relations r = (relations acc ++ incomingEntries name [other])%list.
Proof.
  intros Hs. unfold scannable in Hs. apply andb_true_iff in Hs as [Hc Hs].
  unfold Types.reverseTable, incomingEntries, referencingColumns, columnsOf.
  cbn [flat_map]. rewrite app_nil_r.
  destruct (String.eqb (tableName other) name).
  - exists acc. now rewrite app_nil_r.
  - destruct (columns other) as [cols|]; [| discriminate]. cbn [entriesOf bind].
    now apply reverseColumns_relations.
Qed.

Lemma incomingEntries_app name l1 l2 :
  incomingEntries name (l1 ++ l2) =
  (incomingEntries name l1 ++ incomingEntries name l2)%list.
Proof. unfold incomingEntries. apply flat_map_app. Qed.

Lemma reverseTables_relations name allTables acc :
  forallb scannable allTables = true ->
  exists r,
    forEachM (Types.reverseTable name) allTables acc = Ok r /\
    relations r = (relations acc ++ incomingEntries name allTables)%list.
Proof.
  revert acc. induction allTables as [|t ts IH]; intros acc Hall.
  - exists acc. simpl. now rewrite app_nil_r.
  - cbn [forallb] in Hall. apply andb_true_iff in Hall as [Ht Hts].
    destruct (reverseTable_relations name acc t Ht) as [r1 [E1 R1]].
    destruct (IH r1 Hts) as [r [E R]].
    exists r. cbn [forEachM]. rewrite E1. cbn [bind]. split; [exact E |].
    rewrite R, R1.
    change (t :: ts) with ([t] ++ ts)%list.
    rewrite incomingEntries_app. now rewrite app_assoc.
Qed.

(** The incoming relations of a scannable set. *)
Lemma generateReverseRelations_relations table allTables :
  forallb scannable allTables = true ->
  exists r,
    Types.generateReverseRelations table allTables = Ok r /\
    relations r = incomingEntries (tableName table) allTables.
Proof.
  intros Hall. unfold Types.generateReverseRelations.
  destruct (reverseTables_relations (tableName table) allTables noRelations Hall)
    as [r [E R]].
  exists r. split; [exact E | exact R].
Qed.

(** C3, as stated, fails: a second descriptor called [guests], distinct from
    the table [guests] and referencing it, is not scanned, so it contributes
    no entry; the exclusion goes by the name. *)
Lemma same_name_table_skipped_counterexample :
  guestsCopyTable <> guestsTable /\
  tableName guestsCopyTable = tableName guestsTable /\
  List.length (referencingColumns "guests" guestsCopyTable) = 1 /\
  Types.generateReverseRelations guestsTable [guestsTable; guestsCopyTable] =
    Ok noRelations.
Proof. repeat split. discriminate. Qed.

(** C3, amended.  The scan for a table T leaves out every table whose name
    equals T's name: T itself, so a self-reference gives no self-loop, and
    any other descriptor with an equal name.  A table with another name,
    also one that begins with T's name, is scanned and contributes one
    entry per column that references T. *)
Theorem incoming_scan_skips_by_name table same other l1 l2 acc :
  tableName same = tableName table ->
  tableName other <> tableName table ->
  scannable other = true ->
  Types.generateReverseRelations table (l1 ++ same :: l2) =
    Types.generateReverseRelations table (l1 ++ l2) /\
  Types.reverseTable (tableName table) acc table = Ok acc /\
  exists r,
    Types.reverseTable (tableName table) acc other = Ok r /\
    relations r =
      (relations acc ++
       map (fun _ => incomingEntry other)
           (referencingColumns (tableName table) other))%list.
Proof.
  intros Hsame Hother Hscan. split; [| split].
  - unfold Types.generateReverseRelations.
    rewrite !forEachM_app. cbn [forEachM].
    destruct (forEachM (Types.reverseTable (tableName table)) l1 noRelations)
      as [acc1|e]; cbn [bind]; [| reflexivity].
    now rewrite (reverseTable_same_name _ acc1 _ Hsame).
  - now apply reverseTable_same_name.
  - destruct (reverseTable_relations (tableName table) acc other Hscan)
      as [r [E R]].
    exists r. split; [exact E |]. rewrite R.
    unfold incomingEntries. cbn [flat_map]. rewrite app_nil_r.
    destruct (String.eqb_spec (tableName other) (tableName table));
      [contradiction | reflexivity].
Qed.

Lemma incoming_scan_skips_by_name_witness :
  Types.generateReverseRelations guestsTable
    ([guestsTable] ++ guestsCopyTable :: [guestsArchiveTable]) =
  Types.generateReverseRelations guestsTable
    ([guestsTable] ++ [guestsArchiveTable]) /\
  exists r,
    Types.reverseTable "guests" noRelations guestsArchiveTable = Ok r /\
    relations r = ["  guestsArchives?: GuestsArchive[];"].
Proof.
  destruct (incoming_scan_skips_by_name guestsTable guestsCopyTable
              guestsArchiveTable [guestsTable] [guestsArchiveTable] noRelations
              eq_refl) as (H1 & _ & r & H2 & H3).
  - discriminate.
  - reflexivity.
  - split; [exact H1 |]. exists r. split; [exact H2 | exact H3].
Defined.

Lemma foreignKeyColumn_relations acc n c :
  match cc_references (dbConstraints c) with
  | Some references => hasSingular (ref_table references)
  | None => true
  end = true ->
  exists r,
    Types.foreignKeyColumn acc (n, c) = Ok r /\
    relations r =
      (relations acc ++
       map outgoingEntry
           match cc_references (dbConstraints c) with
           | Some references => [ref_table references]
           | None => []
           end)%list.
Proof.
  intros Hs. unfold Types.foreignKeyColumn.
  destruct (cc_references (dbConstraints c)) as [r|].
  - unfold hasSingular in Hs.
    destruct (toSingular (ref_table r)) as [s|] eqn:Es; [| discriminate].
    unfold toSingularPascalCase, toSingularCamelCase. rewrite Es. cbn [bind].
    eexists. split; [reflexivity |]. cbn [relations map].
    unfold push, outgoingEntry, singularOf. now rewrite Es.
  - exists acc. cbn [map]. now rewrite app_nil_r.
Qed.

Lemma foreignKeyColumns_relations cols acc :
  forallb (fun '(_, col) =>
             match cc_references (dbConstraints col) with
             | Some references => hasSingular (ref_table references)
             | None => true
             end) cols = true ->
  exists r,
    forEachM Types.foreignKeyColumn cols acc = Ok r /\
    relations r =
      (relations acc ++
       map outgoingEntry
           (flat_map (fun '(_, col) =>
                        match cc_references (dbConstraints col) with
                        | Some references => [ref_table references]
                        | None => []
                        end) cols))%list.
Proof.
  revert acc. induction cols as [|[n c] cols IH]; intros acc Hall.
  - exists acc. simpl. now rewrite app_nil_r.
  - cbn [forallb] in Hall. apply andb_true_iff in Hall as [Hc Hcs].
    destruct (foreignKeyColumn_relations acc n c Hc) as [r1 [E1 R1]].
    destruct (IH r1 Hcs) as [r [E R]].
    exists r. cbn [forEachM flat_map]. rewrite E1. cbn [bind].
    split; [exact E |]. rewrite R, R1, map_app. now rewrite app_assoc.
Qed.

(** The outgoing relations of a table whose targets have singulars. *)
Lemma generateForeignKeyRelations_relations table cols :
  columns table = Some cols ->
  targetsHaveSingular table = true ->
  exists r,
    Types.generateForeignKeyRelations table = Ok r /\
    relations r = outgoingEntries table.
Proof.
  intros Hcols Ht.
  unfold Types.generateForeignKeyRelations, targetsHaveSingular, outgoingEntries,
    referencedTables, columnsOf in *.
  rewrite Hcols in *. cbn [entriesOf bind].
  destruct (foreignKeyColumns_relations cols noRelations Ht) as [r [E R]].
  exists r. split; [exact E | exact R].
Qed.

Lemma count_occ_constant_map {A : Type} (e : string) (l : list A) :
  count_occ string_dec (map (fun _ => e) l) e = List.length l.
Proof.
  induction l as [|x l IH]; simpl; [reflexivity |].
  destruct (string_dec e e); [now rewrite IH | contradiction].
Qed.

Lemma count_occ_referencedTables name table :
  count_occ string_dec (referencedTables table) name =
  List.length (referencingColumns name table).
Proof.
  unfold referencedTables, referencingColumns.
  induction (columnsOf table) as [|[n c] cols IH]; [reflexivity |].
  cbn [flat_map filter]. rewrite count_occ_app, IH.
  unfold referencesTable.
  destruct (cc_references (dbConstraints c)) as [r|]; [| reflexivity].
  cbn [count_occ].
  destruct (string_dec (ref_table r) name) as [->|Hne].
  - now rewrite String.eqb_refl.
  - apply String.eqb_neq in Hne. now rewrite Hne.
Qed.

Lemma count_occ_outgoing names target :
  (forall other, In other names -> other <> target ->
                 outgoingEntry other <> outgoingEntry target) ->
  count_occ string_dec (map outgoingEntry names) (outgoingEntry target) =
  count_occ string_dec names target.
Proof.
  induction names as [|x names IH]; intros Hinj; [reflexivity |].
  cbn [map count_occ].
  rewrite IH by (intros o Ho; apply Hinj; now right).
  destruct (string_dec x target) as [->|Hne].
  - destruct (string_dec (outgoingEntry target) (outgoingEntry target));
      [reflexivity | contradiction].
  - destruct (string_dec (outgoingEntry x) (outgoingEntry target)) as [E|_];
      [| reflexivity].
    exfalso. apply (Hinj x); [now left | exact Hne | exact E].
Qed.

Lemma analyzeRelationships_fold cols acc :
  map fk_referencedTable
    (fold_left
       (fun foreignKeys '(columnName, columnConfig) =>
          match cc_references (dbConstraints columnConfig) with
          | Some references =>
              (foreignKeys ++
               [ {| fk_columnName := columnName;
                    fk_referencedTable := ref_table references;
                    fk_referencedColumn := ref_column references |} ])%list
          | None => foreignKeys
          end)
       cols acc) =
  (map fk_referencedTable acc ++
   flat_map (fun '(_, col) =>
               match cc_references (dbConstraints col) with
               | Some references => [ref_table references]
               | None => []
               end) cols)%list.
Proof.
  revert acc. induction cols as [|[n c] cols IH]; intros acc;
    cbn [fold_left flat_map].
  - now rewrite app_nil_r.
  - rewrite IH. destruct (cc_references (dbConstraints c)) as [r|].
    + rewrite map_app. cbn [map fk_referencedTable]. now rewrite <- app_assoc.
    + reflexivity.
Qed.

Lemma analyzeRelationships_foreignKeys table cols :
  columns table = Some cols ->
  exists fks,
    SchemaAnalysis.analyzeRelationships table = Ok fks /\
    map fk_referencedTable fks = referencedTables table.
Proof.
  intros Hcols. unfold SchemaAnalysis.analyzeRelationships, referencedTables, columnsOf.
  rewrite Hcols. cbn [entriesOf bind]. eexists. split; [reflexivity |].
  apply (analyzeRelationships_fold cols []).
Qed.

(** C2, as stated, fails.  A table that references itself has exactly one
    column whose target is that table, and its incoming relations are empty.
    With distinct tables: [bookings] has exactly one column referencing
    [guests], and so has the table [booking]; both derive the entry
    [bookings?: Booking[]], so the incoming relations of [guests] contain two
    entries naming [bookings]. *)
Lemma foreign_key_round_trip_counterexample :
  List.length (referencingColumns "categories" categoriesTable) = 1 /\
  Types.generateReverseRelations categoriesTable [categoriesTable] =
    Ok noRelations /\
  List.length (referencingColumns "guests" bookingsTable) = 1 /\
  Types.generateReverseRelations guestsTable
    [guestsTable; bookingsTable; bookingTable] =
    Ok {| relations := ["  bookings?: Booking[];"; "  bookings?: Booking[];"];
          imports := ["import type { Booking } from '../booking';";
                      "import type { Booking } from '../booking';"] |} /\
  incomingEntry bookingsTable = "  bookings?: Booking[];" /\
  count_occ string_dec
    (relationsOf (Types.generateReverseRelations guestsTable
                    [guestsTable; bookingsTable; bookingTable]))
    (incomingEntry bookingsTable) = 2.
Proof. repeat split. Qed.

(** C2, amended.  Let A and B be tables with different names in a loaded set
    that can be scanned, A with exactly one column whose foreign key targets
    B.  When no other table of the set contributes the entry text that A
    derives (A's camel-case name with "s" appended unless it ends in "s", and
    A's singular type name), the incoming relations of B contain exactly
    one entry naming A; when no other target of A's foreign keys derives
    the entry text of B, the outgoing relations of A contain exactly one
    entry naming B, and the foreign keys of A list B exactly once.  The
    incoming relations depend on B through its name only, so on none of its
    relationship declarations. *)
Theorem foreign_key_round_trip A B l1 l2 :
  forallb scannable (l1 ++ A :: l2) = true ->
  targetsHaveSingular A = true ->
  tableName A <> tableName B ->
  List.length (referencingColumns (tableName B) A) = 1 ->
  ~ In (incomingEntry A) (incomingEntries (tableName B) (l1 ++ l2)) ->
  (forall other, In other (referencedTables A) -> other <> tableName B ->
                 outgoingEntry other <> outgoingEntry (tableName B)) ->
  exists incoming outgoing foreignKeys,
    Types.generateReverseRelations B (l1 ++ A :: l2) = Ok incoming /\
    count_occ string_dec (relations incoming) (incomingEntry A) = 1 /\
    Types.generateForeignKeyRelations A = Ok outgoing /\
    count_occ string_dec (relations outgoing) (outgoingEntry (tableName B)) = 1 /\
    SchemaAnalysis.analyzeRelationships A = Ok foreignKeys /\
    count_occ string_dec (map fk_referencedTable foreignKeys) (tableName B) = 1 /\
    (forall B', tableName B' = tableName B ->
                Types.generateReverseRelations B' (l1 ++ A :: l2) = Ok incoming).
Proof.
  intros Hscan Htargets Hne Hone Hothers Hinj.
  destruct (generateReverseRelations_relations B (l1 ++ A :: l2) Hscan)
    as [incoming [Ein Rin]].
  assert (HA : scannable A = true).
  { rewrite forallb_app in Hscan. apply andb_true_iff in Hscan as [_ H].
    cbn [forallb] in H. now apply andb_true_iff in H as [H _]. }
  unfold scannable in HA. apply andb_true_iff in HA as [HcolsA _].
  destruct (columns A) as [colsA|] eqn:EcolsA; [| discriminate].
  destruct (generateForeignKeyRelations_relations A colsA EcolsA Htargets)
    as [outgoing [Eout Rout]].
  destruct (analyzeRelationships_foreignKeys A colsA EcolsA)
    as [foreignKeys [Efk Rfk]].
  exists incoming, outgoing, foreignKeys.
  split; [exact Ein |]. split; [| split; [exact Eout |]].
  - rewrite Rin.
    change (A :: l2) with ([A] ++ l2)%list.
    rewrite !incomingEntries_app, !count_occ_app.
    rewrite incomingEntries_app in Hothers.
    assert (H1 : count_occ string_dec (incomingEntries (tableName B) l1)
                           (incomingEntry A) = 0).
    { apply count_occ_not_In. intros H. apply Hothers, in_or_app. now left. }
    assert (H2 : count_occ string_dec (incomingEntries (tableName B) l2)
                           (incomingEntry A) = 0).
    { apply count_occ_not_In. intros H. apply Hothers, in_or_app. now right. }
    rewrite H1, H2. unfold incomingEntries. cbn [flat_map]. rewrite app_nil_r.
    destruct (String.eqb_spec (tableName A) (tableName B)); [contradiction |].
    rewrite count_occ_constant_map, Hone. reflexivity.
  - split; [| split; [exact Efk | split]].
    + rewrite Rout. unfold outgoingEntries.
      rewrite (count_occ_outgoing _ _ Hinj), count_occ_referencedTables.
      exact Hone.
    + rewrite Rfk, count_occ_referencedTables. exact Hone.
    + intros B' HB'. unfold Types.generateReverseRelations in *.
      rewrite HB'. exact Ein.
Qed.

Lemma foreign_key_round_trip_witness :
  exists incoming outgoing,
    Types.generateReverseRelations guestsTable ([guestsTable] ++ bookingsTable :: []) =
      Ok incoming /\
    count_occ string_dec (relations incoming) "  bookings?: Booking[];" = 1 /\
    Types.generateForeignKeyRelations bookingsTable = Ok outgoing /\
    count_occ string_dec (relations outgoing) "  guest?: Guest;" = 1.
Proof.
  destruct (foreign_key_round_trip bookingsTable guestsTable [guestsTable] [])
    as (incoming & outgoing & fks & H1 & H2 & H3 & H4 & _).
  - reflexivity.
  - reflexivity.
  - discriminate.
  - reflexivity.
  - simpl. tauto.
  - intros other Hin Hne. simpl in Hin. destruct Hin as [<-|[]].
    exfalso. apply Hne. reflexivity.
  - exists incoming, outgoing. repeat split; assumption.
Defined.

(** ** Runs of the pipeline and the clock *)

Lemma render_app clock sk1 sk2 :
  render clock (sk1 ++ sk2) = (render clock sk1 ++ render clock sk2)%list.
Proof. apply map_app. Qed.

Lemma stampsWithin_weaken lo hi lo' hi' sk :
  lo' <= lo -> hi <= hi' -> stampsWithin lo hi sk -> stampsWithin lo' hi' sk.
Proof.
  intros Hlo Hhi H. unfold stampsWithin in *.
  eapply Forall_impl; [| exact H].
  intros [[[path d] k] body]. lia.
Qed.

Lemma uniform_ret : Uniform (ret tt).
Proof.
  intros n. exists (Ok tt), n, []. split; [lia |]. split; [constructor |].
  intros clock files. unfold ret. cbn [render map]. now rewrite app_nil_r.
Qed.

Lemma uniform_bind (m k : Gen unit) :
  Uniform m -> Uniform k -> Uniform (_ <~ m ;; k).
Proof.
  intros Hm Hk n.
  destruct (Hm n) as (r1 & n1 & sk1 & Hle1 & Hw1 & E1).
  destruct r1 as [[]|e].
  - destruct (Hk n1) as (r2 & n2 & sk2 & Hle2 & Hw2 & E2).
    exists r2, n2, (sk1 ++ sk2)%list. split; [lia |]. split.
    + apply Forall_app. split.
      * eapply stampsWithin_weaken; [| | exact Hw1]; lia.
      * eapply stampsWithin_weaken; [| | exact Hw2]; lia.
    + intros clock files. unfold bindG. rewrite E1, E2, render_app.
      now rewrite app_assoc.
  - exists (Throw e), n1, sk1. split; [lia |]. split; [exact Hw1 |].
    intros clock files. unfold bindG. now rewrite E1.
Qed.

Lemma uniform_forOf {A : Type} (body : A -> Gen unit) (xs : list A) :
  (forall x, Uniform (body x)) -> Uniform (forOf body xs).
Proof.
  intros Hbody. induction xs as [|x xs IH]; cbn [forOf].
  - apply uniform_ret.
  - apply uniform_bind; [apply Hbody | exact IH].
Qed.

Lemma uniform_exitOnError (m : Gen unit) : Uniform m -> Uniform (exitOnError m).
Proof.
  intros Hm n. destruct (Hm n) as (r & n' & sk & Hle & Hw & E).
  exists (match r with Ok a => Ok a | Throw _ => Throw (ProcessExit 1) end), n', sk.
  split; [exact Hle |]. split; [exact Hw |].
  intros clock files. unfold exitOnError. rewrite E. now destruct r.
Qed.

Lemma uniform_when (condition : bool) (m : Gen unit) :
  Uniform m -> Uniform (Models.when condition m).
Proof.
  intros Hm. unfold Models.when. destruct condition; [exact Hm | apply uniform_ret].
Qed.

(** Writing the text of a stampable generator under a path that does not
    depend on the clock. *)
Lemma uniform_emit (m : Gen string) (fileName : Res string)
      (path : string -> string) :
  Stampable m ->
  Uniform (content <~ m ;;
           fileName <~ lift fileName ;;
           writeAndFormatFile (path fileName) content).
Proof.
  intros [[e E] | [[e E] | [d [body E]]]] n.
  - exists (Throw e), n, []. split; [lia |]. split; [constructor |].
    intros clock files. unfold bindG. rewrite E. cbn [render map].
    now rewrite app_nil_r.
  - exists (Throw e), (S n), []. split; [lia |]. split; [constructor |].
    intros clock files. unfold bindG. rewrite E. unfold tick.
    cbn [render map reads written]. now rewrite app_nil_r.
  - destruct fileName as [f|e].
    + exists (Ok tt), (S n), [(path f, d, n, body)]. split; [lia |]. split.
      * constructor; [lia | constructor].
      * intros clock files. unfold bindG, lift, writeAndFormatFile. rewrite E.
        reflexivity.
    + exists (Throw e), (S n), []. split; [lia |]. split; [constructor |].
      intros clock files. unfold bindG, lift. rewrite E. unfold tick.
      cbn [render map reads written]. now rewrite app_nil_r.
Qed.

(** Writing a header followed by a fixed text. *)
Lemma uniform_header_then_write (description path : string)
      (text : string -> string) (body : string) :
  (forall header, text header = header ++ body) ->
  Uniform (content <~ generateFileHeader description ;;
           writeAndFormatFile path (text content)).
Proof.
  intros Htext n. exists (Ok tt), (S n), [(path, description, n, body)].
  split; [lia |]. split; [constructor; [lia | constructor] |].
  intros clock files.
  cbv [bindG generateFileHeader toISOStringNow ret writeAndFormatFile
       reads written render map].
  now rewrite Htext.
Qed.

Lemma fold_left_prefix {A : Type} (step : string -> A -> string) (l : list A) :
  (forall c x, step c x = c ++ step "" x) ->
  forall c, fold_left step l c = c ++ fold_left step l "".
Proof.
  intros Hstep. induction l as [|x l IH]; intros c; cbn [fold_left].
  - now rewrite append_nil_r.
  - rewrite (IH (step c x)), (IH (step "" x)), (Hstep c x).
    now rewrite append_assoc.
Qed.

Lemma forEachM_prefix {A : Type} (step : string -> A -> Res string) (l : list A) :
  (forall c x, step c x = (y <- step "" x ;; Ok (c ++ y))) ->
  forall c, forEachM step l c = (y <- forEachM step l "" ;; Ok (c ++ y)).
Proof.
  intros Hstep. induction l as [|x l IH]; intros c; cbn [forEachM].
  - cbn [bind]. now rewrite append_nil_r.
  - rewrite Hstep. destruct (step "" x) as [y|e]; cbn [bind]; [| reflexivity].
    rewrite (IH (c ++ y)), (IH y).
    destruct (forEachM step l "") as [z|e]; cbn [bind]; [| reflexivity].
    now rewrite append_assoc.
Qed.

Ltac run_gen :=
  cbv [bindG lift ret generateFileHeader toISOStringNow writeAndFormatFile tick
       reads written].

(** Closes a goal [(Ok (text), w) = (Ok (header ++ ?body), w)] where [text]
    is [header] with texts appended. *)
Ltac header_then_body :=
  match goal with
  | |- context [fileHeaderText ?d ?t] =>
      generalize (fileHeaderText d t); intros header;
      rewrite ?append_assoc; reflexivity
  end.

Lemma stampable_generateTableValidation table enums :
  Stampable (Validation.generateTableValidation table enums).
Proof.
  unfold Validation.generateTableValidation.
  destruct (requireValidTable Template.validateTableConfig table) as [[]|e];
    [| left; exists e; reflexivity].
  destruct (entriesOf (columns table)) as [cols|e];
    [| right; left; exists e; reflexivity].
  destruct (Validation.generateTableSchema table enums) as [base|e];
    [| right; left; exists e; reflexivity].
  destruct (Validation.generateInsertSchema table enums) as [insert|e];
    [| right; left; exists e; reflexivity].
  destruct (Validation.generateUpdateSchema table enums) as [update|e];
    [| right; left; exists e; reflexivity].
  destruct (toSingularPascalCase (tableName table)) as [name|e];
    [| right; left; exists e; reflexivity].
  right; right.
  exists ("Zod validation schemas for " ++ tableName table ++ " table").
  eexists. intros clock w. run_gen. f_equal. f_equal. header_then_body.
Qed.

Lemma stampable_generateTableTypes table enums allTables :
  Stampable (Types.generateTableTypes table enums allTables).
Proof.
  unfold Types.generateTableTypes.
  destruct (requireValidTable Template.validateTableConfig table) as [[]|e];
    [| left; exists e; reflexivity].
  destruct (toSingularPascalCase (tableName table)) as [baseName|e];
    [| left; exists e; reflexivity].
  destruct (Types.generateForeignKeyRelations table) as [fk|e];
    [| right; left; exists e; reflexivity].
  destruct (Types.generateReverseRelations table allTables) as [rev|e];
    [| right; left; exists e; reflexivity].
  destruct (Types.generateApiTypes table) as [api|e];
    [| right; left; exists e; reflexivity].
  destruct (Types.generateRelationshipTypes table allTables) as [rel|e];
    [| right; left; exists e; reflexivity].
  right; right.
  exists ("TypeScript extension types for " ++ tableName table ++ " table").
  destruct (Nat.ltb 0 (List.length (unique (imports fk ++ imports rev)%list))) eqn:Ei;
    destruct (negb (String.eqb rel "")) eqn:Er;
    eexists; intros clock w; run_gen; rewrite Ei, Er;
    f_equal; f_equal; header_then_body.
Qed.

Lemma stampable_generateTableSchema table enums :
  Stampable (Schemas.generateTableSchema table enums).
Proof.
  unfold Schemas.generateTableSchema.
  destruct (requireValidTable Template.validateTableConfig table) as [[]|e];
    [| left; exists e; reflexivity].
  destruct (entriesOf (columns table)) as [cols|e];
    [| right; left; exists e; reflexivity].
  run_gen.
  match goal with
  | |- context [Schemas.tableImports ?l] =>
      destruct (Schemas.tableImports l) as [imports|e];
        [| right; left; exists e; reflexivity]
  end.
  destruct (Schemas.generateTableDefinition table enums) as [definition|e];
    [| right; left; exists e; reflexivity].
  right; right.
  exists ("Drizzle schema for " ++ tableName table ++ " table").
  eexists. intros clock w. run_gen. f_equal. f_equal. header_then_body.
Qed.

Lemma uniform_generateEnumsValidation enums :
  Uniform (Validation.generateEnumsValidation enums).
Proof.
  unfold Validation.generateEnumsValidation.
  eapply uniform_header_then_write. intros header. cbv beta zeta.
  rewrite fold_left_prefix by (intros c [enumName config]; reflexivity).
  rewrite ?append_assoc. reflexivity.
Qed.

Lemma uniform_generateEnumsTypes enums :
  Uniform (Types.generateEnumsTypes enums).
Proof.
  unfold Types.generateEnumsTypes.
  eapply uniform_header_then_write. intros header. cbv beta zeta.
  rewrite fold_left_prefix by (intros c [enumName config]; reflexivity).
  rewrite ?append_assoc. reflexivity.
Qed.

Lemma uniform_generateUtilityTypes : Uniform Types.generateUtilityTypes.
Proof.
  unfold Types.generateUtilityTypes.
  eapply uniform_header_then_write. intros header. reflexivity.
Qed.

Lemma uniform_generateEnumsFile enums : Uniform (Schemas.generateEnumsFile enums).
Proof.
  unfold Schemas.generateEnumsFile.
  eapply uniform_header_then_write. intros header. cbv beta zeta.
  rewrite ?append_assoc. reflexivity.
Qed.

Lemma uniform_generateModelAggregation tables type :
  Uniform (Aggregation.generateModelAggregation tables type).
Proof.
  unfold Aggregation.generateModelAggregation. intros n.
  match goal with
  | |- context [forEachM ?f tables _] => set (step := f)
  end.
  assert (Hstep : forall c x, step c x = (y <- step "" x ;; Ok (c ++ y))).
  { intros c x. unfold step.
    destruct (toSingularCamelCase (tableName x)); reflexivity. }
  pose proof (forEachM_prefix step tables Hstep) as Hp.
  destruct (forEachM step tables "") as [exports|e] eqn:E.
  - exists (Ok tt), (S n).
    eexists [("./src/models/" ++ kindName type ++ ".ts",
              Aggregation.descriptions type, n, _)].
    split; [lia |]. split; [constructor; [lia | constructor] |].
    intros clock files. run_gen. rewrite Hp. cbn [bind render map].
    rewrite ?append_assoc. reflexivity.
  - exists (Throw e), (S n), []. split; [lia |]. split; [constructor |].
    intros clock files. run_gen. rewrite Hp. cbn [bind render map].
    now rewrite app_nil_r.
Qed.

Lemma uniform_generateZodSchemas enums tables :
  Uniform (Validation.generateZodSchemas enums tables).
Proof.
  unfold Validation.generateZodSchemas.
  apply uniform_exitOnError, uniform_bind;
    [apply uniform_generateEnumsValidation |].
  apply uniform_bind; [| apply uniform_generateModelAggregation].
  apply uniform_forOf. intros table.
  apply (uniform_emit (Validation.generateTableValidation table enums)
           (toSingularCamelCase (tableName table))
           (fun fileName => "./src/models/" ++ fileName ++ "/validation.ts")).
  apply stampable_generateTableValidation.
Qed.

Lemma uniform_generateTypeScriptTypes enums tables :
  Uniform (Types.generateTypeScriptTypes enums tables).
Proof.
  unfold Types.generateTypeScriptTypes.
  apply uniform_exitOnError, uniform_bind; [apply uniform_generateEnumsTypes |].
  apply uniform_bind; [apply uniform_generateUtilityTypes |].
  apply uniform_bind; [| apply uniform_generateModelAggregation].
  apply uniform_forOf. intros table.
  apply (uniform_emit (Types.generateTableTypes table enums tables)
           (toSingularCamelCase (tableName table))
           (fun fileName => "./src/models/" ++ fileName ++ "/types.ts")).
  apply stampable_generateTableTypes.
Qed.

Lemma uniform_generateDrizzleSchemas enums tables :
  Uniform (Schemas.generateDrizzleSchemas enums tables).
Proof.
  unfold Schemas.generateDrizzleSchemas.
  apply uniform_exitOnError, uniform_bind; [apply uniform_generateEnumsFile |].
  apply uniform_bind; [| apply uniform_generateModelAggregation].
  apply uniform_forOf. intros table.
  apply (uniform_emit (Schemas.generateTableSchema table enums)
           (toSingularCamelCase (tableName table))
           (fun fileName => "./src/models/" ++ fileName ++ "/schema.ts")).
  apply stampable_generateTableSchema.
Qed.

Lemma uniform_generateModels options enums tables :
  Uniform (Models.generateModels options enums tables).
Proof.
  unfold Models.generateModels.
  apply uniform_exitOnError. cbv zeta.
  apply uniform_bind; [apply uniform_when, uniform_generateZodSchemas |].
  apply uniform_bind; [apply uniform_when, uniform_generateTypeScriptTypes |].
  apply uniform_when, uniform_generateDrizzleSchemas.
Qed.

Lemma render_ext clock1 clock2 lo hi sk :
  stampsWithin lo hi sk ->
  (forall k, k < hi -> clock1 k = clock2 k) ->
  render clock1 sk = render clock2 sk.
Proof.
  intros Hw Hc. unfold render. apply map_ext_in.
  intros [[[path d] k] body] Hin.
  unfold stampsWithin in Hw. rewrite Forall_forall in Hw.
  specialize (Hw _ Hin). cbn beta iota in Hw. rewrite Hc by lia. reflexivity.
Qed.

(** C1, as stated, fails: two runs on the same model ([users] and no enum)
    that read the clock a second apart end well, write the same paths, and
    write different texts; the first artifact of each run shows its own
    time in the header. *)
Lemma pipeline_output_depends_on_clock :
  let first := Models.generateModels defaultOptions [] [usersTable]
                 morningClock initialWorld in
  let second := Models.generateModels defaultOptions [] [usersTable]
                  laterClock initialWorld in
  fst first = Ok tt /\ fst second = Ok tt /\
  map fst (written (snd first)) = map fst (written (snd second)) /\
  nth_error (written (snd first)) 0 =
    Some ("./src/models/enums/validation.ts",
          fileHeaderText "Zod enum validation schemas" "2025-01-01T09:00:00.000Z" ++
          "import { z } from 'zod';" ++ nl ++ nl ++ nl ++ nl ++
          "// TypeScript types (inferred from schemas above)" ++ nl) /\
  nth_error (written (snd second)) 0 =
    Some ("./src/models/enums/validation.ts",
          fileHeaderText "Zod enum validation schemas" "2025-01-01T09:00:01.000Z" ++
          "import { z } from 'zod';" ++ nl ++ nl ++ nl ++ nl ++
          "// TypeScript types (inferred from schemas above)" ++ nl) /\
  written (snd first) <> written (snd second).
Proof.
  cbv zeta. repeat split; try (vm_compute; reflexivity).
  intros H. apply (f_equal (fun files => nth_error files 0)) in H.
  vm_compute in H. discriminate H.
Qed.

(** C1, amended.  For every schema model and every choice of generators, the
    outcome of a run, the number of clock readings and the list of emitted
    artifacts (paths, in order) are the same in every run; the text of each
    artifact is the file header, whose third line carries the time read
    from the clock, followed by a text that is the same in every run.  Two
    runs whose clock readings agree produce byte-identical texts. *)
Theorem pipeline_output_up_to_timestamps options enums tables :
  exists (status : Res unit) (count : nat) (skeleton : list Stamped),
    stampsWithin 0 count skeleton /\
    (forall clock,
        Models.generateModels options enums tables clock initialWorld =
        (status, {| reads := count; written := render clock skeleton |})) /\
    (forall clock1 clock2,
        (forall k, k < count -> clock1 k = clock2 k) ->
        Models.generateModels options enums tables clock1 initialWorld =
        Models.generateModels options enums tables clock2 initialWorld).
Proof.
  destruct (uniform_generateModels options enums tables 0)
    as (status & count & skeleton & _ & Hw & E).
  exists status, count, skeleton.
  assert (Hrun : forall clock,
             Models.generateModels options enums tables clock initialWorld =
             (status, {| reads := count; written := render clock skeleton |})).
  { intros clock. unfold initialWorld. rewrite E. reflexivity. }
  split; [exact Hw |]. split; [exact Hrun |].
  intros clock1 clock2 Hagree. rewrite !Hrun.
  now rewrite (render_ext clock1 clock2 0 count skeleton Hw Hagree).
Qed.

(** * Further properties of the generator *)

(** ** Identifier conversions *)

Lemma upper_of_lower (c : ascii) :
  isLower c = true ->
  isUpper (upperChar c) = true /\ lowerChar (upperChar c) = c /\
  isLower (upperChar c) = false.
Proof.
  destruct c as [[] [] [] [] [] [] [] []]; vm_compute; intros H;
    try discriminate H; repeat split.
Qed.

Lemma lower_or_digit_not_upper (c : ascii) :
  isLower c || isDigit c = true -> isUpper c = false.
Proof.
  destruct c as [[] [] [] [] [] [] [] []]; vm_compute; intros H;
    try discriminate H; reflexivity.
Qed.

Lemma snake_round_trip_bounded n :
  forall s, String.length s <= n -> snakeName s = true ->
            toSnakeCase (toCamelCase s) = s.
Proof.
  induction n as [|n IH]; intros s Hlen Hs.
  - destruct s; [reflexivity | simpl in Hlen; lia].
  - destruct s as [|c rest]; [reflexivity |].
    cbn [snakeName toCamelCase] in *.
    destruct (Ascii.eqb_spec c "_") as [->|Hc].
    + destruct rest as [|d rest']; [discriminate Hs |].
      apply andb_true_iff in Hs as [Hd Hrest]. rewrite Hd. cbn [orb].
      destruct (upper_of_lower d Hd) as (Hu & Hl & _).
      cbn [toSnakeCase]. rewrite Hu, Hl.
      rewrite IH; [reflexivity | simpl in Hlen; lia | exact Hrest].
    + apply andb_true_iff in Hs as [Hcl Hrest].
      cbn [toSnakeCase]. rewrite (lower_or_digit_not_upper c Hcl).
      rewrite IH; [reflexivity | simpl in Hlen; lia | exact Hrest].
Qed.

(** X1.  On a snake-case name (lower-case letters and digits, every
    underscore followed by a lower-case letter) [toSnakeCase] undoes
    [toCamelCase]. *)
Theorem toSnakeCase_toCamelCase (s : string) :
  snakeName s = true -> toSnakeCase (toCamelCase s) = s.
Proof. apply (snake_round_trip_bounded (String.length s)). lia. Qed.

Lemma toSnakeCase_toCamelCase_witness :
  toCamelCase "guest_id" = "guestId" /\
  toSnakeCase (toCamelCase "guest_id") = "guest_id".
Proof.
  split; [reflexivity |]. apply toSnakeCase_toCamelCase. reflexivity.
Defined.

Lemma includes_In (arr : list string) (x : string) :
  includes arr x = true <-> In x arr.
Proof.
  unfold includes. rewrite existsb_exists. split.
  - intros [y [Hin Hy]]. apply String.eqb_eq in Hy. now subst.
  - intros Hin. exists x. split; [exact Hin | apply String.eqb_refl].
Qed.

(** X2.  The singular conversions throw exactly for the names that
    lower-case to a member inherited by the table of irregular plurals
    ("constructor", "__proto__"); for every other name both return a
    string. *)
Theorem singular_conversions_throw_on_inherited_names (name : string) :
  (toSingularPascalCase name = Throw TypeError <->
   In (toLowerCase name) inheritedMembers) /\
  (toSingularCamelCase name = Throw TypeError <->
   In (toLowerCase name) inheritedMembers) /\
  (~ In (toLowerCase name) inheritedMembers ->
   exists singular,
     toSingular name = Some singular /\
     toSingularPascalCase name = Ok (toPascalCase singular) /\
     toSingularCamelCase name = Ok (toCamelCase singular)).
Proof.
  assert (Hcases :
            (In (toLowerCase name) inheritedMembers /\ toSingular name = None) \/
            (~ In (toLowerCase name) inheritedMembers /\
             exists singular, toSingular name = Some singular)).
  { unfold toSingular.
    destruct (includes inheritedMembers (toLowerCase name)) eqn:Ei.
    - left. apply includes_In in Ei. split; [exact Ei |].
      destruct Ei as [<-|[<-|[]]]; reflexivity.
    - right. split.
      + intros Hin. apply includes_In in Hin. congruence.
      + destruct (assoc (toLowerCase name) irregulars); [eauto |].
        repeat match goal with
               | |- context [if ?b then _ else _] => destruct b
               end; eauto. }
  unfold toSingularPascalCase, toSingularCamelCase.
  destruct Hcases as [[Hin Hnone] | [Hnot [singular Hsome]]].
  - rewrite Hnone. repeat split; auto. intros; contradiction.
  - rewrite Hsome. repeat split; try discriminate; try contradiction.
    intros _. exists singular. auto.
Qed.

Lemma substring_tail k m s a t :
  substring k (S m) s = String a t -> substring (S k) m s = t.
Proof.
  revert k. induction s as [|c s IH]; intros k H.
  - destruct k; discriminate H.
  - destruct k as [|k].
    + cbn [substring] in H. injection H as _ H. cbn [substring]. exact H.
    + cbn [substring] in H |- *. apply IH. exact H.
Qed.

Lemma endsWith_tail s a t :
  endsWith s (String a t) = true -> endsWith s t = true.
Proof.
  unfold endsWith. cbn [String.length]. intros H.
  apply andb_true_iff in H as [Hle Heq].
  apply Nat.leb_le in Hle. apply String.eqb_eq in Heq.
  apply andb_true_iff. split; [apply Nat.leb_le; lia |].
  apply String.eqb_eq.
  replace (String.length s - String.length t)
    with (S (String.length s - S (String.length t))) by lia.
  now apply substring_tail with (a := a).
Qed.

(** X3.  A name that does not end in "s" and is neither an irregular plural
    nor an inherited member is its own singular. *)
Theorem toSingular_keeps_names_without_s (name : string) :
  endsWith name "s" = false ->
  assoc (toLowerCase name) irregulars = None ->
  includes inheritedMembers (toLowerCase name) = false ->
  toSingular name = Some name.
Proof.
  intros Hs Hirr Hinh. unfold toSingular. rewrite Hirr, Hinh.
  assert (Hies : endsWith name "ies" = false).
  { destruct (endsWith name "ies") eqn:E; [| reflexivity].
    apply endsWith_tail, endsWith_tail in E. congruence. }
  assert (Hves : endsWith name "ves" = false).
  { destruct (endsWith name "ves") eqn:E; [| reflexivity].
    apply endsWith_tail, endsWith_tail in E. congruence. }
  assert (Hes : endsWith name "es" = false).
  { destruct (endsWith name "es") eqn:E; [| reflexivity].
    apply endsWith_tail in E. congruence. }
  rewrite Hies, Hves, Hes, Hs. reflexivity.
Qed.

Lemma toSingular_keeps_names_without_s_witness :
  toSingular "guest_list" = Some "guest_list".
Proof.
  apply toSingular_keeps_names_without_s; reflexivity.
Defined.

Lemma pascalRest_not_lower c rest :
  isLower c = false -> startsLower (pascalRest (String c rest)) = false.
Proof.
  intros Hc. cbn [pascalRest].
  destruct (Ascii.eqb_spec c "_") as [->|Hne].
  - destruct rest as [|d rest']; [reflexivity |].
    destruct (isLower d) eqn:Hd; cbn [startsLower].
    + now destruct (upper_of_lower d Hd) as (_ & _ & H).
    + reflexivity.
  - cbn [startsLower]. exact Hc.
Qed.

Lemma toPascalCase_startsLower (str : string) :
  startsLower (toPascalCase str) = false.
Proof.
  destruct str as [|c rest]; [reflexivity |].
  unfold toPascalCase. destruct (isLower c) eqn:Hc.
  - cbn [startsLower]. now destruct (upper_of_lower c Hc) as (_ & _ & H).
  - now apply pascalRest_not_lower.
Qed.

(** X4.  A Pascal-case name never begins with a lower-case letter, so it is
    never equal to a camel-case name that does. *)
Theorem toPascalCase_never_starts_lower (str other : string) :
  startsLower (toPascalCase str) = false /\
  (startsLower other = true -> toPascalCase str <> other).
Proof.
  split; [apply toPascalCase_startsLower |].
  intros Ho E. rewrite <- E, toPascalCase_startsLower in Ho. discriminate Ho.
Qed.

(** ** Imports of the relation resolvers *)

Lemma includes_pascal_false (arr : list string) (s : string) :
  Forall (fun x => startsLower x = true) arr ->
  includes arr (toPascalCase s) = false.
Proof.
  intros Hall. destruct (includes arr (toPascalCase s)) eqn:E; [| reflexivity].
  apply includes_In in E. rewrite Forall_forall in Hall.
  specialize (Hall _ E). rewrite toPascalCase_startsLower in Hall.
  discriminate Hall.
Qed.

Lemma foreignKeyColumn_imports acc n c :
  Forall (fun x => startsLower x = true) (imports acc) ->
  match cc_references (dbConstraints c) with
  | Some references => hasSingular (ref_table references)
  | None => true
  end = true ->
  exists r,
    Types.foreignKeyColumn acc (n, c) = Ok r /\
    Forall (fun x => startsLower x = true) (imports r) /\
    imports r =
      (imports acc ++
       map relationImport
           match cc_references (dbConstraints c) with
           | Some references => [ref_table references]
           | None => []
           end)%list.
Proof.
  intros Hinv Hs. unfold Types.foreignKeyColumn.
  destruct (cc_references (dbConstraints c)) as [r|].
  - unfold hasSingular in Hs.
    destruct (toSingular (ref_table r)) as [s|] eqn:Es; [| discriminate].
    unfold toSingularPascalCase, toSingularCamelCase. rewrite Es. cbn [bind].
    rewrite (includes_pascal_false _ s Hinv). cbn [negb].
    eexists. split; [reflexivity |]. cbn [imports map]. split.
    + unfold push. apply Forall_app. split; [exact Hinv |].
      constructor; [reflexivity | constructor].
    + unfold push, relationImport, singularOf. now rewrite Es.
  - exists acc. cbn [map]. rewrite app_nil_r. auto.
Qed.

Lemma foreignKeyColumns_imports cols acc :
  Forall (fun x => startsLower x = true) (imports acc) ->
  forallb (fun '(_, col) =>
             match cc_references (dbConstraints col) with
             | Some references => hasSingular (ref_table references)
             | None => true
             end) cols = true ->
  exists r,
    forEachM Types.foreignKeyColumn cols acc = Ok r /\
    imports r =
      (imports acc ++
       map relationImport
           (flat_map (fun '(_, col) =>
                        match cc_references (dbConstraints col) with
                        | Some references => [ref_table references]
                        | None => []
                        end) cols))%list.
Proof.
  revert acc. induction cols as [|[n c] cols IH]; intros acc Hinv Hall.
  - exists acc. simpl. now rewrite app_nil_r.
  - cbn [forallb] in Hall. apply andb_true_iff in Hall as [Hc Hcs].
    destruct (foreignKeyColumn_imports acc n c Hinv Hc) as [r1 (E1 & I1 & R1)].
    destruct (IH r1 I1 Hcs) as [r [E R]].
    exists r. cbn [forEachM flat_map]. rewrite E1. cbn [bind].
    split; [exact E |]. rewrite R, R1, map_app. now rewrite app_assoc.
Qed.

(** X5.  The outgoing relations of a table carry one import line per column
    with a foreign key, in column order, duplicates included: the test
    [imports.includes(relatedType)] compares whole import lines with a type
    name and never holds, so there are as many imports as relations. *)
Theorem outgoing_imports_one_per_foreign_key table cols :
  columns table = Some cols ->
  targetsHaveSingular table = true ->
  exists r,
    Types.generateForeignKeyRelations table = Ok r /\
    imports r = map relationImport (referencedTables table) /\
    relations r = outgoingEntries table /\
    List.length (imports r) = List.length (relations r).
Proof.
  intros Hcols Ht.
  destruct (generateForeignKeyRelations_relations table cols Hcols Ht)
    as [r [E R]].
  exists r. split; [exact E |].
  assert (Hi : imports r = map relationImport (referencedTables table)).
  { unfold Types.generateForeignKeyRelations, targetsHaveSingular,
      referencedTables, columnsOf in *.
    rewrite Hcols in *. cbn [entriesOf bind] in E.
    destruct (foreignKeyColumns_imports cols noRelations (Forall_nil _) Ht)
      as [r' [E' R']].
    assert (r' = r) by congruence. subst r'. exact R'. }
  split; [exact Hi |]. split; [exact R |].
  rewrite Hi, R. unfold outgoingEntries. now rewrite !length_map.
Qed.

Lemma outgoing_imports_one_per_foreign_key_witness :
  exists r,
    Types.generateForeignKeyRelations transfersTable = Ok r /\
    imports r = ["import type { Guest } from '../guest';";
                 "import type { Guest } from '../guest';"].
Proof.
  destruct (outgoing_imports_one_per_foreign_key transfersTable
              [("id", idColumn);
               ("sender_id", columnReferencing "guests" "id");
               ("receiver_id", columnReferencing "guests" "id")]
              eq_refl eq_refl) as (r & E & I & _).
  exists r. split; [exact E | exact I].
Defined.

(** ** Sets and sorted lists of names *)

Lemma uniqueAcc_spec arr :
  forall seen,
    NoDup (uniqueAcc seen arr) /\
    forall x, In x (uniqueAcc seen arr) <-> In x arr /\ ~ In x seen.
Proof.
  induction arr as [|a arr IH]; intros seen; cbn [uniqueAcc].
  - split; [constructor | intros x; simpl; tauto].
  - destruct (includes seen a) eqn:Ei.
    + apply includes_In in Ei. destruct (IH seen) as [Hnd Hin].
      split; [exact Hnd |]. intros x. rewrite Hin. simpl.
      split; [tauto |]. intros [[<-|H] Hn]; [contradiction | tauto].
    + assert (Hna : ~ In a seen).
      { intros H. apply includes_In in H. congruence. }
      destruct (IH (a :: seen)) as [Hnd Hin]. split.
      * constructor; [| exact Hnd]. rewrite Hin. simpl. tauto.
      * intros x. simpl. rewrite Hin. simpl.
        destruct (string_dec a x) as [->|Hne]; tauto.
Qed.

(** X6.  The idiom [arr.filter((v, i, a) => a.indexOf(v) === i)] keeps every
    element of the array exactly once: the result has no duplicates and the
    same members, so a types file imports each related table once although
    the resolvers repeat the import lines. *)
Theorem unique_keeps_each_element_once (arr : list string) :
  NoDup (unique arr) /\ forall x, In x (unique arr) <-> In x arr.
Proof.
  unfold unique. destruct (uniqueAcc_spec arr []) as [Hnd Hin].
  split; [exact Hnd |]. intros x. rewrite Hin. simpl. tauto.
Qed.

Lemma insertSorted_perm x l : Permutation (Schemas.insertSorted x l) (x :: l).
Proof.
  induction l as [|y l IH]; cbn [Schemas.insertSorted]; [reflexivity |].
  destruct (String.leb x y); [reflexivity |].
  rewrite IH. apply perm_swap.
Qed.

Lemma sort_perm l : Permutation (Schemas.sort l) l.
Proof.
  induction l as [|x l IH]; cbn [Schemas.sort fold_right]; [reflexivity |].
  fold (Schemas.sort l). rewrite insertSorted_perm. now constructor.
Qed.

Lemma insertSorted_sorted x l :
  Sorted (fun a b => String.leb a b = true) l ->
  Sorted (fun a b => String.leb a b = true) (Schemas.insertSorted x l).
Proof.
  induction l as [|y l IH]; intros Hs; cbn [Schemas.insertSorted].
  - repeat constructor.
  - destruct (String.leb x y) eqn:E.
    + constructor; [exact Hs | constructor; exact E].
    + inversion Hs as [|? ? Hl Hhd]; subst.
      constructor; [apply IH; exact Hl |].
      assert (Hyx : String.leb y x = true).
      { destruct (String.leb_total x y) as [H|H]; [congruence | exact H]. }
      destruct l as [|z l]; cbn [Schemas.insertSorted].
      * constructor. exact Hyx.
      * destruct (String.leb x z); constructor; [exact Hyx |].
        now inversion Hhd.
Qed.

Lemma sort_sorted l :
  Sorted (fun a b => String.leb a b = true) (Schemas.sort l).
Proof.
  induction l as [|x l IH]; cbn [Schemas.sort fold_right]; [constructor |].
  fold (Schemas.sort l). now apply insertSorted_sorted.
Qed.

Lemma setAdd_keeps set x :
  NoDup set -> NoDup (Schemas.setAdd set x) /\
               forall y, In y set -> In y (Schemas.setAdd set x).
Proof.
  intros Hnd. unfold Schemas.setAdd, push.
  destruct (includes set x) eqn:E; [auto |]. split.
  - apply NoDup_app; [exact Hnd | repeat constructor; simpl; tauto |].
    intros y Hy [<-|[]]. apply includes_In in Hy. congruence.
  - intros y Hy. apply in_or_app. now left.
Qed.

Lemma columnTypeImport_keeps set type :
  NoDup set -> NoDup (Schemas.columnTypeImport set type) /\
               forall y, In y set -> In y (Schemas.columnTypeImport set type).
Proof.
  intros Hnd. unfold Schemas.columnTypeImport.
  repeat match goal with
         | |- context [if ?b then _ else _] => destruct b
         end; auto using setAdd_keeps.
Qed.

Lemma columnTypeImports_keep (cols : list (string * ColumnConfig)) :
  forall set,
    NoDup set ->
    NoDup (fold_left (fun set '(_, columnConfig) =>
                        Schemas.columnTypeImport
                          set (cc_type (dbConstraints columnConfig)))
                     cols set) /\
    forall y, In y set ->
              In y (fold_left (fun set '(_, columnConfig) =>
                                 Schemas.columnTypeImport
                                   set (cc_type (dbConstraints columnConfig)))
                              cols set).
Proof.
  induction cols as [|[n c] cols IH]; intros set Hnd; cbn [fold_left];
    [auto |].
  destruct (columnTypeImport_keeps set (cc_type (dbConstraints c)) Hnd)
    as [Hnd' Hin'].
  destruct (IH _ Hnd') as [Hnd'' Hin''].
  split; [exact Hnd'' | intros y Hy; apply Hin'', Hin', Hy].
Qed.

Lemma setAdd_In set x y :
  In y (Schemas.setAdd set x) <-> In y set \/ y = x.
Proof.
  unfold Schemas.setAdd, push. destruct (includes set x) eqn:E.
  - apply includes_In in E. split; [tauto |]. intros [H| ->]; assumption.
  - rewrite in_app_iff. simpl. intuition (subst; auto).
Qed.

Lemma columnTypeImport_In set type y :
  In y (Schemas.columnTypeImport set type) <->
  In y set \/ pgCoreNameOf type = Some y.
Proof.
  unfold Schemas.columnTypeImport, pgCoreNameOf, isNumericFamily, includes.
  cbn [existsb].
  repeat match goal with
         | |- context [String.eqb type ?s] =>
             let E := fresh "E" in
             destruct (String.eqb type s) eqn:E;
             [apply String.eqb_eq in E; subst type;
              cbn [String.eqb Ascii.eqb Bool.eqb orb andb] |]
         end;
    cbn [orb]; rewrite ?setAdd_In;
    (split; [intros [H|H]; [now left | right; now subst y]
            | intros [H|H]; [now left | try discriminate H;
                                        right; now injection H]]) ||
    (split; [intros H; now left | intros [H|H]; [exact H | discriminate H]]).
Qed.

Lemma columnTypeImports_In (cols : list (string * ColumnConfig)) y :
  forall set,
    In y (fold_left (fun set '(_, columnConfig) =>
                       Schemas.columnTypeImport
                         set (cc_type (dbConstraints columnConfig)))
                    cols set) <->
    In y set \/
    exists n c, In (n, c) cols /\
                pgCoreNameOf (cc_type (dbConstraints c)) = Some y.
Proof.
  induction cols as [|[n c] cols IH]; intros set; cbn [fold_left].
  - split; [tauto |]. intros [H|(n & c & [] & _)]. exact H.
  - rewrite IH, columnTypeImport_In. split.
    + intros [[H|H]|(n' & c' & Hin & H)]; [now left | |].
      * right. exists n, c. split; [now left | exact H].
      * right. exists n', c'. split; [now right | exact H].
    + intros [H|(n' & c' & [Heq|Hin] & H)].
      * left. now left.
      * injection Heq as <- <-. left. now right.
      * right. now exists n', c'.
Qed.

Lemma primaryKeyColumns_keyParts cols :
  Schemas.primaryKeyColumns cols = keyParts cols.
Proof.
  induction cols as [|[n c] cols IH]; [reflexivity |].
  unfold Schemas.primaryKeyColumns in *. cbn [filter keyParts].
  unfold truthyFlag at 1.
  destruct (cc_primaryKey (dbConstraints c)) as [[|]|]; cbn [andb];
    try exact IH.
  destruct (String.eqb (cc_type (dbConstraints c)) "serial"); cbn [negb];
    [exact IH |]. cbn [map fst]. now rewrite IH.
Qed.

Lemma keyParts_In cols name :
  In name (keyParts cols) <->
  exists col,
    In (name, col) cols /\
    cc_primaryKey (dbConstraints col) = Some true /\
    cc_type (dbConstraints col) <> "serial".
Proof.
  induction cols as [|[n c] cols IH]; cbn [keyParts].
  - split; [contradiction | intros (col & [] & _)].
  - assert (Hrest : In name (keyParts cols) <->
                    exists col, In (name, col) ((n, c) :: cols) /\
                                cc_primaryKey (dbConstraints col) = Some true /\
                                cc_type (dbConstraints col) <> "serial" /\
                                (n, c) <> (name, col)
                    \/ In name (keyParts cols)).
    { split; [intros H; exists c; now right |].
      intros (col & [H|H]); [| exact H].
      apply IH. destruct H as ([Heq|Hin] & Hk & Ht & Hne);
        [now contradiction Hne |]. now exists col. }
    destruct (cc_primaryKey (dbConstraints c)) as [[|]|] eqn:Ek;
      [destruct (String.eqb (cc_type (dbConstraints c)) "serial") eqn:Et | |].
    + apply String.eqb_eq in Et. rewrite IH. split.
      * intros (col & Hin & H). exists col. split; [now right | exact H].
      * intros (col & [Heq|Hin] & Hk & Hs).
        -- injection Heq as -> ->. contradiction.
        -- now exists col.
    + apply String.eqb_neq in Et. cbn [In]. rewrite IH. split.
      * intros [<-|(col & Hin & H)].
        -- exists c. split; [now left | now split].
        -- exists col. split; [now right | exact H].
      * intros (col & [Heq|Hin] & Hk & Hs).
        -- injection Heq as -> ->. now left.
        -- right. now exists col.
    + rewrite IH. split.
      * intros (col & Hin & H). exists col. split; [now right | exact H].
      * intros (col & [Heq|Hin] & Hk & Hs).
        -- injection Heq as -> ->. congruence.
        -- now exists col.
    + rewrite IH. split.
      * intros (col & Hin & H). exists col. split; [now right | exact H].
      * intros (col & [Heq|Hin] & Hk & Hs).
        -- injection Heq as -> ->. congruence.
        -- now exists col.
Qed.

Lemma hasEntries_spec {A : Type} (m : option (list (string * A))) :
  Schemas.hasEntries m = match m with Some (_ :: _) => true | _ => false end.
Proof. destruct m as [[|x l]|]; reflexivity. Qed.

(** X7.  The imports of a storage file: the first line imports from
    "drizzle-orm/pg-core" a list of names that is sorted and free of
    duplicates; a name is in the list exactly when it is "pgTable", or the
    name that the type of some column needs, or "index" and the table
    declares an index, or "primaryKey" and more than one non-serial column
    is flagged primary key.  A second line, importing "relations" from
    "drizzle-orm", is there exactly when the table declares a
    relationship. *)
Theorem schemaImports_sorted_set table cols :
  exists core,
    Schemas.schemaImports table cols =
      ("drizzle-orm/pg-core", core) ::
      match relationships table with
      | Some (_ :: _) => [("drizzle-orm", ["relations"])]
      | _ => []
      end /\
    NoDup core /\
    Sorted (fun a b => String.leb a b = true) core /\
    forall x,
      In x core <->
      x = "pgTable" \/
      (exists n c, In (n, c) cols /\
                   pgCoreNameOf (cc_type (dbConstraints c)) = Some x) \/
      (x = "index" /\ exists i rest, indexes table = Some (i :: rest)) \/
      (x = "primaryKey" /\ 1 < List.length (keyParts cols)).
Proof.
  unfold Schemas.schemaImports.
  rewrite primaryKeyColumns_keyParts, !hasEntries_spec.
  set (pg0 := fold_left _ cols ["pgTable"]).
  assert (H0 : NoDup pg0).
  { apply (columnTypeImports_keep cols ["pgTable"]).
    repeat constructor. simpl. tauto. }
  assert (I0 : forall x, In x pg0 <->
                         x = "pgTable" \/
                         exists n c, In (n, c) cols /\
                           pgCoreNameOf (cc_type (dbConstraints c)) = Some x).
  { intros x. unfold pg0. rewrite columnTypeImports_In. simpl.
    intuition (subst; auto). }
  set (pg1 := if match indexes table with Some (_ :: _) => true | _ => false end
              then Schemas.setAdd pg0 "index" else pg0).
  assert (H1 : NoDup pg1).
  { unfold pg1. destruct (indexes table) as [[|i rest]|]; try exact H0.
    now apply setAdd_keeps. }
  assert (I1 : forall x, In x pg1 <->
                         In x pg0 \/
                         (x = "index" /\
                          exists i rest, indexes table = Some (i :: rest))).
  { intros x. unfold pg1. destruct (indexes table) as [[|i rest]|].
    - split; [now left | intros [H|(_ & i & rest & H)];
                         [exact H | discriminate H]].
    - rewrite setAdd_In. split; intros [H|H]; auto; [| tauto].
      right. split; [exact H | now exists i, rest].
    - split; [now left | intros [H|(_ & i & rest & H)];
                         [exact H | discriminate H]]. }
  set (pg2 := if Nat.ltb 1 (List.length (keyParts cols))
              then Schemas.setAdd pg1 "primaryKey" else pg1).
  assert (H2 : NoDup pg2).
  { unfold pg2. destruct (Nat.ltb 1 (List.length (keyParts cols)));
      [now apply setAdd_keeps | exact H1]. }
  assert (I2 : forall x, In x pg2 <->
                         In x pg1 \/
                         (x = "primaryKey" /\ 1 < List.length (keyParts cols))).
  { intros x. unfold pg2.
    destruct (Nat.ltb 1 (List.length (keyParts cols))) eqn:E.
    - apply Nat.ltb_lt in E. rewrite setAdd_In. tauto.
    - apply Nat.ltb_ge in E. split; [now left | intros [H|[_ H]]; [exact H | lia]]. }
  assert (Hin : In "pgTable" pg2).
  { apply I2. left. apply I1. left. apply I0. now left. }
  exists (Schemas.sort pg2). split; [| split; [| split]].
  - destruct pg2 as [|p pg2']; [contradiction |].
    cbn [List.length Nat.ltb Nat.leb app].
    destruct (relationships table) as [[|r rest]|]; reflexivity.
  - apply (Permutation_NoDup (Permutation_sym (sort_perm pg2))). exact H2.
  - apply sort_sorted.
  - intros x. split.
    + intros H. apply (Permutation_in _ (sort_perm pg2)) in H.
      apply I2 in H as [H|H]; [| tauto].
      apply I1 in H as [H|H]; [| tauto].
      apply I0 in H. tauto.
    + intros H. apply (Permutation_in _ (Permutation_sym (sort_perm pg2))).
      apply I2. destruct H as [H|[H|[H|H]]]; [| | | now right];
        left; apply I1; [left; apply I0; now left
                        | left; apply I0; now right | now right].
Qed.

(** ** Keys in the storage and validation emitters *)

Lemma no_column_key_under_composite cc :
  String.eqb (cc_type cc) "serial" = false ->
  hasKind KPrimaryKey (Schemas.drizzleConstraints cc true) = false.
Proof.
  intros Hs. unfold Schemas.drizzleConstraints. rewrite Hs.
  destruct (cc_references cc) as [references|];
    destruct (cc_default cc) as [[n|d|b|]|];
    try destruct (String.eqb d "now()");
    destruct (isNumericFamily (cc_type cc));
    destruct (truthyFlag (cc_nullable cc));
    destruct (truthyFlag (cc_unique cc));
    destruct (truthyFlag (cc_primaryKey cc));
    reflexivity.
Qed.

(** X8.  When more than one column is flagged primary key with a type other
    than serial, the table definition carries one table-level constraint
    listing exactly those columns in column order, ahead of the index
    lines, and no non-serial column carries a primary-key modifier of its
    own. *)
Theorem composite_key_is_one_table_constraint table enums cols :
  columns table = Some cols ->
  1 < List.length (keyParts cols) ->
  Schemas.generateTableDefinition table enums =
    Ok ("export const " ++ toCamelCase (tableName table) ++ " = pgTable('" ++
        tableName table ++ "', {" ++ nl ++
        join ("," ++ nl)
          (map (fun '(columnName, columnConfig) =>
                  "  " ++ toCamelCase columnName ++ ": " ++
                  Schemas.drizzleColumnType
                    columnName (dbConstraints columnConfig) enums ++
                  join "" (Schemas.drizzleConstraints
                             (dbConstraints columnConfig) true))
               cols) ++ nl ++
        "}, (table) => [" ++ nl ++
        join ("," ++ nl)
          (compositeKeyLine (keyParts cols) :: indexConstraintLines table) ++
        nl ++ "]);") /\
  (forall name,
      In name (keyParts cols) <->
      exists col,
        In (name, col) cols /\
        cc_primaryKey (dbConstraints col) = Some true /\
        cc_type (dbConstraints col) <> "serial") /\
  forall name col,
    In (name, col) cols ->
    cc_type (dbConstraints col) <> "serial" ->
    hasKind KPrimaryKey (Schemas.drizzleConstraints (dbConstraints col) true) = false.
Proof.
  intros Hcols Hpk. split; [| split].
  - unfold Schemas.generateTableDefinition, indexConstraintLines,
      compositeKeyLine, Schemas.tableColumnRefs, Schemas.mapColumnToDrizzle.
    rewrite Hcols. cbn [entriesOf bind].
    rewrite primaryKeyColumns_keyParts, hasEntries_spec.
    apply Nat.ltb_lt in Hpk. rewrite Hpk.
    destruct (indexes table) as [[|i rest]|];
      unfold push; cbn [app List.length Nat.ltb Nat.leb map];
      rewrite ?app_nil_r; cbn [List.length Nat.ltb Nat.leb];
      rewrite ?append_assoc; reflexivity.
  - apply keyParts_In.
  - intros name col _ Hserial. apply no_column_key_under_composite.
    now apply String.eqb_neq.
Qed.

Lemma composite_key_is_one_table_constraint_witness :
  Schemas.generateTableDefinition bookingGuestsTable [] =
    Ok ("export const bookingGuests = pgTable('booking_guests', {" ++ nl ++
        "  bookingId: integer('booking_id').notNull()," ++ nl ++
        "  guestId: integer('guest_id').notNull()" ++ nl ++
        "}, (table) => [" ++ nl ++
        "  primaryKey({ columns: [table.bookingId, table.guestId] })" ++ nl ++
        "]);").
Proof.
  destruct (composite_key_is_one_table_constraint bookingGuestsTable []
              [("booking_id", keyPartColumn); ("guest_id", keyPartColumn)]
              eq_refl) as [H _].
  - simpl. lia.
  - rewrite H. reflexivity.
Defined.

Lemma valid_table_has_key table :
  Template.validateTableConfig table = Ok [] ->
  exists cols keyName keyCol,
    columns table = Some cols /\
    find (fun '(_, columnConfig) => isPrimaryKeyColumn columnConfig) cols =
      Some (keyName, keyCol) /\
    In (keyName, keyCol) cols /\ isPrimaryKeyColumn keyCol = true.
Proof.
  intros Hv. destruct (columns table) as [cols|] eqn:Hcols.
  - rewrite (validateTableConfig_present table cols Hcols) in Hv.
    injection Hv as Hv. unfold issuesInOrder in Hv.
    destruct (String.eqb (tableName table) ""); [discriminate Hv |].
    destruct (Nat.eqb (List.length cols) 0); [discriminate Hv |].
    destruct (find (fun '(_, columnConfig) => isPrimaryKeyColumn columnConfig)
                   cols) as [[keyName keyCol]|] eqn:Ef.
    + exists cols, keyName, keyCol.
      destruct (find_some _ _ Ef) as [Hin Hk]. auto.
    + destruct (existsb (fun '(_, col) => isPrimaryKeyColumn col) cols) eqn:Ee;
        [| discriminate Hv].
      apply existsb_exists in Ee as [[n c] [Hin Hk]].
      pose proof (find_none _ _ Ef (n, c) Hin) as Hn. cbn beta iota in Hn.
      congruence.
  - unfold Template.validateTableConfig in Hv. rewrite Hcols in Hv.
    cbn [entriesOf bind] in Hv. discriminate Hv.
Qed.

(** X9.  For a table that passes the validator, the update schema is always
    the partial insert schema extended with one field: the first column,
    in column order, that is flagged primary key or serial, with its bare
    type (no default, nullable or optional modifier).  The branch for a
    table without a key is not reached behind the validator. *)
Theorem update_schema_reasserts_first_key table enums singular :
  Template.validateTableConfig table = Ok [] ->
  toSingular (tableName table) = Some singular ->
  exists cols keyName keyCol,
    columns table = Some cols /\
    find (fun '(_, columnConfig) => isPrimaryKeyColumn columnConfig) cols =
      Some (keyName, keyCol) /\
    Validation.generateUpdateSchema table enums =
      Ok ("export const " ++ toPascalCase singular ++ "UpdateSchema = " ++
          toPascalCase singular ++ "InsertSchema.partial().extend({" ++ nl ++
          "  " ++ toCamelCase keyName ++ ": " ++
          Validation.generateBaseZodType keyCol enums ++ nl ++
          "});").
Proof.
  intros Hv Hs.
  destruct (valid_table_has_key table Hv)
    as (cols & keyName & keyCol & Hcols & Hfind & _ & _).
  exists cols, keyName, keyCol. split; [exact Hcols |]. split; [exact Hfind |].
  unfold Validation.generateUpdateSchema, toSingularPascalCase.
  rewrite Hs, Hcols. cbn [bind entriesOf]. rewrite Hfind.
  rewrite ?append_assoc. reflexivity.
Qed.

Lemma update_schema_reasserts_first_key_witness :
  Validation.generateUpdateSchema usersTable [] =
    Ok ("export const UserUpdateSchema = UserInsertSchema.partial().extend({" ++
        nl ++ "  id: z.number().int()" ++ nl ++ "});").
Proof.
  destruct (update_schema_reasserts_first_key usersTable [] "user"
              eq_refl eq_refl) as (cols & keyName & keyCol & Hc & Hf & H).
  injection Hc as <-. injection Hf as <- <-. rewrite H. reflexivity.
Defined.

(** ** Failure of a run *)





(** ** Runs that end well *)

Lemma emits_eq k k' m : k = k' -> Emits k m -> Emits k' m.
Proof. now intros ->. Qed.

Lemma emits_ret : Emits 0 (ret tt).
Proof.
  intros n. exists []. split; [reflexivity |]. intros clock files.
  unfold ret. cbn [render map]. now rewrite app_nil_r, Nat.add_0_r.
Qed.

Lemma emits_bind a b (m k : Gen unit) :
  Emits a m -> Emits b k -> Emits (a + b) (_ <~ m ;; k).
Proof.
  intros Hm Hk n.
  destruct (Hm n) as (sk1 & L1 & E1). destruct (Hk (n + a)) as (sk2 & L2 & E2).
  exists (sk1 ++ sk2)%list. split; [rewrite length_app; lia |].
  intros clock files. unfold bindG. rewrite E1, E2, render_app.
  now rewrite app_assoc, Nat.add_assoc.
Qed.

Lemma emits_forOf {A : Type} (body : A -> Gen unit) (xs : list A) :
  (forall x, In x xs -> Emits 1 (body x)) ->
  Emits (List.length xs) (forOf body xs).
Proof.
  induction xs as [|x xs IH]; intros Hbody; cbn [forOf List.length].
  - apply emits_ret.
  - apply (emits_bind 1 (List.length xs)).
    + apply Hbody. now left.
    + apply IH. intros y Hy. apply Hbody. now right.
Qed.

Lemma emits_exitOnError k m : Emits k m -> Emits k (exitOnError m).
Proof.
  intros Hm n. destruct (Hm n) as (sk & L & E). exists sk.
  split; [exact L |]. intros clock files. unfold exitOnError. now rewrite E.
Qed.

Lemma emits_header_then_write (description path : string)
      (text : string -> string) (body : string) :
  (forall header, text header = header ++ body) ->
  Emits 1 (content <~ generateFileHeader description ;;
           writeAndFormatFile path (text content)).
Proof.
  intros Htext n. exists [(path, description, n, body)].
  split; [reflexivity |]. intros clock files.
  cbv [bindG generateFileHeader toISOStringNow ret writeAndFormatFile
       reads written render map].
  rewrite Htext. now rewrite Nat.add_1_r.
Qed.

Lemma emits_emit (m : Gen string) (fileName : Res string)
      (path : string -> string) f :
  StampableOk m -> fileName = Ok f ->
  Emits 1 (content <~ m ;;
           fileName <~ lift fileName ;;
           writeAndFormatFile (path fileName) content).
Proof.
  intros (d & body & E) -> n. exists [(path f, d, n, body)].
  split; [reflexivity |]. intros clock files.
  unfold bindG, lift, writeAndFormatFile. rewrite E.
  cbn [tick reads written render map]. now rewrite Nat.add_1_r.
Qed.

Lemma ready_facts table :
  readyTable table = true ->
  requireValidTable Template.validateTableConfig table = Ok tt /\
  (exists cols, columns table = Some cols) /\
  (exists singular, toSingular (tableName table) = Some singular) /\
  targetsHaveSingular table = true /\
  scannable table = true.
Proof.
  unfold readyTable. intros H.
  apply andb_true_iff in H as [H Ht]. apply andb_true_iff in H as [Hv Hs].
  assert (Hvalid : Template.validateTableConfig table = Ok []).
  { destruct (Template.validateTableConfig table) as [[|issue issues]|e];
      [reflexivity | discriminate Hv | discriminate Hv]. }
  destruct (valid_table_has_key table Hvalid) as (cols & _ & _ & Hcols & _).
  split; [unfold requireValidTable; now rewrite Hvalid |].
  split; [eauto |]. split.
  - unfold hasSingular in Hs.
    destruct (toSingular (tableName table)); [eauto | discriminate Hs].
  - split; [exact Ht |]. unfold scannable. now rewrite Hcols, Hs.
Qed.

Lemma ready_tables_scannable tables :
  forallb readyTable tables = true -> forallb scannable tables = true.
Proof.
  rewrite !forallb_forall. intros H t Ht.
  now destruct (ready_facts t (H t Ht)) as (_ & _ & _ & _ & Hs).
Qed.

Lemma generateUpdateSchema_returns table enums cols singular :
  columns table = Some cols ->
  toSingular (tableName table) = Some singular ->
  exists text, Validation.generateUpdateSchema table enums = Ok text.
Proof.
  intros Hcols Hs. unfold Validation.generateUpdateSchema, toSingularPascalCase.
  rewrite Hs, Hcols. cbn [bind entriesOf].
  destruct (find _ cols) as [[k c]|]; eexists; reflexivity.
Qed.

Lemma stampableOk_generateTableValidation table enums :
  readyTable table = true ->
  StampableOk (Validation.generateTableValidation table enums).
Proof.
  intros Hready.
  destruct (ready_facts table Hready)
    as (Hreq & [cols Hcols] & [singular Hs] & _ & _).
  pose proof (generateInsertSchema_eq table enums cols singular Hcols Hs) as Hi.
  destruct (generateUpdateSchema_returns table enums cols singular Hcols Hs)
    as [update Hu].
  assert (Hb : exists base, Validation.generateTableSchema table enums = Ok base).
  { unfold Validation.generateTableSchema, toSingularPascalCase.
    rewrite Hs, Hcols. eexists. reflexivity. }
  destruct Hb as [base Hb].
  assert (Hp : toSingularPascalCase (tableName table) = Ok (toPascalCase singular)).
  { unfold toSingularPascalCase. now rewrite Hs. }
  unfold Validation.generateTableValidation.
  rewrite Hreq, Hcols.
  destruct (Validation.generateTableSchema table enums) as [base'|e];
    [| discriminate Hb].
  destruct (Validation.generateInsertSchema table enums) as [insert|e];
    [| discriminate Hi].
  destruct (Validation.generateUpdateSchema table enums) as [update'|e];
    [| discriminate Hu].
  destruct (toSingularPascalCase (tableName table)) as [name|e];
    [| discriminate Hp].
  exists ("Zod validation schemas for " ++ tableName table ++ " table").
  eexists. intros clock w. run_gen. cbn [entriesOf].
  f_equal. f_equal. header_then_body.
Qed.

Lemma generateRelationshipTypes_returns table allTables cols singular fk rev :
  columns table = Some cols ->
  toSingular (tableName table) = Some singular ->
  Types.generateForeignKeyRelations table = Ok fk ->
  Types.generateReverseRelations table allTables = Ok rev ->
  exists text, Types.generateRelationshipTypes table allTables = Ok text.
Proof.
  intros Hcols Hs Hfk Hrev.
  unfold Types.generateRelationshipTypes, toSingularPascalCase.
  rewrite Hs, Hfk, Hrev. cbn [bind].
  destruct (Nat.eqb _ 0); eexists; reflexivity.
Qed.

Lemma stampableOk_generateTableTypes table enums allTables :
  readyTable table = true ->
  forallb scannable allTables = true ->
  StampableOk (Types.generateTableTypes table enums allTables).
Proof.
  intros Hready Hall.
  destruct (ready_facts table Hready)
    as (Hreq & [cols Hcols] & [singular Hs] & Ht & _).
  destruct (generateForeignKeyRelations_relations table cols Hcols Ht)
    as [fk [Hfk _]].
  destruct (generateReverseRelations_relations table allTables Hall)
    as [rev [Hrev _]].
  destruct (generateRelationshipTypes_returns table allTables cols singular
              fk rev Hcols Hs Hfk Hrev) as [rel Hrel].
  assert (Hapi : exists api, Types.generateApiTypes table = Ok api).
  { unfold Types.generateApiTypes, toSingularPascalCase. rewrite Hs.
    eexists. reflexivity. }
  destruct Hapi as [api Hapi].
  assert (Hp : toSingularPascalCase (tableName table) = Ok (toPascalCase singular)).
  { unfold toSingularPascalCase. now rewrite Hs. }
  unfold Types.generateTableTypes. rewrite Hreq.
  destruct (toSingularPascalCase (tableName table)) as [baseName|e];
    [| discriminate Hp].
  destruct (Types.generateForeignKeyRelations table) as [fk'|e];
    [| discriminate Hfk].
  destruct (Types.generateReverseRelations table allTables) as [rev'|e];
    [| discriminate Hrev].
  destruct (Types.generateApiTypes table) as [api'|e]; [| discriminate Hapi].
  destruct (Types.generateRelationshipTypes table allTables) as [rel'|e];
    [| discriminate Hrel].
  exists ("TypeScript extension types for " ++ tableName table ++ " table").
  destruct (Nat.ltb 0 (List.length (unique (imports fk' ++ imports rev')%list)))
    eqn:Ei;
    destruct (negb (String.eqb rel' "")) eqn:Er;
    eexists; intros clock w; run_gen; rewrite Ei, Er;
    f_equal; f_equal; header_then_body.
Qed.

Lemma tableImports_returns targets :
  Forall (fun target => hasSingular target = true) targets ->
  exists block, Schemas.tableImports targets = Ok block.
Proof.
  intros Hall. unfold Schemas.tableImports.
  destruct (Nat.ltb 0 (List.length targets)); [| eexists; reflexivity].
  generalize ("// Table imports for foreign keys" ++ nl).
  induction Hall as [|target targets Ht _ IH]; intros content;
    cbn [forEachM bind].
  - eexists. reflexivity.
  - unfold hasSingular in Ht. unfold toSingularCamelCase.
    destruct (toSingular target); [| discriminate Ht]. cbn [bind]. apply IH.
Qed.

Lemma targets_have_singular table cols :
  columns table = Some cols ->
  targetsHaveSingular table = true ->
  Forall (fun target => hasSingular target = true)
         (flat_map (fun '(_, col) =>
                      match cc_references (dbConstraints col) with
                      | Some references => [ref_table references]
                      | None => []
                      end) cols).
Proof.
  intros Hcols Ht. unfold targetsHaveSingular, columnsOf in Ht.
  rewrite Hcols in Ht. rewrite forallb_forall in Ht.
  apply Forall_forall. intros target Hin.
  apply in_flat_map in Hin as [[n c] [Hc Hin]].
  specialize (Ht _ Hc). cbn beta iota in Ht.
  destruct (cc_references (dbConstraints c)) as [r|]; [| contradiction].
  destruct Hin as [<-|[]]. exact Ht.
Qed.

Lemma stampableOk_generateTableSchema table enums :
  readyTable table = true ->
  StampableOk (Schemas.generateTableSchema table enums).
Proof.
  intros Hready.
  destruct (ready_facts table Hready)
    as (Hreq & [cols Hcols] & _ & Ht & _).
  assert (Hd : exists definition,
             Schemas.generateTableDefinition table enums = Ok definition).
  { unfold Schemas.generateTableDefinition. rewrite Hcols.
    eexists. reflexivity. }
  destruct Hd as [definition Hd].
  unfold Schemas.generateTableSchema. rewrite Hreq, Hcols.
  cbn [entriesOf]. run_gen.
  match goal with
  | |- context [Schemas.tableImports ?l] =>
      assert (Hi : exists block, Schemas.tableImports l = Ok block);
        [| destruct Hi as [block Hi];
           destruct (Schemas.tableImports l) as [imports|e];
           [| discriminate Hi]]
  end.
  { apply tableImports_returns.
    pose proof (targets_have_singular table cols Hcols Ht) as Hall.
    rewrite Forall_forall in Hall. apply Forall_forall. intros x Hx.
    apply Hall. unfold unique in Hx.
    now apply (proj2 (uniqueAcc_spec _ [])) in Hx. }
  destruct (Schemas.generateTableDefinition table enums) as [definition'|e];
    [| discriminate Hd].
  exists ("Drizzle schema for " ++ tableName table ++ " table").
  eexists. intros clock w. run_gen. f_equal. f_equal. header_then_body.
Qed.

Lemma emits_generateModelAggregation tables type :
  forallb (fun table => hasSingular (tableName table)) tables = true ->
  Emits 1 (Aggregation.generateModelAggregation tables type).
Proof.
  intros Hall. unfold Aggregation.generateModelAggregation. intros n.
  match goal with
  | |- context [forEachM ?f tables _] => set (step := f)
  end.
  assert (Hstep : forall c x, step c x = (y <- step "" x ;; Ok (c ++ y))).
  { intros c x. unfold step.
    destruct (toSingularCamelCase (tableName x)); reflexivity. }
  pose proof (forEachM_prefix step tables Hstep) as Hp.
  assert (Hok : exists exports, forEachM step tables "" = Ok exports).
  { clear Hp Hstep. generalize "". unfold step.
    induction tables as [|t ts IH]; intros c; cbn [forEachM];
      [eexists; reflexivity |].
    cbn [forallb] in Hall. apply andb_true_iff in Hall as [Ht Hts].
    unfold hasSingular in Ht. unfold toSingularCamelCase.
    destruct (toSingular (tableName t)); [| discriminate Ht].
    cbn [bind]. now apply IH. }
  destruct Hok as [exports E].
  eexists [("./src/models/" ++ kindName type ++ ".ts",
            Aggregation.descriptions type, n, _)].
  split; [reflexivity |].
  intros clock files. run_gen. rewrite Hp, E. cbn [bind render map].
  rewrite ?append_assoc, Nat.add_1_r. reflexivity.
Qed.

Lemma emits_generateEnumsValidation enums :
  Emits 1 (Validation.generateEnumsValidation enums).
Proof.
  unfold Validation.generateEnumsValidation.
  eapply emits_header_then_write. intros header. cbv beta zeta.
  rewrite fold_left_prefix by (intros c [enumName config]; reflexivity).
  rewrite ?append_assoc. reflexivity.
Qed.

Lemma emits_generateEnumsTypes enums : Emits 1 (Types.generateEnumsTypes enums).
Proof.
  unfold Types.generateEnumsTypes.
  eapply emits_header_then_write. intros header. cbv beta zeta.
  rewrite fold_left_prefix by (intros c [enumName config]; reflexivity).
  rewrite ?append_assoc. reflexivity.
Qed.

Lemma emits_generateUtilityTypes : Emits 1 Types.generateUtilityTypes.
Proof.
  unfold Types.generateUtilityTypes.
  eapply emits_header_then_write. intros header. reflexivity.
Qed.

Lemma emits_generateEnumsFile enums : Emits 1 (Schemas.generateEnumsFile enums).
Proof.
  unfold Schemas.generateEnumsFile.
  eapply emits_header_then_write. intros header. cbv beta zeta.
  rewrite ?append_assoc. reflexivity.
Qed.

Lemma ready_names_have_singular tables :
  forallb readyTable tables = true ->
  forallb (fun table => hasSingular (tableName table)) tables = true.
Proof.
  rewrite !forallb_forall. intros H t Ht.
  destruct (ready_facts t (H t Ht)) as (_ & _ & [s Hs] & _).
  unfold hasSingular. now rewrite Hs.
Qed.

Lemma ready_fileName table :
  readyTable table = true ->
  exists f, toSingularCamelCase (tableName table) = Ok f.
Proof.
  intros H. destruct (ready_facts table H) as (_ & _ & [s Hs] & _).
  unfold toSingularCamelCase. rewrite Hs. eauto.
Qed.

Lemma emits_generateModels enums tables :
  forallb readyTable tables = true ->
  Emits (3 * List.length tables + 7)
        (Models.generateModels defaultOptions enums tables).
Proof.
  intros Hready.
  pose proof (ready_tables_scannable tables Hready) as Hscan.
  pose proof (ready_names_have_singular tables Hready) as Hnames.
  assert (Hin : forall t, In t tables -> readyTable t = true).
  { now apply forallb_forall. }
  { unfold Models.generateModels, Models.when, defaultOptions.
    cbn [truthyFlag validationOnly schemasOnly typesOnly negb andb orb].
    apply emits_exitOnError.
    apply (emits_eq ((1 + (List.length tables + 1)) +
                     ((1 + (1 + (List.length tables + 1))) +
                      (1 + (List.length tables + 1))))); [lia |].
    apply emits_bind; [| apply emits_bind].
    - unfold Validation.generateZodSchemas. apply emits_exitOnError.
      apply emits_bind; [apply emits_generateEnumsValidation |].
      apply emits_bind; [| now apply emits_generateModelAggregation].
      apply emits_forOf. intros t Ht.
      destruct (ready_fileName t (Hin t Ht)) as [f Hf].
      apply (emits_emit (Validation.generateTableValidation t enums)
               (toSingularCamelCase (tableName t))
               (fun fileName => "./src/models/" ++ fileName ++ "/validation.ts")
               f); [| exact Hf].
      apply stampableOk_generateTableValidation, Hin, Ht.
    - unfold Types.generateTypeScriptTypes. apply emits_exitOnError.
      apply emits_bind; [apply emits_generateEnumsTypes |].
      apply emits_bind; [apply emits_generateUtilityTypes |].
      apply emits_bind; [| now apply emits_generateModelAggregation].
      apply emits_forOf. intros t Ht.
      destruct (ready_fileName t (Hin t Ht)) as [f Hf].
      apply (emits_emit (Types.generateTableTypes t enums tables)
               (toSingularCamelCase (tableName t))
               (fun fileName => "./src/models/" ++ fileName ++ "/types.ts")
               f); [| exact Hf].
      apply stampableOk_generateTableTypes; [apply Hin, Ht | exact Hscan].
    - unfold Schemas.generateDrizzleSchemas. apply emits_exitOnError.
      apply emits_bind; [apply emits_generateEnumsFile |].
      apply emits_bind; [| now apply emits_generateModelAggregation].
      apply emits_forOf. intros t Ht.
      destruct (ready_fileName t (Hin t Ht)) as [f Hf].
      apply (emits_emit (Schemas.generateTableSchema t enums)
               (toSingularCamelCase (tableName t))
               (fun fileName => "./src/models/" ++ fileName ++ "/schema.ts")
               f); [| exact Hf].
      apply stampableOk_generateTableSchema, Hin, Ht. }
Qed.

(** X11.  On a model in which every table passes the validator and every
    table name and foreign-key target has a singular, the run with the
    default options ends well, whatever the clock: it reads the clock and
    writes a file 3n + 7 times for n tables (per generator the enum file,
    one file per table and the aggregation file, and the utility types). *)
Theorem ready_model_run_ends_well enums tables :
  forallb readyTable tables = true ->
  exists skeleton : list Stamped,
    List.length skeleton = 3 * List.length tables + 7 /\
    forall clock,
      Models.generateModels defaultOptions enums tables clock initialWorld =
      (Ok tt, {| reads := 3 * List.length tables + 7;
                 written := render clock skeleton |}).
Proof.
  intros Hready.
  destruct (emits_generateModels enums tables Hready 0) as (skeleton & L & E).
  exists skeleton. split; [exact L |].
  intros clock. unfold initialWorld. rewrite E. reflexivity.
Qed.

Lemma ready_model_run_ends_well_witness :
  fst (Models.generateModels defaultOptions [] [guestsTable; bookingsTable]
         morningClock initialWorld) = Ok tt /\
  List.length (written (snd (Models.generateModels defaultOptions []
                               [guestsTable; bookingsTable]
                               morningClock initialWorld))) = 13.
Proof.
  destruct (ready_model_run_ends_well [] [guestsTable; bookingsTable] eq_refl)
    as (skeleton & L & E).
  rewrite E. cbn [fst snd written]. split; [reflexivity |].
  unfold render. rewrite length_map. exact L.
Defined.

(** ** Errors of the relationship resolver *)

Lemma forEachM_throws_TypeError {A S : Type} (body : S -> A -> Res S) l :
  (forall acc x e, body acc x = Throw e -> e = TypeError) ->
  forall acc e, forEachM body l acc = Throw e -> e = TypeError.
Proof.
  intros Hbody. induction l as [|x l IH]; intros acc e H; cbn [forEachM] in H.
  - discriminate H.
  - destruct (body acc x) as [acc'|e'] eqn:E; cbn [bind] in H.
    + now apply IH in H.
    + injection H as <-. now apply Hbody in E.
Qed.

Lemma reverseColumn_throws_TypeError other name acc entry e :
  Types.reverseColumn other name acc entry = Throw e -> e = TypeError.
Proof.
  destruct entry as [n c]. unfold Types.reverseColumn.
  destruct (cc_references (dbConstraints c)) as [r|]; [| discriminate].
  destruct (String.eqb (ref_table r) name); [| discriminate].
  unfold toSingularPascalCase, toSingularCamelCase.
  destruct (toSingular (tableName other)); cbn [bind]; [discriminate |].
  now intros [= <-].
Qed.

Lemma reverseTable_throws_TypeError name acc other e :
  Types.reverseTable name acc other = Throw e -> e = TypeError.
Proof.
  unfold Types.reverseTable.
  destruct (String.eqb (tableName other) name); [discriminate |].
  destruct (columns other) as [cols|]; cbn [entriesOf bind].
  - apply forEachM_throws_TypeError. intros acc' x e'.
    apply reverseColumn_throws_TypeError.
  - now intros [= <-].
Qed.

(** X12.  One descriptor without a column map breaks the incoming relations
    of every table with another name: the scan throws a TypeError, wherever
    the descriptor stands in the loaded set and whether or not it
    references the table. *)
Theorem missing_columns_break_incoming_scan table allTables other :
  In other allTables ->
  columns other = None ->
  tableName other <> tableName table ->
  Types.generateReverseRelations table allTables = Throw TypeError.
Proof.
  intros Hin Hcols Hne. unfold Types.generateReverseRelations.
  generalize noRelations.
  induction allTables as [|t ts IH]; intros acc; [contradiction |].
  cbn [forEachM].
  destruct (Types.reverseTable (tableName table) acc t) as [acc'|e] eqn:E;
    cbn [bind].
  - destruct Hin as [->|Hin]; [| now apply IH].
    unfold Types.reverseTable in E.
    apply String.eqb_neq in Hne. rewrite Hne, Hcols in E. discriminate E.
  - now apply reverseTable_throws_TypeError in E as ->.
Qed.

Lemma missing_columns_break_incoming_scan_witness :
  Types.generateReverseRelations guestsTable
    [guestsTable; bookingsTable; ledgerWithoutColumns] = Throw TypeError.
Proof.
  apply (missing_columns_break_incoming_scan guestsTable _ ledgerWithoutColumns).
  - right. right. left. reflexivity.
  - reflexivity.
  - discriminate.
Defined.

(** X13.  The incoming relations follow the order of the loaded set: over
    two lists of tables one after the other they are the relations over the
    first list followed by the relations over the second. *)
Theorem incoming_relations_follow_load_order table l1 l2 :
  forallb scannable (l1 ++ l2) = true ->
  exists r r1 r2,
    Types.generateReverseRelations table (l1 ++ l2) = Ok r /\
    Types.generateReverseRelations table l1 = Ok r1 /\
    Types.generateReverseRelations table l2 = Ok r2 /\
    relations r = (relations r1 ++ relations r2)%list.
Proof.
  intros Hall. pose proof Hall as Hboth. rewrite forallb_app in Hboth.
  apply andb_true_iff in Hboth as [H1 H2].
  destruct (generateReverseRelations_relations table _ Hall) as [r [E R]].
  destruct (generateReverseRelations_relations table _ H1) as [r1 [E1 R1]].
  destruct (generateReverseRelations_relations table _ H2) as [r2 [E2 R2]].
  exists r, r1, r2. repeat split; try assumption.
  rewrite R, R1, R2. apply incomingEntries_app.
Qed.

Lemma incoming_relations_follow_load_order_witness :
  exists r,
    Types.generateReverseRelations guestsTable
      ([guestsArchiveTable] ++ [bookingsTable]) = Ok r /\
    relations r = ["  guestsArchives?: GuestsArchive[];";
                   "  bookings?: Booking[];"].
Proof.
  destruct (incoming_relations_follow_load_order guestsTable
              [guestsArchiveTable] [bookingsTable] eq_refl)
    as (r & r1 & r2 & E & E1 & E2 & R).
  exists r. split; [exact E |]. rewrite R.
  injection E1 as <-. injection E2 as <-. reflexivity.
Defined.

(** ** Bounds, mappers and enum lookups *)

(** X14.  A bound of zero is dropped: in the validation expression a column
    with [min: 0] reads as a column without [min], and one with [max: 0] as
    a column without [max] (for a text column the length then stands in
    for it). *)
Theorem zero_bounds_are_dropped cc required min max pattern email url enums :
  Validation.generateBaseZodType
    {| dbConstraints := cc;
       validation := Some {| cv_required := required; cv_min := Some 0%Z;
                             cv_max := max; cv_pattern := pattern;
                             cv_email := email; cv_url := url |} |} enums =
  Validation.generateBaseZodType
    {| dbConstraints := cc;
       validation := Some {| cv_required := required; cv_min := None;
                             cv_max := max; cv_pattern := pattern;
                             cv_email := email; cv_url := url |} |} enums /\
  Validation.generateBaseZodType
    {| dbConstraints := cc;
       validation := Some {| cv_required := required; cv_min := min;
                             cv_max := Some 0%Z; cv_pattern := pattern;
                             cv_email := email; cv_url := url |} |} enums =
  Validation.generateBaseZodType
    {| dbConstraints := cc;
       validation := Some {| cv_required := required; cv_min := min;
                             cv_max := None; cv_pattern := pattern;
                             cv_email := email; cv_url := url |} |} enums.
Proof. split; reflexivity. Qed.

(** X15.  The surface type of a column is one of string, number, Date and
    boolean, followed by [| null] exactly when the column is nullable. *)
Theorem surface_type_shape col :
  exists base,
    In base ["string"; "number"; "Date"; "boolean"] /\
    mapToTSType col =
      base ++ (if truthyFlag (cc_nullable (dbConstraints col))
               then " | null" else "").
Proof.
  unfold mapToTSType. exists (tsBaseType (cc_type (dbConstraints col))). split.
  - unfold tsBaseType.
    repeat match goal with
           | |- context [if ?b then _ else _] => destruct b
           end; simpl; tauto.
  - destruct (truthyFlag (cc_nullable (dbConstraints col)));
      [reflexivity | now rewrite append_nil_r].
Qed.

(** X16.  For a column of the numeric family (numeric, decimal, money) the
    type mapper and the validation emitter disagree: the mapper gives the
    surface type number and a validation expression that starts with
    [z.number()], the emitter validates a string with two decimals. *)
Theorem numeric_family_mapped_two_ways col enums :
  isNumericFamily (cc_type (dbConstraints col)) = true ->
  mapToTSType col =
    "number" ++ (if truthyFlag (cc_nullable (dbConstraints col))
                 then " | null" else "") /\
  beginsWith "z.number()" (mapToZodType col) = true /\
  Validation.generateBaseZodType col enums =
    "z.string().regex(/^\d+\.\d{2}$/, 'Invalid price format')".
Proof.
  intros Hn. unfold isNumericFamily in Hn.
  assert (Ht : cc_type (dbConstraints col) = "numeric" \/
               cc_type (dbConstraints col) = "decimal" \/
               cc_type (dbConstraints col) = "money").
  { rewrite !orb_true_iff, !String.eqb_eq in Hn. tauto. }
  unfold mapToTSType, tsBaseType, mapToZodType, zodMapperBase,
    Validation.generateBaseZodType, Validation.withMax, Validation.withMin.
  destruct Ht as [-> | [-> | ->]];
    cbn [String.eqb Ascii.eqb Bool.eqb orb andb isNumericFamily];
    (split; [destruct (truthyFlag (cc_nullable (dbConstraints col)));
             reflexivity |]);
    (split; [| reflexivity]);
    destruct (truthyNumber (cv_min (validationOf col)));
    destruct (truthyNumber (cv_max (validationOf col)));
    destruct (truthyFlag (cc_nullable (dbConstraints col)));
    destruct (truthyFlag (cv_required (validationOf col)));
    reflexivity.
Qed.

Lemma numeric_family_mapped_two_ways_witness :
  mapToTSType
    {| dbConstraints :=
         {| cc_type := "money"; cc_length := None; cc_precision := None;
            cc_scale := None; cc_nullable := Some true; cc_default := None;
            cc_primaryKey := None; cc_unique := None;
            cc_autoIncrement := None; cc_references := None |};
       validation := None |} = "number | null".
Proof.
  destruct (numeric_family_mapped_two_ways
              {| dbConstraints :=
                   {| cc_type := "money"; cc_length := None;
                      cc_precision := None; cc_scale := None;
                      cc_nullable := Some true; cc_default := None;
                      cc_primaryKey := None; cc_unique := None;
                      cc_autoIncrement := None; cc_references := None |};
                 validation := None |} [] eq_refl) as [H _].
  exact H.
Defined.

(** X17.  The type mapper and the validation emitter read a missing
    [required] differently: for a column that is not nullable and whose
    rules say nothing about [required], the mapper ends the expression with
    [.optional()], the emitter adds no modifier after the default. *)
Theorem mapper_marks_silent_columns_optional name col enums :
  truthyFlag (cc_nullable (dbConstraints col)) = false ->
  cv_required (validationOf col) = None ->
  mapToZodType col = zodMapperBase col ++ ".optional()" /\
  Validation.generateBaseSchemaField name col enums =
    "  " ++ toCamelCase name ++ ": " ++
    Validation.addDefaultValue (Validation.generateBaseZodType col enums) col.
Proof.
  intros Hn Hr. split.
  - unfold mapToZodType. rewrite Hn, Hr. reflexivity.
  - rewrite generateBaseSchemaField_eq. unfold Validation.requiredIsFalse.
    rewrite Hn, Hr. cbn [andb]. now rewrite !append_nil_r.
Qed.

Lemma mapper_marks_silent_columns_optional_witness :
  mapToZodType idColumn = "z.number().int().optional()" /\
  Validation.generateBaseSchemaField "id" idColumn [] = "  id: z.number().int()".
Proof.
  destruct (mapper_marks_silent_columns_optional "id" idColumn []
              eq_refl eq_refl) as [H1 H2].
  split; [rewrite H1 | rewrite H2]; reflexivity.
Defined.

Lemma findEnumKey_Some enums type key :
  findEnumKey enums type = Some key ->
  In key (map fst enums) /\ (key = type \/ key = type ++ "_enum").
Proof.
  unfold findEnumKey, findKey. intros H. apply find_some in H as [Hin Hp].
  split; [exact Hin |].
  apply orb_true_iff in Hp as [Hp|Hp]; apply String.eqb_eq in Hp; tauto.
Qed.

Lemma findEnumKey_None enums type :
  findEnumKey enums type = None ->
  ~ In type (map fst enums) /\ ~ In (type ++ "_enum") (map fst enums).
Proof.
  unfold findEnumKey, findKey. intros H.
  split; intros Hin; apply (find_none _ _ H) in Hin;
    apply orb_false_iff in Hin as [H1 H2];
    [rewrite String.eqb_refl in H1 | rewrite String.eqb_refl in H2];
    discriminate.
Qed.

(** X18.  The enum analysis of a table with a column map returns the
    column types that are an enum key, or become one with [_enum] appended,
    each once; and one import per such type, every import being a key of
    the enum map.  Without a column map it throws a TypeError. *)
Theorem analyzeEnumUsage_imports_are_keys table enums :
  match columns table with
  | Some cols =>
      exists usage,
        analyzeEnumUsage table enums = Ok usage /\
        NoDup (usedEnums usage) /\
        (forall type,
            In type (usedEnums usage) <->
            In type (map (fun entry => cc_type (dbConstraints (snd entry))) cols) /\
            (In type (map fst enums) \/ In (type ++ "_enum") (map fst enums))) /\
        List.length (enumImports usage) = List.length (usedEnums usage) /\
        Forall (fun key => In key (map fst enums)) (enumImports usage)
  | None => analyzeEnumUsage table enums = Throw TypeError
  end.
Proof.
  unfold analyzeEnumUsage. destruct (columns table) as [cols|];
    cbn [entriesOf bind]; [| reflexivity].
  eexists. split; [reflexivity |]. cbn [usedEnums enumImports].
  destruct (uniqueAcc_spec (enumTypesUsed cols enums) []) as [Hnd Hin].
  assert (Hmem : forall type,
             In type (unique (enumTypesUsed cols enums)) <->
             In type (map (fun entry => cc_type (dbConstraints (snd entry))) cols) /\
             (In type (map fst enums) \/ In (type ++ "_enum") (map fst enums))).
  { intros type. unfold unique. rewrite Hin. unfold enumTypesUsed.
    rewrite filter_In, orb_true_iff, !includes_In.
    replace (map (fun '(_, col) => cc_type (dbConstraints col)) cols)
      with (map (fun entry => cc_type (dbConstraints (snd entry))) cols)
      by (apply map_ext; now intros [n c]).
    simpl. tauto. }
  split; [exact Hnd |]. split; [exact Hmem |].
  split; [apply length_map |].
  - apply Forall_forall. intros key Hkey. apply in_map_iff in Hkey
      as (type & Hk & Htype). apply Hmem in Htype as [_ Hkeys].
    destruct (findEnumKey enums type) as [enumKey|] eqn:E.
    + destruct (findEnumKey_Some _ _ _ E) as [Hin' Heq].
      unfold truthyString in Hk.
      destruct (String.eqb enumKey "") eqn:Ee; cbn [negb] in Hk.
      * apply String.eqb_eq in Ee. subst enumKey key.
        destruct Heq as [<- | Heq]; [exact Hin' |].
        destruct type; discriminate Heq.
      * now subst key.
    + apply findEnumKey_None in E. tauto.
Qed.

(** ** Index files *)

Lemma exportLines_prefix exports content :
  IndexGeneration.exportLines exports content =
  content ++ IndexGeneration.exportLines exports "".
Proof.
  unfold IndexGeneration.exportLines. apply fold_left_prefix.
  intros c x. reflexivity.
Qed.

Lemma emits_generateModelIndex table exports :
  hasSingular (tableName table) = true ->
  Emits 1 (IndexGeneration.generateModelIndex table exports).
Proof.
  intros Hs. unfold hasSingular in Hs.
  unfold IndexGeneration.generateModelIndex, toSingularCamelCase,
    toSingularPascalCase.
  destruct (toSingular (tableName table)) as [s|]; [| discriminate Hs].
  intros n.
  exists [("./src/models/" ++ toCamelCase s ++ "/index.ts",
           toPascalCase s ++ " model exports", n,
           "// Export all generated files for this model" ++ nl ++
           IndexGeneration.exportLines exports "")].
  split; [reflexivity |]. intros clock files. run_gen.
  rewrite exportLines_prefix. cbn [render map].
  rewrite ?append_assoc, Nat.add_1_r. reflexivity.
Qed.

Lemma emits_generateEnumsIndex exports :
  Emits 1 (IndexGeneration.generateEnumsIndex exports).
Proof.
  unfold IndexGeneration.generateEnumsIndex.
  eapply emits_header_then_write. intros header. cbv beta zeta.
  rewrite exportLines_prefix, ?append_assoc. reflexivity.
Qed.

Lemma emits_generateUtilsIndex exports :
  Emits 1 (IndexGeneration.generateUtilsIndex exports).
Proof.
  unfold IndexGeneration.generateUtilsIndex.
  eapply emits_header_then_write. intros header. cbv beta zeta.
  rewrite exportLines_prefix, ?append_assoc. reflexivity.
Qed.

Lemma emits_generateAllModelIndexes tables :
  forallb (fun table => hasSingular (tableName table)) tables = true ->
  Emits (List.length tables + 2) (generateAllModelIndexes tables).
Proof.
  intros Hall. unfold generateAllModelIndexes.
  apply (emits_bind (List.length tables) 2).
  - apply emits_forOf. intros t Ht. apply emits_generateModelIndex.
    rewrite forallb_forall in Hall. now apply Hall.
  - apply (emits_bind 1 1);
      [apply emits_generateEnumsIndex | apply emits_generateUtilsIndex].
Qed.






(** X21.  On a model in which every table passes the validator and every
    table name and foreign-key target has a singular, the models-only entry
    point ends well, whatever the clock: the model run writes 3n + 7 files
    and the index pass n + 2 more, 4n + 9 files for n tables. *)
Theorem models_only_run_ends_well enums tables :
  forallb readyTable tables = true ->
  exists skeleton : list Stamped,
    List.length skeleton = 4 * List.length tables + 9 /\
    forall clock,
      generateModelsOnly enums tables clock initialWorld =
      (Ok tt, {| reads := 4 * List.length tables + 9;
                 written := render clock skeleton |}).
Proof.
  intros Hready.
  assert (H : Emits (4 * List.length tables + 9)
                    (generateModelsOnly enums tables)).
  { unfold generateModelsOnly. apply emits_exitOnError.
    apply (emits_eq ((3 * List.length tables + 7) +
                     (List.length tables + 2))); [lia |].
    apply emits_bind.
    - now apply emits_generateModels.
    - now apply emits_generateAllModelIndexes, ready_names_have_singular. }
  destruct (H 0) as (skeleton & L & E).
  exists skeleton. split; [exact L |].
  intros clock. unfold initialWorld. rewrite E. reflexivity.
Qed.

Lemma models_only_run_ends_well_witness :
  fst (generateModelsOnly [] [guestsTable; bookingsTable]
         morningClock initialWorld) = Ok tt /\
  List.length (written (snd (generateModelsOnly [] [guestsTable; bookingsTable]
                               morningClock initialWorld))) = 17.
Proof.
  destruct (models_only_run_ends_well [] [guestsTable; bookingsTable] eq_refl)
    as (skeleton & L & E).
  rewrite E. cbn [fst snd written]. split; [reflexivity |].
  unfold render. rewrite length_map. exact L.
Defined.
